(** * TvOverlay integration: notification client and payload builder

    A shallow embedding of [custom_components/tvoverlay_ui/api.py] and
    [custom_components/tvoverlay_ui/__init__.py].

    Modelling conventions.
    - Python text is [string]; the characters are ASCII code points (below
      128), on which [str.strip], [str.lower] and [str.upper] are modelled.
    - A Python scalar is a [pyval]; [None] is [VNone].  A [dict] with string
      keys is a [gmap string pyval]; [d.get(k)] is [dict_get].
    - A Python call that may raise returns a [result]; logging and the calls
      on host-platform objects are an explicit list of [effect]s.
    - [hass.data[DOMAIN]] is an association list in insertion order; an entry
      is addressed by its position, object identity of a client by [oid]. *)

From Stdlib Require Import ZArith String Ascii List Bool Lia.
From Stdlib Require DecimalString DecimalPos QArith.
From stdpp Require Import base option list gmap strings fin_maps.

Local Open Scope string_scope.

(** ** Python values *)

Inductive pyval : Type :=
  | VNone
  | VBool (b : bool)
  | VInt (z : Z)
  | VStr (s : string).

(** [bool(v)]. *)
Definition truthy (v : pyval) : bool :=
  match v with
  | VNone => false
  | VBool b => b
  | VInt z => negb (z =? 0)%Z
  | VStr "" => false
  | VStr _ => true
  end.

(** [a == b]; a [bool] is an [int] in Python, so [True == 1]. *)
Definition py_eq (a b : pyval) : bool :=
  match a, b with
  | VNone, VNone => true
  | VStr s, VStr t => String.eqb s t
  | VBool x, VBool y => Bool.eqb x y
  | VBool x, VInt z => (Z.b2z x =? z)%Z
  | VInt z, VBool y => (z =? Z.b2z y)%Z
  | VInt z, VInt w => (z =? w)%Z
  | _, _ => false
  end.

(** [d.get(k)]. *)
Definition dict_get (d : gmap string pyval) (k : string) : pyval :=
  default VNone (d !! k).

(** [k in d and d[k] is not None]. *)
Definition present (d : gmap string pyval) (k : string) : bool :=
  match d !! k with
  | Some VNone | None => false
  | Some _ => true
  end.

(** [k in d and d[k]]. *)
Definition present_truthy (d : gmap string pyval) (k : string) : bool :=
  match d !! k with
  | Some v => truthy v
  | None => false
  end.

(** ** Exceptions and logging *)

Inductive exn : Type :=
  | AttributeError
  | TypeError
  | KeyError (k : string)
  | TvOverlayConnectionError (msg : string).

Inductive result (A : Type) : Type :=
  | Return (a : A)
  | Raise (e : exn).
Arguments Return {A} a.
Arguments Raise {A} e.

#[global] Instance result_ret : MRet result := fun _ a => Return a.
#[global] Instance result_bind : MBind result := fun _ _ k m =>
  match m with
  | Return a => k a
  | Raise e => Raise e
  end.

(** What a call leaves behind besides its result: the records written to the
    logger, and the calls made on the host platform's objects (the [Store] of
    an entry, its update listeners). *)
Inductive effect : Type :=
  | LogApiError (status : Z) (text : string)
  | LogDeviceNotFound
  | StoreSave (ids : list pyval)
  | ListenersNotified.

(** ** Text operations *)

(** [c.isspace()] on ASCII: tab, LF, VT, FF, CR, FS, GS, RS, US and space. *)
Definition is_space (c : ascii) : bool :=
  let n := nat_of_ascii c in
  ((9 <=? n) && (n <=? 13) || (28 <=? n) && (n <=? 32))%nat.

Definition to_lower (c : ascii) : ascii :=
  let n := nat_of_ascii c in
  if ((65 <=? n) && (n <=? 90))%nat then ascii_of_nat (n + 32) else c.

Definition to_upper (c : ascii) : ascii :=
  let n := nat_of_ascii c in
  if ((97 <=? n) && (n <=? 122))%nat then ascii_of_nat (n - 32) else c.

Fixpoint lower (s : string) : string :=
  match s with
  | "" => ""
  | String c r => String (to_lower c) (lower r)
  end.

Fixpoint upper (s : string) : string :=
  match s with
  | "" => ""
  | String c r => String (to_upper c) (upper r)
  end.

(** The text without the leading characters that satisfy [p]. *)
Fixpoint lstrip_by (p : ascii -> bool) (s : string) : string :=
  match s with
  | "" => ""
  | String c r => if p c then lstrip_by p r else s
  end.

(** The text without the trailing characters that satisfy [p]. *)
Fixpoint rstrip_by (p : ascii -> bool) (s : string) : string :=
  match s with
  | "" => ""
  | String c r =>
      match rstrip_by p r with
      | "" => if p c then "" else String c ""
      | r' => String c r'
      end
  end.

Abbreviation lstrip := (lstrip_by is_space).
Abbreviation rstrip := (rstrip_by is_space).

(** [s.strip()]. *)
Definition strip (s : string) : string := lstrip (rstrip s).

(** [s.startswith("#")]. *)
Definition startswith_hash (s : string) : bool :=
  match s with
  | String "#" _ => true
  | _ => false
  end.

(** [s.lstrip("#")]. *)
Fixpoint lstrip_hash (s : string) : string :=
  match s with
  | String "#" r => lstrip_hash r
  | _ => s
  end.

(** [":" in s]. *)
Fixpoint contains_colon (s : string) : bool :=
  match s with
  | "" => false
  | String c r => Ascii.eqb c ":" || contains_colon r
  end.

(** [s.rsplit(":", 1)]: the text before and after the last colon, or the
    whole text alone when there is none. *)
Fixpoint rsplit_colon (s : string) : string * option string :=
  match s with
  | "" => ("", None)
  | String c r =>
      match rsplit_colon r with
      | (a, Some b) => (String c a, Some b)
      | (_, None) => if Ascii.eqb c ":" then ("", Some r) else (s, None)
      end
  end.

Definition is_digit (c : ascii) : bool :=
  let n := nat_of_ascii c in ((48 <=? n) && (n <=? 57))%nat.

Definition digit_value (c : ascii) : Z := Z.of_nat (nat_of_ascii c) - 48.

(** The digits of a decimal literal: single underscores may separate digits. *)
Fixpoint parse_digits (s : string) (acc : Z) (after_digit : bool) : option Z :=
  match s with
  | "" => if after_digit then Some acc else None
  | String c r =>
      if is_digit c then parse_digits r (10 * acc + digit_value c)%Z true
      else if Ascii.eqb c "_" && after_digit then parse_digits r acc false
      else None
  end.

(** The whitespace [int] skips around an ASCII literal: tab, LF, VT, FF, CR
    and space. *)
Definition is_int_space (c : ascii) : bool :=
  let n := nat_of_ascii c in (((9 <=? n) && (n <=? 13)) || (n =? 32))%nat.

(** [int(s)] on ASCII text: surrounding whitespace, an optional sign, decimal
    digits; [None] stands for [ValueError].  The interpreter's configurable
    limit on the number of digits is left out. *)
Definition py_int (s : string) : option Z :=
  match lstrip_by is_int_space (rstrip_by is_int_space s) with
  | String "-" r => Z.opp <$> parse_digits r 0 false
  | String "+" r => parse_digits r 0 false
  | r => parse_digits r 0 false
  end.

(** [str(z)]. *)
Definition py_str_int (z : Z) : string :=
  DecimalString.NilZero.string_of_int (Z.to_int z).

Definition hex_digit (d : Z) : ascii :=
  match d with
  | 0 => "0" | 1 => "1" | 2 => "2" | 3 => "3" | 4 => "4" | 5 => "5"
  | 6 => "6" | 7 => "7" | 8 => "8" | 9 => "9" | 10 => "A" | 11 => "B"
  | 12 => "C" | 13 => "D" | 14 => "E" | _ => "F"
  end%Z%char.

(** Uppercase hexadecimal digits of [n >= 0], most significant first, in
    front of [acc]; [fuel] bounds the number of further digits. *)
Fixpoint hex_digits (fuel : nat) (n : Z) (acc : string) : string :=
  let acc' := String (hex_digit (n mod 16)) acc in
  match fuel with
  | O => acc'
  | S f => if (n / 16 =? 0)%Z then acc' else hex_digits f (n / 16) acc'
  end.

Definition hex_upper (n : Z) : string :=
  hex_digits (Z.to_nat (Z.log2 n)) n "".

(** [format(a, "02X")]: uppercase hexadecimal, zero-padded to width 2; the
    sign of a negative number counts for the width. *)
Definition format_02X (a : Z) : string :=
  if (a <? 0)%Z then String "-" (hex_upper (- a))
  else
    match hex_upper a with
    | String c "" => String "0" (String c "")
    | h => h
    end.

(** ** Constants of [const.py] *)

(** Modelled from the spec: [const.py] is not among the sources, so the
    constants imported from it are parameters.  The [ATTR_*] values are the
    field names of a service call (the fields the spec's payload builder
    reads), [DOMAIN] the integration's key in [hass.data], [DEFAULT_PORT]
    the port used when a host string names none, and the [ENDPOINT_*]
    values the paths of the device's HTTP API.  The field names are distinct
    strings; the theorems that rely on it say so. *)
Class Const : Type := {
  ATTR_BACKGROUND_COLOR : string;
  ATTR_BACKGROUND_OPACITY : string;
  ATTR_BORDER_COLOR : string;
  ATTR_CORNER : string;
  ATTR_DEVICE_ID : string;
  ATTR_DURATION : string;
  ATTR_EXPIRATION : string;
  ATTR_HOST : string;
  ATTR_ICON : string;
  ATTR_ICON_COLOR : string;
  ATTR_ID : string;
  ATTR_LARGE_ICON : string;
  ATTR_MEDIA_TYPE : string;
  ATTR_MEDIA_URL : string;
  ATTR_MESSAGE : string;
  ATTR_MESSAGE_COLOR : string;
  ATTR_SHAPE : string;
  ATTR_SMALL_ICON : string;
  ATTR_SMALL_ICON_COLOR : string;
  ATTR_SOURCE : string;
  ATTR_TITLE : string;
  ATTR_VISIBLE : string;
  DEFAULT_PORT : Z;
  DOMAIN : string;
  ENDPOINT_NOTIFY : string;
  ENDPOINT_NOTIFY_FIXED : string;
  ENDPOINT_SET_NOTIFICATIONS : string;
  ENDPOINT_SET_OVERLAY : string;
  ENDPOINT_SET_SETTINGS : string;
}.

(** The field names read by [_build_notification_data]. *)
Definition notify_attrs `{Const} : list string :=
  [ATTR_ID; ATTR_TITLE; ATTR_MESSAGE; ATTR_SOURCE; ATTR_CORNER; ATTR_DURATION;
   ATTR_SMALL_ICON; ATTR_SMALL_ICON_COLOR; ATTR_LARGE_ICON;
   ATTR_MEDIA_TYPE; ATTR_MEDIA_URL].

(** The field names read by [_build_fixed_notification_data]. *)
Definition fixed_attrs `{Const} : list string :=
  [ATTR_ID; ATTR_VISIBLE; ATTR_MESSAGE; ATTR_SHAPE; ATTR_EXPIRATION; ATTR_ICON;
   ATTR_MESSAGE_COLOR; ATTR_ICON_COLOR; ATTR_BORDER_COLOR;
   ATTR_BACKGROUND_COLOR; ATTR_BACKGROUND_OPACITY].

(** Modelled from the spec: sample values for the constants of [const.py],
    with the field names the spec's examples use ([title], [media_type],
    [media_url], [device_id], [host]) and names of the same style for the
    others.  Only the closed examples are stated at these values. *)
Definition sample_const : Const := {|
  ATTR_BACKGROUND_COLOR := "background_color";
  ATTR_BACKGROUND_OPACITY := "background_opacity";
  ATTR_BORDER_COLOR := "border_color";
  ATTR_CORNER := "corner";
  ATTR_DEVICE_ID := "device_id";
  ATTR_DURATION := "duration";
  ATTR_EXPIRATION := "expiration";
  ATTR_HOST := "host";
  ATTR_ICON := "icon";
  ATTR_ICON_COLOR := "icon_color";
  ATTR_ID := "id";
  ATTR_LARGE_ICON := "large_icon";
  ATTR_MEDIA_TYPE := "media_type";
  ATTR_MEDIA_URL := "media_url";
  ATTR_MESSAGE := "message";
  ATTR_MESSAGE_COLOR := "message_color";
  ATTR_SHAPE := "shape";
  ATTR_SMALL_ICON := "small_icon";
  ATTR_SMALL_ICON_COLOR := "small_icon_color";
  ATTR_SOURCE := "source";
  ATTR_TITLE := "title";
  ATTR_VISIBLE := "visible";
  DEFAULT_PORT := 5001;
  DOMAIN := "tvoverlay_ui";
  ENDPOINT_NOTIFY := "/notify";
  ENDPOINT_NOTIFY_FIXED := "/notify_fixed";
  ENDPOINT_SET_NOTIFICATIONS := "/set/notifications";
  ENDPOINT_SET_OVERLAY := "/set/overlay";
  ENDPOINT_SET_SETTINGS := "/set/settings";
|}.

(** ** Colors ([__init__.py], lines 55-114) *)

(** Common color names to hex mapping. *)
Definition COLOR_NAMES : list (string * string) :=
  [ ("red", "#FF0000");
    ("green", "#00FF00");
    ("blue", "#0000FF");
    ("white", "#FFFFFF");
    ("black", "#000000");
    ("yellow", "#FFFF00");
    ("orange", "#FFA500");
    ("purple", "#800080");
    ("pink", "#FFC0CB");
    ("cyan", "#00FFFF");
    ("magenta", "#FF00FF");
    ("gray", "#808080");
    ("grey", "#808080");
    ("brown", "#A52A2A");
    ("lime", "#00FF00");
    ("navy", "#000080");
    ("teal", "#008080");
    ("maroon", "#800000");
    ("olive", "#808000");
    ("silver", "#C0C0C0");
    ("aqua", "#00FFFF");
    ("gold", "#FFD700");
    ("coral", "#FF7F50");
    ("salmon", "#FA8072");
    ("violet", "#EE82EE");
    ("indigo", "#4B0082");
    ("turquoise", "#40E0D0") ].

(** [table[k]] for a dict literal given as its items; [None] when [k] is not
    a key. *)
Fixpoint table_get (table : list (string * string)) (k : string)
  : option string :=
  match table with
  | [] => None
  | (k', v) :: rest => if String.eqb k k' then Some v else table_get rest k
  end.

(** Normalize color to hex string (accepts hex or color names). *)
Definition _normalize_hex_color (color : pyval) : result pyval :=
  if negb (truthy color) then Return VNone
  else
    match color with
    | VStr s =>
        let color := lower (strip s) in
        match table_get COLOR_NAMES color with
        | Some hex => Return (VStr hex)
        | None =>
            let color :=
              if startswith_hash color then color else "#" +:+ color in
            Return (VStr (upper color))
        end
    | _ => Raise AttributeError
    end.

(** [int((opacity if opacity is not None else 40) * 255 / 100)].  The true
    division is a float; for an integer opacity below 10^13 in absolute value
    truncating it gives the truncated integer quotient. *)
Definition alpha_of_opacity (opacity : pyval) : result Z :=
  match opacity with
  | VNone => Return (Z.quot (40 * 255) 100)
  | VInt z => Return (Z.quot (z * 255) 100)
  | VBool b => Return (Z.quot (Z.b2z b * 255) 100)
  | VStr _ => Raise TypeError
  end.

(** Add alpha channel to hex color string (#RRGGBB -> #AARRGGBB). *)
Definition _hex_with_alpha (color opacity : pyval) : result pyval :=
  if negb (truthy color) then Return VNone
  else
    color ← _normalize_hex_color color;
    match color with
    | VNone => Return VNone
    | VStr c =>
        let rgb := lstrip_hash c in
        if (String.length rgb =? 6)%nat then
          alpha ← alpha_of_opacity opacity;
          Return (VStr ("#" +:+ format_02X alpha +:+ rgb))
        else Return (VStr c)
    | _ => Raise AttributeError
    end.

(** ** Host strings ([__init__.py], lines 225-233) *)

(** Parse host:port string into host and port. *)
Definition _parse_host_port `{Const} (host_string : string) : string * Z :=
  if contains_colon host_string then
    match rsplit_colon host_string with
    | (part0, Some part1) =>
        match py_int part1 with
        | Some n => (part0, n)
        | None => (host_string, DEFAULT_PORT)
        end
    | (_, None) => (host_string, DEFAULT_PORT)
    end
  else (host_string, DEFAULT_PORT).

(** ** API client ([api.py]) *)

Definition DEFAULT_TIMEOUT : Z := 10.

(** What one [session.post(url, json=...)] exchange comes to: a response
    with its status and text (reading the text succeeds),
    [asyncio.TimeoutError], or an [aiohttp.ClientError] with its text. *)
Inductive post_outcome : Type :=
  | Response (status : Z) (text : string)
  | TimeoutError
  | ClientError (err : string).

(** The session a request goes through: one opened for the single call with
    the given total timeout and released after it, or the shared one. *)
Inductive session_use : Type :=
  | Scoped (timeout : Z)
  | Shared.

(** The network as seen by one request. *)
Definition transport : Type :=
  session_use -> string -> gmap string pyval -> post_outcome.

Record ClientSession : Type := { closed : bool }.

(** A [TvOverlayApiClient] object; [oid] is its identity, compared by [is]. *)
Record TvOverlayApiClient : Type := {
  _host : string;
  _port : Z;
  _session : option ClientSession;
  oid : nat;
}.

Definition _base_url (self : TvOverlayApiClient) : string :=
  "http://" +:+ _host self +:+ ":" +:+ py_str_int (_port self).

(** The body of [async with session.post(...) as response]. *)
Definition check_response (status : Z) (text : string)
  : list effect * result bool :=
  if (status =? 200)%Z then ([], Return true)
  else ([LogApiError status text], Return false).

(** [self._session is None or self._session.closed] opens a session for the
    single call, with the default timeout; otherwise the shared one is used. *)
Definition session_in_use (self : TvOverlayApiClient) : session_use :=
  match _session self with
  | None => Scoped DEFAULT_TIMEOUT
  | Some session => if closed session then Scoped DEFAULT_TIMEOUT else Shared
  end.

(** Make a POST request to the TvOverlay API.  Both branches of the source
    post the same url and body and treat the response alike; they differ in
    the session, which [session_in_use] picks. *)
Definition _request (net : transport) (self : TvOverlayApiClient)
    (endpoint : string) (data : option (gmap string pyval))
  : list effect * result bool :=
  let url := _base_url self +:+ endpoint in
  match net (session_in_use self) url (default ∅ data) with
  | Response status text => check_response status text
  | TimeoutError =>
      ([], Raise (TvOverlayConnectionError
                    ("Timeout connecting to TvOverlay at " +:+ _host self
                     +:+ ":" +:+ py_str_int (_port self))))
  | ClientError err =>
      ([], Raise (TvOverlayConnectionError
                    ("Error connecting to TvOverlay at " +:+ _host self
                     +:+ ":" +:+ py_str_int (_port self) +:+ ": " +:+ err)))
  end.

(** Test the connection to the TvOverlay device. *)
Definition test_connection `{Const} (net : transport)
    (self : TvOverlayApiClient) : list effect * result bool :=
  match _request net self ENDPOINT_NOTIFY (Some ∅) with
  | (log, Raise (TvOverlayConnectionError _)) => (log, Return false)
  | r => r
  end.

(** Send a notification to the TvOverlay device. *)
Definition send_notification `{Const} (net : transport)
    (self : TvOverlayApiClient) (data : gmap string pyval)
  : list effect * result bool :=
  _request net self ENDPOINT_NOTIFY (Some data).

(** Send a fixed notification to the TvOverlay device. *)
Definition send_fixed_notification `{Const} (net : transport)
    (self : TvOverlayApiClient) (data : gmap string pyval)
  : list effect * result bool :=
  _request net self ENDPOINT_NOTIFY_FIXED (Some data).

(** Clear a fixed notification by ID. *)
Definition clear_fixed_notification `{Const} (net : transport)
    (self : TvOverlayApiClient) (notification_id : pyval)
  : list effect * result bool :=
  _request net self ENDPOINT_NOTIFY_FIXED
    (Some (<["id" := notification_id]> (<["visible" := VBool false]> ∅))).

(** ** Payload builders ([__init__.py], lines 383-466) *)

(** [for attr, api_key in simple_fields.items(): if attr in data and
    data[attr] is not None: payload[api_key] = data[attr]]; the dict literal
    [simple_fields] is given as its items. *)
Definition copy_simple_fields (simple_fields : list (string * string))
    (data payload : gmap string pyval) : gmap string pyval :=
  fold_left
    (fun payload '(attr, api_key) =>
       if present data attr then <[api_key := dict_get data attr]> payload
       else payload)
    simple_fields payload.

(** [if attr in data and data[attr]: payload[api_key] = data[attr]]. *)
Definition copy_if_truthy (attr api_key : string)
    (data payload : gmap string pyval) : gmap string pyval :=
  if present_truthy data attr then <[api_key := dict_get data attr]> payload
  else payload.

(** [color = _normalize_hex_color(data.get(attr)); if color:
    payload[api_key] = color]. *)
Definition copy_color (attr api_key : string)
    (data payload : gmap string pyval) : result (gmap string pyval) :=
  color ← _normalize_hex_color (dict_get data attr);
  Return (if truthy color then <[api_key := color]> payload else payload).

(** Media (image or video based on type). *)
Definition set_media `{Const} (data payload : gmap string pyval)
  : gmap string pyval :=
  let media_type := dict_get data ATTR_MEDIA_TYPE in
  let media_url := dict_get data ATTR_MEDIA_URL in
  if truthy media_url && truthy media_type
     && negb (py_eq media_type (VStr "none"))
  then
    if py_eq media_type (VStr "image") then <["image" := media_url]> payload
    else if py_eq media_type (VStr "video") then
      <["video" := media_url]> payload
    else payload
  else payload.

(** Build notification payload from service call data. *)
Definition _build_notification_data `{Const} (data : gmap string pyval)
  : result (gmap string pyval) :=
  let payload : gmap string pyval := ∅ in
  let simple_fields :=
    [ (ATTR_ID, "id"); (ATTR_TITLE, "title"); (ATTR_MESSAGE, "message");
      (ATTR_SOURCE, "source"); (ATTR_CORNER, "corner");
      (ATTR_DURATION, "duration") ] in
  let payload := copy_simple_fields simple_fields data payload in
  let payload := copy_if_truthy ATTR_SMALL_ICON "smallIcon" data payload in
  payload ← copy_color ATTR_SMALL_ICON_COLOR "smallIconColor" data payload;
  let payload := copy_if_truthy ATTR_LARGE_ICON "largeIcon" data payload in
  Return (set_media data payload).

(** Build fixed notification payload from service call data. *)
Definition _build_fixed_notification_data `{Const} (data : gmap string pyval)
  : result (gmap string pyval) :=
  let payload : gmap string pyval := ∅ in
  let simple_fields :=
    [ (ATTR_ID, "id"); (ATTR_VISIBLE, "visible"); (ATTR_MESSAGE, "message");
      (ATTR_SHAPE, "shape"); (ATTR_EXPIRATION, "expiration") ] in
  let payload := copy_simple_fields simple_fields data payload in
  let payload := copy_if_truthy ATTR_ICON "icon" data payload in
  payload ← copy_color ATTR_MESSAGE_COLOR "messageColor" data payload;
  payload ← copy_color ATTR_ICON_COLOR "iconColor" data payload;
  payload ← copy_color ATTR_BORDER_COLOR "borderColor" data payload;
  let bg_color := dict_get data ATTR_BACKGROUND_COLOR in
  if truthy bg_color then
    let bg_opacity := dict_get data ATTR_BACKGROUND_OPACITY in
    color ← _hex_with_alpha bg_color bg_opacity;
    Return (<["backgroundColor" := color]> payload)
  else Return payload.

(** ** Services ([__init__.py], lines 174-380) *)

(** [x in l] for a list. *)
Definition py_in (x : pyval) (l : list pyval) : bool := existsb (py_eq x) l.

(** [l.remove(x)]: drop the first item equal to [x]. *)
Fixpoint py_remove (x : pyval) (l : list pyval) : list pyval :=
  match l with
  | [] => []
  | y :: rest => if py_eq y x then rest else y :: py_remove x rest
  end.

(** The value stored under an entry id in [hass.data[DOMAIN]]. *)
Record entry_data : Type := {
  client : TvOverlayApiClient;
  name : string;
  host : string;
  port : Z;
  notification_ids : list pyval;
}.

(** The parts of the [HomeAssistant] object the services use:
    [hass.data[DOMAIN]] as its items in insertion order, the device registry
    as the map from a device id to the identifiers of the device, and the
    shared client session. *)
Record HomeAssistant : Type := {
  domain_data : list (string * entry_data);
  device_registry : pyval -> option (list (string * string));
  clientsession : ClientSession;
}.

(** [hass.data[DOMAIN][entry_id]], [None] when [entry_id] is not a key. *)
Fixpoint entry_get (entries : list (string * entry_data)) (entry_id : string)
  : option entry_data :=
  match entries with
  | [] => None
  | (k, e) :: rest =>
      if String.eqb k entry_id then Some e else entry_get rest entry_id
  end.

(** The loop over [device.identifiers] in [_get_client_from_device_id]. *)
Fixpoint client_of_identifiers `{Const} (entries : list (string * entry_data))
    (identifiers : list (string * string)) : option TvOverlayApiClient :=
  match identifiers with
  | [] => None
  | identifier :: rest =>
      if String.eqb identifier.1 DOMAIN then
        match entry_get entries identifier.2 with
        | Some e => Some (client e)
        | None => client_of_identifiers entries rest
        end
      else client_of_identifiers entries rest
  end.

(** Get the API client from a device registry ID. *)
Definition _get_client_from_device_id `{Const} (hass : HomeAssistant)
    (device_id : pyval) : option TvOverlayApiClient :=
  match device_registry hass device_id with
  | None => None
  | Some identifiers => client_of_identifiers (domain_data hass) identifiers
  end.

(** Get the API client by name or host. *)
Fixpoint _get_client_from_name_or_host (entries : list (string * entry_data))
    (name_or_host : pyval) : option TvOverlayApiClient :=
  match entries with
  | [] => None
  | (_, e) :: rest =>
      if py_eq (VStr (name e)) name_or_host
         || py_eq (VStr (host e)) name_or_host
      then Some (client e)
      else _get_client_from_name_or_host rest name_or_host
  end.

(** The loop over the entries in [_get_client] that looks for a configured
    device with the parsed host and port. *)
Fixpoint client_of_host_port (entries : list (string * entry_data))
    (parsed_host : string) (parsed_port : Z) : option TvOverlayApiClient :=
  match entries with
  | [] => None
  | (_, e) :: rest =>
      if String.eqb (host e) parsed_host && (port e =? parsed_port)%Z
      then Some (client e)
      else client_of_host_port rest parsed_host parsed_port
  end.

(** An object identity no client of an entry has. *)
Definition fresh_oid (entries : list (string * entry_data)) : nat :=
  S (foldr (fun kv m => Nat.max (oid (client kv.2)) m) 0%nat entries).

(** Get the API client from service call data. *)
Definition _get_client `{Const} (hass : HomeAssistant)
    (call_data : gmap string pyval) : result (option TvOverlayApiClient) :=
  let device_id := dict_get call_data ATTR_DEVICE_ID in
  let host := dict_get call_data ATTR_HOST in
  let by_device_id :=
    if truthy device_id then
      match _get_client_from_device_id hass device_id with
      | Some client => Some client
      | None => _get_client_from_name_or_host (domain_data hass) device_id
      end
    else None in
  match by_device_id with
  | Some client => Return (Some client)
  | None =>
      if truthy host then
        match host with
        | VStr host_string =>
            let '(parsed_host, parsed_port) := _parse_host_port host_string in
            match client_of_host_port (domain_data hass)
                    parsed_host parsed_port with
            | Some client => Return (Some client)
            | None =>
                Return (Some {| _host := parsed_host;
                                _port := parsed_port;
                                _session := Some (clientsession hass);
                                oid := fresh_oid (domain_data hass) |})
            end
        | _ => Raise TypeError
        end
      else Return None
  end.

(** Get the entry data for a client: the position in [hass.data[DOMAIN]] of
    the first entry whose client is that very object. *)
Definition _get_entry_data_from_client (hass : HomeAssistant)
    (c : TvOverlayApiClient) : option nat :=
  fst <$> list_find (fun kv => oid (client kv.2) = oid c) (domain_data hass).

Definition set_notification_ids (e : entry_data) (ids : list pyval)
  : entry_data :=
  {| client := client e; name := name e; host := host e; port := port e;
     notification_ids := ids |}.

(** Add a notification ID to storage and notify listeners. *)
Definition _add_notification_id (e : entry_data) (notification_id : pyval)
  : entry_data * list effect :=
  let ids := notification_ids e in
  if negb (py_in notification_id ids) then
    let ids := (ids ++ [notification_id])%list in
    (set_notification_ids e ids, [StoreSave ids; ListenersNotified])
  else (e, []).

(** Remove a notification ID from storage and notify listeners. *)
Definition _remove_notification_id (e : entry_data) (notification_id : pyval)
  : entry_data * list effect :=
  let ids := notification_ids e in
  if py_in notification_id ids then
    let ids := py_remove notification_id ids in
    (set_notification_ids e ids, [StoreSave ids; ListenersNotified])
  else (e, []).

(** Run [f] on the entry at position [i], in place. *)
Definition with_entry (i : nat) (f : entry_data -> entry_data * list effect)
    (hass : HomeAssistant) : HomeAssistant * list effect :=
  match domain_data hass !! i with
  | Some (k, e) =>
      let '(e', log) := f e in
      ({| domain_data := <[i := (k, e')]> (domain_data hass);
          device_registry := device_registry hass;
          clientsession := clientsession hass |}, log)
  | None => (hass, [])
  end.

(** Send a notification. *)
Definition async_notify `{Const} (net : transport)
    (call_data : gmap string pyval) (hass : HomeAssistant)
  : HomeAssistant * list effect * result unit :=
  match _get_client hass call_data with
  | Raise e => (hass, [], Raise e)
  | Return None => (hass, [LogDeviceNotFound], Return tt)
  | Return (Some client) =>
      match _build_notification_data call_data with
      | Raise e => (hass, [], Raise e)
      | Return data =>
          match send_notification net client data with
          | (log, Raise e) => (hass, log, Raise e)
          | (log, Return _) => (hass, log, Return tt)
          end
      end
  end.

(** Send a fixed notification. *)
Definition async_notify_fixed `{Const} (net : transport)
    (call_data : gmap string pyval) (hass : HomeAssistant)
  : HomeAssistant * list effect * result unit :=
  match _get_client hass call_data with
  | Raise e => (hass, [], Raise e)
  | Return None => (hass, [LogDeviceNotFound], Return tt)
  | Return (Some client) =>
      match _build_fixed_notification_data call_data with
      | Raise e => (hass, [], Raise e)
      | Return data =>
          match send_fixed_notification net client data with
          | (log, Raise e) => (hass, log, Raise e)
          | (log, Return success) =>
              if success && truthy (dict_get data "id") then
                match _get_entry_data_from_client hass client with
                | Some i =>
                    let '(hass', log') :=
                      with_entry i
                        (fun e => _add_notification_id e (dict_get data "id"))
                        hass in
                    (hass', (log ++ log')%list, Return tt)
                | None => (hass, log, Return tt)
                end
              else (hass, log, Return tt)
          end
      end
  end.

(** Clear a fixed notification. *)
Definition async_clear_fixed `{Const} (net : transport)
    (call_data : gmap string pyval) (hass : HomeAssistant)
  : HomeAssistant * list effect * result unit :=
  match _get_client hass call_data with
  | Raise e => (hass, [], Raise e)
  | Return None => (hass, [LogDeviceNotFound], Return tt)
  | Return (Some client) =>
      match call_data !! ATTR_ID with
      | None => (hass, [], Raise (KeyError ATTR_ID))
      | Some notification_id =>
          match clear_fixed_notification net client notification_id with
          | (log, Raise e) => (hass, log, Raise e)
          | (log, Return success) =>
              if success then
                match _get_entry_data_from_client hass client with
                | Some i =>
                    let '(hass', log') :=
                      with_entry i
                        (fun e => _remove_notification_id e notification_id)
                        hass in
                    (hass', (log ++ log')%list, Return tt)
                | None => (hass, log, Return tt)
                end
              else (hass, log, Return tt)
          end
      end
  end.

(** The three registered services. *)
Inductive service : Type := Notify | NotifyFixed | ClearFixed.

(** One service invocation: the service, the call's data, and the network as
    it answers that call's request. *)
Record service_call : Type := {
  call_service : service;
  call_data : gmap string pyval;
  call_net : transport;
}.

Definition handle `{Const} (hass : HomeAssistant) (c : service_call)
  : HomeAssistant * list effect * result unit :=
  match call_service c with
  | Notify => async_notify (call_net c) (call_data c) hass
  | NotifyFixed => async_notify_fixed (call_net c) (call_data c) hass
  | ClearFixed => async_clear_fixed (call_net c) (call_data c) hass
  end.

(** The state after a sequence of invocations, one after the other. *)
Definition run `{Const} (hass : HomeAssistant) (calls : list service_call)
  : HomeAssistant :=
  fold_left (fun h c => (handle h c).1.1) calls hass.

(** ** Notions used in the statements *)

(** [part] occurs in [msg]. *)
Definition mentions (msg part : string) : Prop :=
  exists pre post, msg = pre +:+ part +:+ post.

(** The text has a colon somewhere. *)
Definition has_colon (s : string) : Prop :=
  exists pre suf, s = pre +:+ String ":" suf.

Fixpoint all_chars (p : ascii -> bool) (s : string) : bool :=
  match s with
  | "" => true
  | String c r => p c && all_chars p r
  end.


(** A digit or one of [A] to [F]. *)
Definition is_hex_upper (c : ascii) : bool :=
  let n := nat_of_ascii c in (is_digit c || (65 <=? n) && (n <=? 70))%nat.

(** The shape [#RRGGBB]: a [#] and six uppercase hexadecimal digits. *)
Definition is_rrggbb (s : string) : bool :=
  match s with
  | String "#" r => (String.length r =? 6)%nat && all_chars is_hex_upper r
  | _ => false
  end.

(** Spec side of the alpha byte, following the spec's words
    [round(opacity × 255 / 100)]: [round(n / d)] for [d > 0], to the nearest
    integer, a tie going to the even one as Python's [round] does. *)
Definition round_div (n d : Z) : Z :=
  let q := (n / d)%Z in
  let r := (n mod d)%Z in
  if (2 * r <? d)%Z then q
  else if (d <? 2 * r)%Z then (q + 1)%Z
  else if Z.even q then q else (q + 1)%Z.

(** No two items of the list are equal in Python's sense. *)
Fixpoint py_distinct (l : list pyval) : bool :=
  match l with
  | [] => true
  | x :: rest => negb (py_in x rest) && py_distinct rest
  end.

(** The notification-ID registry of the entry at position [i]. *)
Definition registry (hass : HomeAssistant) (i : nat) : list pyval :=
  match domain_data hass !! i with
  | Some (_, e) => notification_ids e
  | None => []
  end.

Inductive op_kind : Type := Create | Clear.

(** The client call under a [notify_fixed] or [clear_fixed] invocation: the
    client it goes to, the notification ID it carries, and what it reports. *)
Definition underlying_call `{Const} (hass : HomeAssistant) (c : service_call)
  : option (op_kind * TvOverlayApiClient * pyval * result bool) :=
  match call_service c with
  | Notify => None
  | NotifyFixed =>
      match _get_client hass (call_data c),
            _build_fixed_notification_data (call_data c) with
      | Return (Some client), Return data =>
          Some (Create, client, dict_get data "id",
                (send_fixed_notification (call_net c) client data).2)
      | _, _ => None
      end
  | ClearFixed =>
      match _get_client hass (call_data c), call_data c !! ATTR_ID with
      | Return (Some client), Some notification_id =>
          Some (Clear, client, notification_id,
                (clear_fixed_notification (call_net c) client
                   notification_id).2)
      | _, _ => None
      end
  end.

(** The successful operation an invocation performs on the configured
    device at position [i], if it performs one: its underlying call reported
    success, its client is the one of that entry and, for a create, the ID
    was supplied (it is truthy).  The result is the kind of the operation
    and its notification ID. *)
Definition operation_at `{Const} (hass : HomeAssistant) (c : service_call)
    (i : nat) : option (op_kind * pyval) :=
  match underlying_call hass c with
  | Some (kind, client, notification_id, Return true) =>
      if bool_decide (_get_entry_data_from_client hass client = Some i)
         && match kind with Create => truthy notification_id | Clear => true end
      then Some (kind, notification_id) else None
  | _ => None
  end.

(** The invocation is a successful operation on the ID [nid] of the
    configured device at position [i]. *)
Definition successful_on `{Const} (hass : HomeAssistant) (c : service_call)
    (i : nat) (nid : pyval) : option op_kind :=
  match operation_at hass c i with
  | Some (kind, notification_id) =>
      if py_eq notification_id nid then Some kind else None
  | None => None
  end.

(** The kind of the last successful operation on [nid] at position [i] in a
    sequence of invocations started in [hass], if there is one. *)
Fixpoint last_successful `{Const} (hass : HomeAssistant)
    (calls : list service_call) (i : nat) (nid : pyval) : option op_kind :=
  match calls with
  | [] => None
  | c :: rest =>
      match last_successful (handle hass c).1.1 rest i nid with
      | Some kind => Some kind
      | None => successful_on hass c i nid
      end
  end.

(** How the value of a source field gets into a payload: as it is, through
    [_normalize_hex_color], through [_hex_with_alpha] with the background
    opacity, or not at all (the field only decides whether the key is
    there). *)
Inductive transfer : Type := Verbatim | Normalized | Composited | Selector.

(** The value [v] comes from the value [x] of a source field in the way
    [how]. *)
Definition transferred (how : transfer) (opacity x v : pyval) : Prop :=
  match how with
  | Verbatim => v = x
  | Normalized => _normalize_hex_color x = Return v
  | Composited => _hex_with_alpha x opacity = Return v
  | Selector => True
  end.

(** The source field of each key of a notification payload, the media keys
    apart. *)
Definition plain_sources `{Const} : list (string * string * transfer) :=
  [ (ATTR_ID, "id", Verbatim); (ATTR_TITLE, "title", Verbatim);
    (ATTR_MESSAGE, "message", Verbatim); (ATTR_SOURCE, "source", Verbatim);
    (ATTR_CORNER, "corner", Verbatim); (ATTR_DURATION, "duration", Verbatim);
    (ATTR_SMALL_ICON, "smallIcon", Verbatim);
    (ATTR_SMALL_ICON_COLOR, "smallIconColor", Normalized);
    (ATTR_LARGE_ICON, "largeIcon", Verbatim) ].



(** The keys of a table of sources. *)
Definition keys_of (sources : list (string * string * transfer))
  : list string :=
  map (fun s => s.1.2) sources.

(** Every key of the payload is the key of a source field; all the source
    fields of a key of the payload are present and not null in the input;
    and the value under the key comes from them. *)
Definition sourced `{Const} (sources : list (string * string * transfer))
    (data payload : gmap string pyval) : Prop :=
  forall k v, payload !! k = Some v ->
    In k (keys_of sources)
    /\ forall attr how, In (attr, k, how) sources ->
         present data attr = true
         /\ transferred how (dict_get data ATTR_BACKGROUND_OPACITY)
              (dict_get data attr) v.

(** A value [_normalize_hex_color] accepts: [None], a falsy scalar or text. *)
Definition color_like (v : pyval) : bool :=
  match v with
  | VStr _ => true
  | _ => negb (truthy v)
  end.

(** A normalized color: it begins with [#], is its own uppercase form and
    has no trailing whitespace. *)
Definition normal (n : string) : Prop :=
  startswith_hash n = true /\ upper n = n /\ rstrip n = n.

(** ** Sample objects for the closed examples *)

(** A client of the device at [tv.local:5001] with no shared session. *)
Definition sample_client : TvOverlayApiClient :=
  {| _host := "tv.local"; _port := 5001; _session := None; oid := 0 |}.

(** An entry for the device at [tv.local:5001], with an empty registry. *)
Definition sample_entry : entry_data :=
  {| client := {| _host := "tv.local"; _port := 5001;
                  _session := Some {| closed := false |}; oid := 1 |};
     name := "Living room"; host := "tv.local"; port := 5001;
     notification_ids := [] |}.

(** A [HomeAssistant] with that one entry and no registered device. *)
Definition sample_hass : HomeAssistant :=
  {| domain_data := [("entry1", sample_entry)];
     device_registry := fun _ => None;
     clientsession := {| closed := false |} |}.

(** A network that answers every request with the given status. *)
Definition answers (status : Z) : transport :=
  fun _ _ _ => Response status "".

(** A call of a service for the notification ID [door] on the sample
    device, with the status the device answers. *)
Definition door_call (svc : service) (status : Z) : service_call :=
  {| call_service := svc;
     call_data := <["host" := VStr "tv.local"]> {["id" := VStr "door"]};
     call_net := answers status |}.

(** ** Further notions used in the statements *)

(** The shape [#AARRGGBB]: a [#] and eight uppercase hexadecimal digits. *)
Definition is_aarrggbb (s : string) : bool :=
  match s with
  | String "#" r => (String.length r =? 8)%nat && all_chars is_hex_upper r
  | _ => false
  end.

(** [l.count(x)]: the number of items equal to [x]. *)
Fixpoint py_count (x : pyval) (l : list pyval) : nat :=
  match l with
  | [] => 0
  | y :: rest => if py_eq y x then S (py_count x rest) else py_count x rest
  end.

(** The sample [HomeAssistant] with the given registry loaded for its
    entry. *)
Definition sample_hass_with (ids : list pyval) : HomeAssistant :=
  {| domain_data := [("entry1", set_notification_ids sample_entry ids)];
     device_registry := fun _ => None;
     clientsession := {| closed := false |} |}.

(** What an entry of [hass.data[DOMAIN]] holds besides its registry: its
    key, its client, and the name, host and port it was set up with. *)
Definition configured (kv : string * entry_data)
  : string * TvOverlayApiClient * string * string * Z :=
  (kv.1, client kv.2, name kv.2, host kv.2, port kv.2).

(** The configured devices, in the order of [hass.data[DOMAIN]]. *)
Definition devices (hass : HomeAssistant)
  : list (string * TvOverlayApiClient * string * string * Z) :=
  map configured (domain_data hass).

(** The field is absent or holds a text: what [cv.string] lets through. *)
Definition text_field (d : gmap string pyval) (k : string) : bool :=
  match d !! k with
  | None | Some (VStr _) => true
  | Some _ => false
  end.

(** The field is absent or holds an integer from 0 to 100: what
    [vol.All(vol.Coerce(int), vol.Range(min=0, max=100))] lets through. *)
Definition percent_field (d : gmap string pyval) (k : string) : bool :=
  match d !! k with
  | None => true
  | Some (VInt z) => (0 <=? z)%Z && (z <=? 100)%Z
  | Some _ => false
  end.

(** The data of the call has passed the schema of its service
    ([NOTIFY_SCHEMA], [NOTIFY_FIXED_SCHEMA], [CLEAR_FIXED_SCHEMA]), as far as
    the fields go whose type the handlers rely on: the host and the colors
    are texts, the background opacity is an integer from 0 to 100, and
    [clear_fixed] has its required ID. *)
Definition fits_schema `{Const} (c : service_call) : bool :=
  let d := call_data c in
  text_field d ATTR_HOST
  && match call_service c with
     | Notify => text_field d ATTR_SMALL_ICON_COLOR
     | NotifyFixed =>
         text_field d ATTR_MESSAGE_COLOR && text_field d ATTR_ICON_COLOR
         && text_field d ATTR_BORDER_COLOR
         && text_field d ATTR_BACKGROUND_COLOR
         && percent_field d ATTR_BACKGROUND_OPACITY
     | ClearFixed => bool_decide (is_Some (d !! ATTR_ID))
     end.

(** A network on which every exchange times out. *)
Definition times_out : transport := fun _ _ _ => TimeoutError.

(** The device id of the call resolves to no configured device: it is
    missing or falsy, or it is neither the device-registry id of a
    configured device nor the name or host of one. *)
Definition unresolved_device_id `{Const} (hass : HomeAssistant)
    (d : gmap string pyval) : Prop :=
  truthy (dict_get d ATTR_DEVICE_ID) = false
  \/ (_get_client_from_device_id hass (dict_get d ATTR_DEVICE_ID) = None
      /\ _get_client_from_name_or_host (domain_data hass)
           (dict_get d ATTR_DEVICE_ID) = None).

(** A call of a service on the device at [other.local:5002], which is not
    configured in [sample_hass], for the notification ID [door]. *)
Definition other_call (svc : service) (status : Z) : service_call :=
  {| call_service := svc;
     call_data := <["host" := VStr "other.local:5002"]> {["id" := VStr "door"]};
     call_net := answers status |}.

(** ** API client, settings ([api.py], lines 120-130) *)

(** Set overlay settings. *)
Definition set_overlay `{Const} (net : transport)
    (self : TvOverlayApiClient) (data : gmap string pyval)
  : list effect * result bool :=
  _request net self ENDPOINT_SET_OVERLAY (Some data).

(** Set notification settings. *)
Definition set_notifications `{Const} (net : transport)
    (self : TvOverlayApiClient) (data : gmap string pyval)
  : list effect * result bool :=
  _request net self ENDPOINT_SET_NOTIFICATIONS (Some data).

(** Set general settings. *)
Definition set_settings `{Const} (net : transport)
    (self : TvOverlayApiClient) (data : gmap string pyval)
  : list effect * result bool :=
  _request net self ENDPOINT_SET_SETTINGS (Some data).

(** ** Entry setup and unload ([__init__.py], lines 174-222) *)

(** [d[k] = v] on a dict given as its items: the value of an existing key is
    replaced where it stands, a new key goes to the end. *)
Fixpoint dict_set {A : Type} (k : string) (v : A) (d : list (string * A))
  : list (string * A) :=
  match d with
  | [] => [(k, v)]
  | (k', v') :: rest =>
      if String.eqb k' k then (k', v) :: rest
      else (k', v') :: dict_set k v rest
  end.

(** [d.pop(k)]: the dict without the key; [None] stands for [KeyError]. *)
Fixpoint dict_pop {A : Type} (k : string) (d : list (string * A))
  : option (list (string * A)) :=
  match d with
  | [] => None
  | (k', v') :: rest =>
      if String.eqb k' k then Some rest
      else cons (k', v') <$> dict_pop k rest
  end.

(** The data of a config entry, [entry.data]: the host and the port, and
    the name if there is one. *)
Record entry_config : Type := {
  CONF_HOST : string;
  CONF_PORT : Z;
  CONF_NAME : option string;
}.

Record ConfigEntry : Type := {
  entry_id : string;
  data : entry_config;
}.

(** The [hass] object as setup and unload use it: the part the services use,
    and [hass.services] as the set of the integration's registered
    services.  [hass.data] without the key [DOMAIN] and with an empty dict
    under it are both an empty [domain_data]. *)
Record Hass : Type := {
  hass_data : HomeAssistant;
  has_service : service -> bool;
}.

(** Set up TvOverlay from a config entry.  [stored_data] is what
    [store.async_load()] returns.  The client is a new object; forwarding
    the entry to the entity platforms is taken to return, and what the host
    platform then puts into its device registry is not modelled. *)
Definition async_setup_entry (hass : Hass) (entry : ConfigEntry)
    (stored_data : option (gmap string (list pyval))) : Hass * bool :=
  let host := CONF_HOST (data entry) in
  let port := CONF_PORT (data entry) in
  let name := default host (CONF_NAME (data entry)) in
  let session := clientsession (hass_data hass) in
  let client :=
    {| _host := host; _port := port; _session := Some session;
       oid := fresh_oid (domain_data (hass_data hass)) |} in
  let notification_ids :=
    match stored_data with
    | Some d => if bool_decide (d = ∅) then [] else default [] (d !! "ids")
    | None => []
    end in
  let domain :=
    dict_set (entry_id entry)
      {| client := client; name := name; host := host; port := port;
         notification_ids := notification_ids |}
      (domain_data (hass_data hass)) in
  ({| hass_data :=
        {| domain_data := domain;
           device_registry := device_registry (hass_data hass);
           clientsession := clientsession (hass_data hass) |};
      has_service :=
        if has_service hass Notify then has_service hass
        else fun _ => true |},
   true).

(** Unload a config entry.  [unload_ok] is what
    [async_unload_platforms] returns. *)
Definition async_unload_entry (hass : Hass) (entry : ConfigEntry)
    (unload_ok : bool) : Hass * result bool :=
  if unload_ok then
    match dict_pop (entry_id entry) (domain_data (hass_data hass)) with
    | None => (hass, Raise (KeyError (entry_id entry)))
    | Some domain =>
        ({| hass_data :=
              {| domain_data := domain;
                 device_registry := device_registry (hass_data hass);
                 clientsession := clientsession (hass_data hass) |};
            has_service :=
              match domain with
              | [] => fun _ => false
              | _ => has_service hass
              end |},
         Return unload_ok)
    end
  else (hass, Return unload_ok).

(** What happens to the integration while the host platform runs: an entry
    is set up, an entry is unloaded, a service is called.  The host platform
    runs the handler of a service only while the service is registered. *)
Inductive event : Type :=
  | SetupEntry (entry : ConfigEntry)
      (stored_data : option (gmap string (list pyval)))
  | UnloadEntry (entry : ConfigEntry) (unload_ok : bool)
  | CallService (c : service_call).

Definition step `{Const} (hass : Hass) (ev : event) : Hass :=
  match ev with
  | SetupEntry entry stored_data => (async_setup_entry hass entry stored_data).1
  | UnloadEntry entry unload_ok => (async_unload_entry hass entry unload_ok).1
  | CallService c =>
      if has_service hass (call_service c) then
        {| hass_data := (handle (hass_data hass) c).1.1;
           has_service := has_service hass |}
      else hass
  end.

Definition lifecycle `{Const} (hass : Hass) (events : list event) : Hass :=
  fold_left step events hass.

(** The host platform before any entry is set up. *)
Definition started (registry : pyval -> option (list (string * string)))
    (session : ClientSession) : Hass :=
  {| hass_data := {| domain_data := []; device_registry := registry;
                     clientsession := session |};
     has_service := fun _ => false |}.

(** The services are registered exactly when there is an entry, and no key
    occurs twice in [hass.data[DOMAIN]]. *)
Definition well_formed (hass : Hass) : Prop :=
  (forall s, has_service hass s
             = negb (bool_decide (domain_data (hass_data hass) = [])))
  /\ NoDup (map fst (domain_data (hass_data hass))).

(** ** Config flow and options flow ([config_flow.py]) *)

Module config_flow.

(** The validated input of the user step: the host is required, the port
    and the name may be left out. *)
Record user_input : Type := {
  input_host : string;
  input_port : option Z;
  input_name : option string;
}.

Inductive ConfigFlowResult : Type :=
  | Form (step_id : string) (errors : list (string * string))
  | CreateEntry (title : string) (data : entry_config)
  | Abort (reason : string).

Inductive flow_effect : Type :=
  | Api (e : effect)
  | LogUnexpectedException.

(** Handle the initial step.  [unique_ids] holds the unique ids of the
    entries that exist; [_abort_if_unique_id_configured] ends the flow with
    the reason [already_configured] when the unique id is one of them. *)
Definition async_step_user `{Const} (DEFAULT_NAME : string) (net : transport)
    (session : ClientSession) (unique_ids : list string)
    (user_input : option user_input)
  : list flow_effect * ConfigFlowResult :=
  match user_input with
  | Some user_input =>
      let host := input_host user_input in
      let port := default DEFAULT_PORT (input_port user_input) in
      let name := default DEFAULT_NAME (input_name user_input) in
      let unique_id := host +:+ ":" +:+ py_str_int port in
      if bool_decide (unique_id ∈ unique_ids) then
        ([], Abort "already_configured")
      else
        let client :=
          {| _host := host; _port := port; _session := Some session;
             oid := 0 |} in
        match test_connection net client with
        | (log, Return true) =>
            (Api <$> log,
             CreateEntry name
               {| CONF_HOST := host; CONF_PORT := port;
                  CONF_NAME := Some name |})
        | (log, Return false) =>
            (Api <$> log, Form "user" [("base", "cannot_connect")])
        | (log, Raise (TvOverlayConnectionError _)) =>
            (Api <$> log, Form "user" [("base", "cannot_connect")])
        | (log, Raise _) =>
            ((Api <$> log) ++ [LogUnexpectedException],
             Form "user" [("base", "unknown")])%list
        end
  | None => ([], Form "user" [])
  end.

(** The validated input of the options step; a field that is left out
    keeps the value of the config entry. *)
Record options_input : Type := {
  options_host : option string;
  options_port : option Z;
}.

(** The result of the options step; the entry it creates has the title
    [""] and no data. *)
Inductive OptionsFlowResult : Type :=
  | OptionsForm (step_id : string) (errors : list (string * string))
  | OptionsCreateEntry (title : string).

(** Manage the options.  [config_entry_data] is [self.config_entry.data];
    the result holds it as [async_update_entry] leaves it. *)
Definition async_step_init `{Const} (net : transport)
    (session : ClientSession) (config_entry_data : entry_config)
    (user_input : option options_input)
  : list flow_effect * entry_config * OptionsFlowResult :=
  match user_input with
  | Some user_input =>
      let host :=
        default (CONF_HOST config_entry_data) (options_host user_input) in
      let port :=
        default (CONF_PORT config_entry_data) (options_port user_input) in
      let client :=
        {| _host := host; _port := port; _session := Some session;
           oid := 0 |} in
      match test_connection net client with
      | (log, Return true) =>
          (Api <$> log,
           {| CONF_HOST := host; CONF_PORT := port;
              CONF_NAME := CONF_NAME config_entry_data |},
           OptionsCreateEntry "")
      | (log, Return false) =>
          (Api <$> log, config_entry_data,
           OptionsForm "init" [("base", "cannot_connect")])
      | (log, Raise (TvOverlayConnectionError _)) =>
          (Api <$> log, config_entry_data,
           OptionsForm "init" [("base", "cannot_connect")])
      | (log, Raise _) =>
          ((Api <$> log) ++ [LogUnexpectedException], config_entry_data,
           OptionsForm "init" [("base", "unknown")])%list
      end
  | None => ([], config_entry_data, OptionsForm "init" [])
  end.

End config_flow.

(** ** Entities ([button.py], [switch.py], [number.py], [select.py]) *)

(** The device answers the exchange with the status 200. *)
Definition answers_ok (answer : post_outcome) : bool :=
  match answer with
  | Response status _ => (status =? 200)%Z
  | _ => false
  end.

Record DeviceInfo : Type := {
  identifiers : list (string * string);
  device_name : string;
  manufacturer : string;
  model : string;
}.

(** What a command of an entity leaves behind: the records of the API
    client, the record of the entity's own logger, and the state written to
    the host platform. *)
Inductive entity_effect : Type :=
  | ApiLog (e : effect)
  | StateWritten
  | LogFailedSwitch (key : string) (state : bool)
  | LogFailedNumber (key : string) (value : QArith_base.Q)
  | LogFailedSelect (key : string) (option : string)
  | LogFailedButton.

(** [int(value)] on a finite float, given as the rational it is: the
    integer part, towards zero. *)
Definition py_int_float (value : QArith_base.Q) : Z :=
  Z.quot (QArith_base.Qnum value) (Z.pos (QArith_base.Qden value)).

Module button.

Record ButtonEntityDescription : Type := { key : string }.

Definition BUTTON_DESCRIPTIONS : list ButtonEntityDescription :=
  [ {| key := "clear_notifications" |} ].

Record TvOverlayButton : Type := {
  entity_description : ButtonEntityDescription;
  _client : TvOverlayApiClient;
  _entry_id : string;
  _device_name : string;
  _attr_unique_id : string;
}.

Definition __init__ (client : TvOverlayApiClient) (entry_id : string)
    (device_name : string) (description : ButtonEntityDescription)
  : TvOverlayButton :=
  {| entity_description := description;
     _client := client;
     _entry_id := entry_id;
     _device_name := device_name;
     _attr_unique_id := entry_id +:+ "_" +:+ key description |}.

(** Set up TvOverlay buttons: the entities given to [async_add_entities]. *)
Definition async_setup_entry (hass : HomeAssistant) (entry : ConfigEntry)
  : result (list TvOverlayButton) :=
  match entry_get (domain_data hass) (entry_id entry) with
  | None => Raise (KeyError (entry_id entry))
  | Some data =>
      Return (map (__init__ (client data) (entry_id entry) (name data))
                BUTTON_DESCRIPTIONS)
  end.

Definition device_info `{Const} (self : TvOverlayButton) : DeviceInfo :=
  {| identifiers := [(DOMAIN, _entry_id self)];
     device_name := _device_name self;
     manufacturer := "TvOverlay";
     model := "Android TV Overlay" |}.

(** Handle the button press. *)
Definition async_press `{Const} (net : transport) (self : TvOverlayButton)
  : list entity_effect * result unit :=
  if String.eqb (key (entity_description self)) "clear_notifications" then
    match send_notification net (_client self) ∅ with
    | (log, Raise e) => (ApiLog <$> log, Raise e)
    | (log, Return success) =>
        if negb success then
          ((ApiLog <$> log) ++ [LogFailedButton], Return tt)%list
        else (ApiLog <$> log, Return tt)
    end
  else ([], Return tt).

End button.

Module switch.

Record TvOverlaySwitchEntityDescription : Type := {
  key : string;
  api_key : string;
  endpoint : string;
}.

Definition SWITCH_DESCRIPTIONS : list TvOverlaySwitchEntityDescription :=
  [ {| key := "display_clock"; api_key := "clockOverlayVisibility";
       endpoint := "overlay" |};
    {| key := "display_notifications"; api_key := "displayNotifications";
       endpoint := "notifications" |};
    {| key := "display_fixed_notifications";
       api_key := "displayFixedNotifications";
       endpoint := "notifications" |};
    {| key := "pixel_shift"; api_key := "pixelShift";
       endpoint := "settings" |};
    {| key := "debug_mode"; api_key := "displayDebug";
       endpoint := "settings" |} ].

Record TvOverlaySwitch : Type := {
  entity_description : TvOverlaySwitchEntityDescription;
  _client : TvOverlayApiClient;
  _entry_id : string;
  _device_name : string;
  _attr_unique_id : string;
  _attr_is_on : bool;
}.

Definition __init__ (client : TvOverlayApiClient) (entry_id : string)
    (device_name : string) (description : TvOverlaySwitchEntityDescription)
  : TvOverlaySwitch :=
  {| entity_description := description;
     _client := client;
     _entry_id := entry_id;
     _device_name := device_name;
     _attr_unique_id := entry_id +:+ "_" +:+ key description;
     _attr_is_on := true |}.

(** Set up TvOverlay switches: the entities given to
    [async_add_entities]. *)
Definition async_setup_entry (hass : HomeAssistant) (entry : ConfigEntry)
  : result (list TvOverlaySwitch) :=
  match entry_get (domain_data hass) (entry_id entry) with
  | None => Raise (KeyError (entry_id entry))
  | Some data =>
      Return (map (__init__ (client data) (entry_id entry) (name data))
                SWITCH_DESCRIPTIONS)
  end.

Definition device_info `{Const} (self : TvOverlaySwitch) : DeviceInfo :=
  {| identifiers := [(DOMAIN, _entry_id self)];
     device_name := _device_name self;
     manufacturer := "TvOverlay";
     model := "Android TV Overlay" |}.

Definition with_is_on (self : TvOverlaySwitch) (state : bool)
  : TvOverlaySwitch :=
  {| entity_description := entity_description self;
     _client := _client self;
     _entry_id := _entry_id self;
     _device_name := _device_name self;
     _attr_unique_id := _attr_unique_id self;
     _attr_is_on := state |}.

(** Set the switch state. *)
Definition _set_state `{Const} (net : transport) (self : TvOverlaySwitch)
    (state : bool) : TvOverlaySwitch * list entity_effect * result unit :=
  let value :=
    if String.eqb (key (entity_description self)) "display_clock" then
      VInt (if state then 95 else 0)
    else VBool state in
  let data : gmap string pyval :=
    {[ api_key (entity_description self) := value ]} in
  let response :=
    if String.eqb (endpoint (entity_description self)) "notifications" then
      set_notifications net (_client self) data
    else if String.eqb (endpoint (entity_description self)) "overlay" then
      set_overlay net (_client self) data
    else set_settings net (_client self) data in
  match response with
  | (log, Raise e) => (self, ApiLog <$> log, Raise e)
  | (log, Return success) =>
      if success then
        (with_is_on self state, (ApiLog <$> log) ++ [StateWritten],
         Return tt)%list
      else
        (self,
         (ApiLog <$> log)
           ++ [LogFailedSwitch (key (entity_description self)) state],
         Return tt)%list
  end.

(** Turn the switch on. *)
Definition async_turn_on `{Const} (net : transport) (self : TvOverlaySwitch)
  : TvOverlaySwitch * list entity_effect * result unit :=
  _set_state net self true.

(** Turn the switch off. *)
Definition async_turn_off `{Const} (net : transport) (self : TvOverlaySwitch)
  : TvOverlaySwitch * list entity_effect * result unit :=
  _set_state net self false.

(** The path of the API that the endpoint of a description stands for. *)
Definition endpoint_path `{Const}
    (description : TvOverlaySwitchEntityDescription) : string :=
  if String.eqb (endpoint description) "notifications" then
    ENDPOINT_SET_NOTIFICATIONS
  else if String.eqb (endpoint description) "overlay" then
    ENDPOINT_SET_OVERLAY
  else ENDPOINT_SET_SETTINGS.

(** What the device answers to the request of a command for [state]. *)
Definition exchange `{Const} (net : transport) (self : TvOverlaySwitch)
    (state : bool) : post_outcome :=
  net (session_in_use (_client self))
    (_base_url (_client self) +:+ endpoint_path (entity_description self))
    {[ api_key (entity_description self) :=
         if String.eqb (key (entity_description self)) "display_clock" then
           VInt (if state then 95 else 0)
         else VBool state ]}.

(** The switch after a sequence of commands, each with the state it asks
    for and the network as it answers that command; a command that raises
    leaves the switch as it is. *)
Definition run_commands `{Const} (self : TvOverlaySwitch)
    (commands : list (bool * transport)) : TvOverlaySwitch :=
  fold_left (fun self command => (_set_state command.2 self command.1).1.1)
    commands self.

(** The state of the last command of the sequence that the device answered
    with 200, if there is one. *)
Fixpoint last_acknowledged `{Const} (self : TvOverlaySwitch)
    (commands : list (bool * transport)) : option bool :=
  match commands with
  | [] => None
  | command :: rest =>
      match last_acknowledged self rest with
      | Some state => Some state
      | None =>
          if answers_ok (exchange command.2 self command.1)
          then Some command.1 else None
      end
  end.

End switch.

Module number.

Record TvOverlayNumberEntityDescription : Type := {
  key : string;
  native_min_value : Z;
  native_max_value : Z;
  api_key : string;
  endpoint : string;
}.

Definition NUMBER_DESCRIPTIONS : list TvOverlayNumberEntityDescription :=
  [ {| key := "clock_visibility"; native_min_value := 0;
       native_max_value := 95; api_key := "clockOverlayVisibility";
       endpoint := "overlay" |};
    {| key := "overlay_visibility"; native_min_value := 0;
       native_max_value := 95; api_key := "overlayVisibility";
       endpoint := "overlay" |};
    {| key := "fixed_notifications_visibility"; native_min_value := -1;
       native_max_value := 95; api_key := "fixedNotificationsVisibility";
       endpoint := "notifications" |};
    {| key := "notification_duration"; native_min_value := 1;
       native_max_value := 60; api_key := "notificationDuration";
       endpoint := "notifications" |} ].

Record TvOverlayNumber : Type := {
  entity_description : TvOverlayNumberEntityDescription;
  _client : TvOverlayApiClient;
  _entry_id : string;
  _device_name : string;
  _attr_unique_id : string;
  _attr_native_value : QArith_base.Q;
}.

Definition __init__ (client : TvOverlayApiClient) (entry_id : string)
    (device_name : string) (description : TvOverlayNumberEntityDescription)
  : TvOverlayNumber :=
  {| entity_description := description;
     _client := client;
     _entry_id := entry_id;
     _device_name := device_name;
     _attr_unique_id := entry_id +:+ "_" +:+ key description;
     _attr_native_value :=
       if String.eqb (key description) "notification_duration" then
         QArith_base.inject_Z 5
       else if String.eqb (key description) "fixed_notifications_visibility"
       then QArith_base.inject_Z (-1)
       else QArith_base.inject_Z 0 |}.

(** Set up TvOverlay number entities: the entities given to
    [async_add_entities]. *)
Definition async_setup_entry (hass : HomeAssistant) (entry : ConfigEntry)
  : result (list TvOverlayNumber) :=
  match entry_get (domain_data hass) (entry_id entry) with
  | None => Raise (KeyError (entry_id entry))
  | Some data =>
      Return (map (__init__ (client data) (entry_id entry) (name data))
                NUMBER_DESCRIPTIONS)
  end.

Definition device_info `{Const} (self : TvOverlayNumber) : DeviceInfo :=
  {| identifiers := [(DOMAIN, _entry_id self)];
     device_name := _device_name self;
     manufacturer := "TvOverlay";
     model := "Android TV Overlay" |}.

Definition with_native_value (self : TvOverlayNumber)
    (value : QArith_base.Q) : TvOverlayNumber :=
  {| entity_description := entity_description self;
     _client := _client self;
     _entry_id := _entry_id self;
     _device_name := _device_name self;
     _attr_unique_id := _attr_unique_id self;
     _attr_native_value := value |}.

(** Set the value; [value] is a finite float. *)
Definition async_set_native_value `{Const} (net : transport)
    (self : TvOverlayNumber) (value : QArith_base.Q)
  : TvOverlayNumber * list entity_effect * result unit :=
  let int_value := py_int_float value in
  let data : gmap string pyval :=
    {[ api_key (entity_description self) := VInt int_value ]} in
  let response :=
    if String.eqb (endpoint (entity_description self)) "overlay" then
      set_overlay net (_client self) data
    else set_notifications net (_client self) data in
  match response with
  | (log, Raise e) => (self, ApiLog <$> log, Raise e)
  | (log, Return success) =>
      if success then
        (with_native_value self value, (ApiLog <$> log) ++ [StateWritten],
         Return tt)%list
      else
        (self,
         (ApiLog <$> log)
           ++ [LogFailedNumber (key (entity_description self)) value],
         Return tt)%list
  end.

(** The path of the API that the endpoint of a description stands for. *)
Definition endpoint_path `{Const}
    (description : TvOverlayNumberEntityDescription) : string :=
  if String.eqb (endpoint description) "overlay" then ENDPOINT_SET_OVERLAY
  else ENDPOINT_SET_NOTIFICATIONS.

(** What the device answers to the request that carries the integer [n]. *)
Definition exchange `{Const} (net : transport) (self : TvOverlayNumber)
    (n : Z) : post_outcome :=
  net (session_in_use (_client self))
    (_base_url (_client self) +:+ endpoint_path (entity_description self))
    {[ api_key (entity_description self) := VInt n ]}.

End number.

Module select.

Definition VALID_LAYOUTS : list string := ["Default"; "Minimalist"; "Icon Only"].

Record TvOverlaySelectEntityDescription : Type := {
  key : string;
  options_list : list string;
  storage_key : string;
  api_key : option string;
  endpoint : option string;
}.

(** [VALID_CORNERS] and [VALID_SHAPES] are constants of [const.py]. *)
Definition SELECT_DESCRIPTIONS (VALID_CORNERS VALID_SHAPES : list string)
  : list TvOverlaySelectEntityDescription :=
  [ {| key := "notification_layout"; options_list := VALID_LAYOUTS;
       storage_key := "notification_layout";
       api_key := Some "notificationLayoutName";
       endpoint := Some "notifications" |};
    {| key := "default_corner"; options_list := VALID_CORNERS;
       storage_key := "default_corner"; api_key := None; endpoint := None |};
    {| key := "default_shape"; options_list := VALID_SHAPES;
       storage_key := "default_shape"; api_key := None; endpoint := None |} ].

(** [_entry_data] is the dict of the entry in [hass.data[DOMAIN]], shared
    with the services; [entry_data] below is the part of it under the keys
    other than the seven that [async_setup_entry] writes, which is where
    the storage keys of [SELECT_DESCRIPTIONS] lie. *)
Record TvOverlaySelect : Type := {
  entity_description : TvOverlaySelectEntityDescription;
  _client : TvOverlayApiClient;
  _entry_id : string;
  _device_name : string;
  _attr_unique_id : string;
  _attr_options : list string;
  _attr_current_option : option string;
}.

Definition __init__ (client : TvOverlayApiClient) (entry_id : string)
    (device_name : string) (description : TvOverlaySelectEntityDescription)
    (entry_data : gmap string string) : TvOverlaySelect :=
  {| entity_description := description;
     _client := client;
     _entry_id := entry_id;
     _device_name := device_name;
     _attr_unique_id := entry_id +:+ "_" +:+ key description;
     _attr_options := options_list description;
     _attr_current_option :=
       if String.eqb (key description) "notification_layout" then
         Some (default "Default" (entry_data !! "notification_layout"))
       else if String.eqb (key description) "default_corner" then
         Some (default "top_end" (entry_data !! "default_corner"))
       else if String.eqb (key description) "default_shape" then
         Some (default "rounded" (entry_data !! "default_shape"))
       else None |}.

(** Set up TvOverlay select entities: the entities given to
    [async_add_entities]. *)
Definition async_setup_entry (VALID_CORNERS VALID_SHAPES : list string)
    (hass : HomeAssistant) (entry : ConfigEntry)
    (entry_data : gmap string string) : result (list TvOverlaySelect) :=
  match entry_get (domain_data hass) (entry_id entry) with
  | None => Raise (KeyError (entry_id entry))
  | Some data =>
      Return (map (fun description =>
                     __init__ (client data) (entry_id entry) (name data)
                       description entry_data)
                (SELECT_DESCRIPTIONS VALID_CORNERS VALID_SHAPES))
  end.

Definition device_info `{Const} (self : TvOverlaySelect) : DeviceInfo :=
  {| identifiers := [(DOMAIN, _entry_id self)];
     device_name := _device_name self;
     manufacturer := "TvOverlay";
     model := "Android TV Overlay" |}.

Definition with_current_option (self : TvOverlaySelect) (option : string)
  : TvOverlaySelect :=
  {| entity_description := entity_description self;
     _client := _client self;
     _entry_id := _entry_id self;
     _device_name := _device_name self;
     _attr_unique_id := _attr_unique_id self;
     _attr_options := _attr_options self;
     _attr_current_option := Some option |}.

(** Change the selected option.  The result holds the entity and the
    shared dict of the entry as the call leaves them. *)
Definition async_select_option `{Const} (net : transport)
    (self : TvOverlaySelect) (entry_data : gmap string string)
    (option : string)
  : TvOverlaySelect * gmap string string * list entity_effect * result unit :=
  let applied log :=
    (with_current_option self option,
     <[storage_key (entity_description self) := option]> entry_data,
     (log ++ [StateWritten])%list, Return tt) in
  match api_key (entity_description self),
        endpoint (entity_description self) with
  | Some api_key, Some endpoint =>
      if negb (String.eqb api_key "") && negb (String.eqb endpoint "") then
        let data : gmap string pyval := {[ api_key := VStr option ]} in
        let response :=
          if String.eqb endpoint "notifications" then
            set_notifications net (_client self) data
          else ([], Return false) in
        match response with
        | (log, Raise e) => (self, entry_data, ApiLog <$> log, Raise e)
        | (log, Return success) =>
            if negb success then
              (self, entry_data,
               (ApiLog <$> log)
                 ++ [LogFailedSelect (key (entity_description self)) option],
               Return tt)%list
            else applied (ApiLog <$> log)
        end
      else applied []
  | _, _ => applied []
  end.

(** What the device answers to the request for [option], for a select whose
    API key is [api_key]. *)
Definition exchange `{Const} (net : transport) (self : TvOverlaySelect)
    (api_key : string) (option : string) : post_outcome :=
  net (session_in_use (_client self))
    (_base_url (_client self) +:+ ENDPOINT_SET_NOTIFICATIONS)
    {[ api_key := VStr option ]}.

End select.

(** ** Further sample objects *)

(** A config entry for the device at [tv.local:5001]. *)
Definition sample_config_entry : ConfigEntry :=
  {| entry_id := "entry1";
     data := {| CONF_HOST := "tv.local"; CONF_PORT := 5001;
                CONF_NAME := Some "Living room" |} |}.

(** The host platform at its start, with no registered device. *)
Definition sample_started : Hass :=
  started (fun _ => None) {| closed := false |}.

(** * Proofs *)

(** ** Characters *)

Ltac by_cases_on_ascii c :=
  destruct c as [[] [] [] [] [] [] [] []]; reflexivity.

Lemma to_upper_to_lower c : to_upper (to_lower c) = to_upper c.
Proof. by_cases_on_ascii c. Qed.

Lemma to_upper_idem c : to_upper (to_upper c) = to_upper c.
Proof. by_cases_on_ascii c. Qed.

Lemma is_space_to_upper c : is_space (to_upper c) = is_space c.
Proof. by_cases_on_ascii c. Qed.


Lemma hash_to_lower c : Ascii.eqb (to_lower c) "#" = Ascii.eqb c "#".
Proof. by_cases_on_ascii c. Qed.

Lemma hash_to_upper c : Ascii.eqb (to_upper c) "#" = Ascii.eqb c "#".
Proof. by_cases_on_ascii c. Qed.


Lemma to_upper_hex_digit d : to_upper (hex_digit d) = hex_digit d.
Proof.
  unfold hex_digit.
  repeat match goal with
         | |- context [match ?x with _ => _ end] => destruct x
         end; reflexivity.
Qed.

Lemma hex_digit_not_hash d : Ascii.eqb (hex_digit d) "#" = false.
Proof.
  unfold hex_digit.
  repeat match goal with
         | |- context [match ?x with _ => _ end] => destruct x
         end; reflexivity.
Qed.

(** ** Case conversion *)

Lemma upper_lower s : upper (lower s) = upper s.
Proof. induction s as [|c s IH]; simpl; [done|]. by rewrite to_upper_to_lower, IH. Qed.

Lemma upper_idem s : upper (upper s) = upper s.
Proof. induction s as [|c s IH]; simpl; [done|]. by rewrite to_upper_idem, IH. Qed.

Lemma upper_app a b : upper (a +:+ b) = upper a +:+ upper b.
Proof. induction a as [|c a IH]; simpl; [done|]. by rewrite IH. Qed.

Lemma startswith_hash_cons c r :
  startswith_hash (String c r) = Ascii.eqb c "#".
Proof. by_cases_on_ascii c. Qed.

Lemma lstrip_hash_cons c r :
  lstrip_hash (String c r) =
  if Ascii.eqb c "#" then lstrip_hash r else String c r.
Proof. by_cases_on_ascii c. Qed.

Lemma startswith_hash_lower s : startswith_hash (lower s) = startswith_hash s.
Proof.
  destruct s as [|c s]; simpl lower; [done|].
  by rewrite !startswith_hash_cons, hash_to_lower.
Qed.

Lemma startswith_hash_true s :
  startswith_hash s = true -> exists r, s = String "#" r.
Proof.
  destruct s as [|c r]; [done|]. rewrite startswith_hash_cons.
  intros ->%Ascii.eqb_eq. eauto.
Qed.


Lemma upper_fixed_lstrip_hash s : upper s = s -> upper (lstrip_hash s) = lstrip_hash s.
Proof.
  induction s as [|c s IH]; [done|]. intros E.
  rewrite lstrip_hash_cons. destruct (Ascii.eqb c "#"); [|done].
  apply IH. simpl in E. by injection E as _ ->.
Qed.

(** ** Stripping *)

Lemma rstrip_cons c r :
  rstrip (String c r) =
  match rstrip r with
  | "" => if is_space c then "" else String c ""
  | r' => String c r'
  end.
Proof. done. Qed.

Lemma rstrip_fixed_tail c r : rstrip (String c r) = String c r -> rstrip r = r.
Proof.
  rewrite rstrip_cons. destruct (rstrip r) as [|d r'] eqn:E.
  - destruct (is_space c); [done|]. by intros [= <-].
  - by intros [= <-].
Qed.

Lemma rstrip_fixed_cons c r :
  is_space c = false -> rstrip r = r -> rstrip (String c r) = String c r.
Proof.
  intros Hc Hr. rewrite rstrip_cons, Hr. destruct r; [by rewrite Hc|done].
Qed.

Lemma rstrip_fixed_lstrip s : rstrip s = s -> rstrip (lstrip s) = lstrip s.
Proof.
  induction s as [|c s IH]; [done|]. intros E. simpl lstrip.
  destruct (is_space c); [|done]. apply IH. by eapply rstrip_fixed_tail.
Qed.

Lemma rstrip_fixed_lstrip_hash s :
  rstrip s = s -> rstrip (lstrip_hash s) = lstrip_hash s.
Proof.
  induction s as [|c s IH]; [done|]. intros E. rewrite lstrip_hash_cons.
  destruct (Ascii.eqb c "#"); [|done]. apply IH. by eapply rstrip_fixed_tail.
Qed.

Lemma rstrip_idem s : rstrip (rstrip s) = rstrip s.
Proof.
  induction s as [|c s IH]; [done|]. rewrite rstrip_cons.
  destruct (rstrip s) as [|d r'] eqn:E.
  - destruct (is_space c) eqn:Hc; [done|]. simpl. by rewrite Hc.
  - rewrite rstrip_cons, IH. done.
Qed.

Lemma rstrip_strip s : rstrip (strip s) = strip s.
Proof. apply rstrip_fixed_lstrip, rstrip_idem. Qed.

Lemma rstrip_upper s : rstrip (upper s) = upper (rstrip s).
Proof.
  induction s as [|c s IH]; [done|]. simpl upper. rewrite !rstrip_cons, IH.
  destruct (rstrip s); simpl; [|done].
  rewrite is_space_to_upper. by destruct (is_space c).
Qed.


Lemma rstrip_app a b : b <> "" -> rstrip b = b -> rstrip (a +:+ b) = a +:+ b.
Proof.
  intros Hb E. induction a as [|c a IH]; simpl; [done|].
  rewrite IH. change (String c a +:+ b) with (String c (a +:+ b)).
  destruct (a +:+ b) eqn:Hab; [|done].
  destruct a; simpl in Hab; [done|discriminate].
Qed.

Lemma lstrip_no_space c r : is_space c = false -> lstrip (String c r) = String c r.
Proof. simpl. by intros ->. Qed.

Lemma strip_fixed c r :
  is_space c = false -> rstrip r = r -> strip (String c r) = String c r.
Proof.
  intros Hc Hr. unfold strip. rewrite rstrip_fixed_cons by done.
  by apply lstrip_no_space.
Qed.




(** ** Color normalization *)

Lemma startswith_hash_upper s : startswith_hash (upper s) = startswith_hash s.
Proof.
  destruct s as [|c s]; simpl upper; [done|].
  by rewrite !startswith_hash_cons, hash_to_upper.
Qed.

Lemma table_get_In table k v : table_get table k = Some v -> In (k, v) table.
Proof.
  induction table as [|[k' v'] rest IH]; simpl; [done|].
  destruct (String.eqb_spec k k') as [->|_]; [intros [= ->]; by left|].
  intros ?; right; auto.
Qed.

Lemma table_get_hash t : table_get COLOR_NAMES (String "#" t) = None.
Proof. reflexivity. Qed.

Lemma COLOR_NAMES_values :
  forallb (fun kv : string * string =>
             is_rrggbb kv.2 && String.eqb (upper kv.2) kv.2
             && String.eqb (rstrip kv.2) kv.2)
    COLOR_NAMES = true.
Proof. vm_compute. reflexivity. Qed.

Lemma COLOR_NAMES_value k v :
  table_get COLOR_NAMES k = Some v -> is_rrggbb v = true /\ normal v.
Proof.
  intros Hin%table_get_In.
  pose proof COLOR_NAMES_values as H. rewrite forallb_forall in H.
  specialize (H _ Hin). simpl in H.
  apply andb_true_iff in H as [[H1 H2]%andb_true_iff H3].
  apply String.eqb_eq in H2, H3. split; [done|]. split; [|done].
  destruct v as [|c r]; [done|]. unfold is_rrggbb in H1.
  rewrite startswith_hash_cons.
  destruct c as [[] [] [] [] [] [] [] []]; try discriminate H1. done.
Qed.

Lemma normalize_text s :
  s <> "" ->
  _normalize_hex_color (VStr s) =
  Return (VStr (match table_get COLOR_NAMES (lower (strip s)) with
                | Some hex => hex
                | None =>
                    if startswith_hash (strip s) then upper (strip s)
                    else String "#" (upper (strip s))
                end)).
Proof.
  intros Hs. unfold _normalize_hex_color.
  assert (truthy (VStr s) = true) as -> by (by destruct s).
  cbn [negb]. generalize (strip s) as x; intros x.
  destruct (table_get _ _); [done|].
  rewrite startswith_hash_lower.
  destruct (startswith_hash x); [by rewrite upper_lower|].
  change ("#" +:+ lower x) with (String "#" (lower x)).
  cbn [upper]. by rewrite upper_lower.
Qed.

Lemma normalize_falsy color :
  truthy color = false -> _normalize_hex_color color = Return VNone.
Proof. unfold _normalize_hex_color. by intros ->. Qed.

Lemma normal_passthrough s :
  normal (if startswith_hash (strip s) then upper (strip s)
          else String "#" (upper (strip s))).
Proof.
  assert (rstrip (upper (strip s)) = upper (strip s)) as Hr
    by (by rewrite rstrip_upper, rstrip_strip).
  destruct (startswith_hash (strip s)) eqn:E.
  - split; [by rewrite startswith_hash_upper|].
    split; [apply upper_idem|done].
  - split; [done|]. split; [simpl; by rewrite upper_idem|].
    by apply rstrip_fixed_cons.
Qed.

Lemma normalize_cases color r :
  _normalize_hex_color color = Return r ->
  r = VNone \/ exists n, r = VStr n /\ normal n /\ truthy color = true.
Proof.
  destruct (truthy color) eqn:Ht.
  - destruct color as [| | |s]; try (unfold _normalize_hex_color; rewrite Ht; discriminate).
    rewrite normalize_text by (by intros ->).
    destruct (table_get COLOR_NAMES (lower (strip s))) as [hex|] eqn:E;
      intros [= <-]; right; eexists; (split; [reflexivity|]);
      (split; [|reflexivity]).
    + by apply COLOR_NAMES_value in E as [_ ?].
    + apply normal_passthrough.
  - rewrite normalize_falsy by done. intros [= <-]. by left.
Qed.

Lemma normal_strip n : normal n -> strip n = n.
Proof.
  intros (Hh & _ & Hr). apply startswith_hash_true in Hh as [r ->].
  apply strip_fixed; [done|]. by eapply rstrip_fixed_tail.
Qed.

Lemma normalize_normal n : normal n -> _normalize_hex_color (VStr n) = Return (VStr n).
Proof.
  intros Hn. pose proof (normal_strip _ Hn) as Hs.
  destruct Hn as (Hh & Hu & Hr).
  rewrite normalize_text.
  - rewrite Hs. destruct (startswith_hash_true _ Hh) as [r ->].
    simpl lower. rewrite table_get_hash. simpl startswith_hash. by rewrite Hu.
  - intros ->. done.
Qed.

(** ** Alpha byte *)

Lemma hex_digits_head fuel n acc :
  exists c t, hex_digits fuel n acc = String c t /\ Ascii.eqb c "#" = false.
Proof.
  revert n acc. induction fuel as [|f IH]; intros n acc; simpl.
  - eexists _, _. split; [done|]. apply hex_digit_not_hash.
  - destruct (n / 16 =? 0)%Z; [|apply IH].
    eexists _, _. split; [done|]. apply hex_digit_not_hash.
Qed.

Lemma hex_digits_upper fuel n acc :
  upper acc = acc -> upper (hex_digits fuel n acc) = hex_digits fuel n acc.
Proof.
  revert n acc. induction fuel as [|f IH]; intros n acc Hacc; simpl.
  - by rewrite to_upper_hex_digit, Hacc.
  - destruct (n / 16 =? 0)%Z.
    + simpl. by rewrite to_upper_hex_digit, Hacc.
    + apply IH. simpl. by rewrite to_upper_hex_digit, Hacc.
Qed.

Lemma format_02X_head a :
  exists c t, format_02X a = String c t /\ Ascii.eqb c "#" = false.
Proof.
  unfold format_02X. destruct (a <? 0)%Z; [by eexists _, _|].
  unfold hex_upper.
  destruct (hex_digits_head (Z.to_nat (Z.log2 a)) a "") as (c & t & -> & Hc).
  destruct t; eauto.
Qed.

Lemma format_02X_upper a : upper (format_02X a) = format_02X a.
Proof.
  unfold format_02X, hex_upper. destruct (a <? 0)%Z.
  - simpl. by rewrite hex_digits_upper.
  - pose proof (hex_digits_upper (Z.to_nat (Z.log2 a)) a "" eq_refl) as H.
    destruct (hex_digits _ a "") as [|c [|d t]]; [done| |done].
    simpl in *. by rewrite H.
Qed.

Lemma format_02X_byte a :
  (0 <= a < 256)%Z ->
  format_02X a = String (hex_digit (a / 16)) (String (hex_digit (a mod 16)) "").
Proof.
  intros Ha.
  assert (forallb (fun n : nat =>
                     String.eqb (format_02X (Z.of_nat n))
                       (String (hex_digit (Z.of_nat n / 16))
                          (String (hex_digit (Z.of_nat n mod 16)) "")))
            (seq 0 256) = true) as H by (vm_compute; reflexivity).
  rewrite forallb_forall in H.
  specialize (H (Z.to_nat a)). rewrite Z2Nat.id in H by lia.
  apply String.eqb_eq, H, in_seq. lia.
Qed.

(** ** Alpha compositing *)

Lemma length_app a b : String.length (a +:+ b) = (String.length a + String.length b)%nat.
Proof. induction a as [|c a IH]; simpl; [done|]. by rewrite IH. Qed.

Lemma hex_with_alpha_falsy color opacity :
  truthy color = false -> _hex_with_alpha color opacity = Return VNone.
Proof. unfold _hex_with_alpha. by intros ->. Qed.

(** The result of compositing onto a normalized color [n]. *)
Lemma hex_with_alpha_normalized color opacity n :
  _normalize_hex_color color = Return (VStr n) ->
  _hex_with_alpha color opacity =
  if (String.length (lstrip_hash n) =? 6)%nat then
    alpha ← alpha_of_opacity opacity;
    Return (VStr ("#" +:+ format_02X alpha +:+ lstrip_hash n))
  else Return (VStr n).
Proof.
  intros Hn. unfold _hex_with_alpha.
  destruct (normalize_cases _ _ Hn) as [|(? & _ & _ & ->)]; [done|].
  cbn [negb]. rewrite Hn. reflexivity.
Qed.

Lemma composite_normal a n :
  normal n -> String.length (lstrip_hash n) = 6%nat ->
  normal ("#" +:+ format_02X a +:+ lstrip_hash n)
  /\ String.length (lstrip_hash ("#" +:+ format_02X a +:+ lstrip_hash n)) <> 6%nat.
Proof.
  intros (Hh & Hu & Hr) Hlen.
  change ("#" +:+ format_02X a +:+ lstrip_hash n)
    with (String "#" (format_02X a +:+ lstrip_hash n)).
  split; [split; [done|split]|].
  - cbn [upper]. rewrite upper_app, format_02X_upper.
    by rewrite upper_fixed_lstrip_hash.
  - apply rstrip_fixed_cons; [done|]. apply rstrip_app.
    + intros E. by rewrite E in Hlen.
    + by apply rstrip_fixed_lstrip_hash.
  - destruct (format_02X_head a) as (c & t & E & Hc).
    rewrite lstrip_hash_cons. cbn [Ascii.eqb]. rewrite E.
    change (String c t +:+ lstrip_hash n) with (String c (t +:+ lstrip_hash n)).
    rewrite lstrip_hash_cons, Hc. simpl. rewrite length_app. lia.
Qed.

Lemma hex_with_alpha_cases color opacity r :
  _hex_with_alpha color opacity = Return r ->
  r = VNone
  \/ exists n, r = VStr n /\ normal n /\ String.length (lstrip_hash n) <> 6%nat.
Proof.
  destruct (truthy color) eqn:Ht.
  2:{ rewrite hex_with_alpha_falsy by done. intros [= <-]. by left. }
  destruct (_normalize_hex_color color) as [v|e] eqn:Hn.
  2:{ unfold _hex_with_alpha. rewrite Ht, Hn. discriminate. }
  destruct (normalize_cases _ _ Hn) as [->|(n & -> & Hnormal & _)].
  { unfold _hex_with_alpha. rewrite Ht, Hn. intros [= <-]. by left. }
  rewrite (hex_with_alpha_normalized _ _ _ Hn).
  destruct (Nat.eqb_spec (String.length (lstrip_hash n)) 6) as [Hlen|Hlen].
  - destruct (alpha_of_opacity opacity) as [a|e]; [|discriminate].
    intros [= <-]. right. eexists. split; [reflexivity|].
    by apply composite_normal.
  - intros [= <-]. right. eauto.
Qed.

(** ** Color names and hexadecimal text *)




Lemma is_hex_upper_not_hash c : is_hex_upper c = true -> Ascii.eqb c "#" = false.
Proof. destruct c as [[] [] [] [] [] [] [] []]; intros; try reflexivity; discriminate. Qed.









Lemma normalize_returns color :
  color_like color = true -> exists r, _normalize_hex_color color = Return r.
Proof.
  intros Hc. destruct (truthy color) eqn:Ht.
  - destruct color as [|b|z|s]; simpl in Hc, Ht; try congruence;
      try (rewrite Ht in Hc; discriminate).
    eexists. apply normalize_text. by intros ->.
  - eexists. by apply normalize_falsy.
Qed.

(** ** Claims on colors *)




(** C3, as amended.  For a color whose normalized form is [#RRGGBB] and an
    opacity percentage between 0 and 100, [_hex_with_alpha] returns
    [#AARRGGBB] where [AA] is the integer part of [opacity × 255 / 100]
    (the quotient is truncated, not rounded) as two uppercase hexadecimal
    digits; an absent opacity counts as 40 and gives [AA = 66]. *)
Theorem hex_with_alpha_rrggbb (color : pyval) (rgb : string) (opacity : Z) :
  _normalize_hex_color color = Return (VStr (String "#" rgb)) ->
  is_rrggbb (String "#" rgb) = true ->
  (0 <= opacity <= 100)%Z ->
  let alpha := (opacity * 255 / 100)%Z in
  _hex_with_alpha color (VInt opacity)
  = Return (VStr (String "#" (String (hex_digit (alpha / 16))
                                (String (hex_digit (alpha mod 16)) rgb))))
  /\ _hex_with_alpha color VNone
     = Return (VStr (String "#" (String "6" (String "6" rgb)))).
Proof.
  intros Hn Hshape Hop alpha.
  assert (lstrip_hash (String "#" rgb) = rgb /\ String.length rgb = 6%nat)
    as [Hrgb Hlen].
  { unfold is_rrggbb in Hshape.
    apply andb_true_iff in Hshape as [Hlen%Nat.eqb_eq Hhex]. split; [|done].
    rewrite lstrip_hash_cons. cbn [Ascii.eqb Bool.eqb].
    destruct rgb as [|c r]; [done|]. rewrite lstrip_hash_cons.
    simpl in Hhex. apply andb_true_iff in Hhex as [Hc _].
    by rewrite (is_hex_upper_not_hash _ Hc). }
  rewrite !(hex_with_alpha_normalized _ _ _ Hn), Hrgb, Hlen.
  cbn [Nat.eqb alpha_of_opacity]. split; [|reflexivity].
  assert (Z.quot (opacity * 255) 100 = alpha) as ->
    by (apply Z.quot_div_nonneg; lia).
  assert (0 <= alpha < 256)%Z.
  { subst alpha. split; [apply Z.div_pos; lia|].
    apply Z.div_lt_upper_bound; lia. }
  unfold mbind, result_bind. by rewrite format_02X_byte.
Qed.

(** [hex_with_alpha_rrggbb] at ["#FF0000"] and opacity 50: the result is
    ["#7FFF0000"], and ["#66FF0000"] when the opacity is absent. *)
Lemma hex_with_alpha_rrggbb_witness :
  _normalize_hex_color (VStr "#FF0000") = Return (VStr "#FF0000")
  /\ is_rrggbb "#FF0000" = true
  /\ (0 <= 50 <= 100)%Z
  /\ _hex_with_alpha (VStr "#FF0000") (VInt 50) = Return (VStr "#7FFF0000")
  /\ _hex_with_alpha (VStr "#FF0000") VNone = Return (VStr "#66FF0000").
Proof.
  split; [reflexivity|]. split; [reflexivity|]. split; [lia|].
  apply (hex_with_alpha_rrggbb (VStr "#FF0000") "FF0000" 50);
    [reflexivity | reflexivity | lia].
Defined.

(** C3 as stated fails at opacity 1: [1 × 255 / 100 = 2.55] rounds to 3, and
    the alpha byte the code writes is [02]. *)
Lemma hex_with_alpha_not_rounded :
  round_div (1 * 255) 100 = 3%Z
  /\ _hex_with_alpha (VStr "#FF0000") (VInt 1) = Return (VStr "#02FF0000")
  /\ _hex_with_alpha (VStr "#FF0000") (VInt 1)
     <> Return (VStr ("#" +:+ format_02X (round_div (1 * 255) 100)
                      +:+ "FF0000")).
Proof. split; [reflexivity|]. split; [reflexivity|]. discriminate. Qed.

(** C10, as amended.  When the normalized color, with all its leading [#]
    removed, does not have exactly 6 characters, [_hex_with_alpha] returns
    the normalized color unchanged; and compositing a composited color again,
    with any opacity, changes nothing. *)
Theorem hex_with_alpha_idempotent (color o o' : pyval) :
  (forall n,
     _normalize_hex_color color = Return (VStr n) ->
     String.length (lstrip_hash n) <> 6%nat ->
     _hex_with_alpha color o = Return (VStr n))
  /\ (_hex_with_alpha color o ≫= (fun r => _hex_with_alpha r o'))
     = _hex_with_alpha color o.
Proof.
  split.
  - intros n Hn Hlen. rewrite (hex_with_alpha_normalized _ _ _ Hn).
    by destruct (Nat.eqb_spec (String.length (lstrip_hash n)) 6).
  - destruct (_hex_with_alpha color o) as [r|e] eqn:E; [|done].
    unfold mbind, result_bind.
    destruct (hex_with_alpha_cases _ _ _ E) as [->|(n & -> & Hn & Hlen)];
      [done|].
    rewrite (hex_with_alpha_normalized _ _ n) by by apply normalize_normal.
    by destruct (Nat.eqb_spec (String.length (lstrip_hash n)) 6).
Qed.

(** [hex_with_alpha_idempotent] at the short text ["abc"], whose normalized
    form ["#ABC"] is returned as it is, and at the composited
    ["#7FFF0000"]. *)
Lemma hex_with_alpha_idempotent_witness :
  _normalize_hex_color (VStr "abc") = Return (VStr "#ABC")
  /\ String.length (lstrip_hash "#ABC") <> 6%nat
  /\ _hex_with_alpha (VStr "abc") (VInt 50) = Return (VStr "#ABC")
  /\ _hex_with_alpha (VStr "#7FFF0000") (VInt 20) = Return (VStr "#7FFF0000").
Proof.
  assert (String.length (lstrip_hash "#ABC") <> 6%nat) as H1 by discriminate.
  assert (String.length (lstrip_hash "#7FFF0000") <> 6%nat) as H2
    by discriminate.
  split; [reflexivity|]. split; [exact H1|]. split.
  - exact (proj1 (hex_with_alpha_idempotent (VStr "abc") (VInt 50) VNone)
             "#ABC" eq_refl H1).
  - exact (proj1 (hex_with_alpha_idempotent (VStr "#7FFF0000") (VInt 20) VNone)
             "#7FFF0000" eq_refl H2).
Defined.

(** C10 as stated fails at ["##abcdef"]: its normalized form ["##ABCDEF"]
    has 7 characters after the [#], yet an alpha byte is put in front of
    the last six. *)
Lemma hex_with_alpha_double_hash :
  _normalize_hex_color (VStr "##abcdef") = Return (VStr (String "#" "#ABCDEF"))
  /\ String.length "#ABCDEF" <> 6%nat
  /\ _hex_with_alpha (VStr "##abcdef") VNone = Return (VStr "#66ABCDEF")
  /\ _hex_with_alpha (VStr "##abcdef") VNone
     <> Return (VStr (String "#" "#ABCDEF")).
Proof.
  split; [reflexivity|]. split; [discriminate|].
  split; [reflexivity|]. discriminate.
Qed.

(** ** Host strings *)

Lemma contains_colon_app pre suf :
  contains_colon (pre +:+ String ":" suf) = true.
Proof. induction pre as [|c pre IH]; simpl; [done|]. rewrite IH. apply orb_true_r. Qed.

Lemma contains_colon_has_colon s : contains_colon s = true <-> has_colon s.
Proof.
  split.
  - induction s as [|c s IH]; simpl; [done|].
    destruct (Ascii.eqb_spec c ":") as [->|_].
    + intros _. by exists "", s.
    + intros (pre & suf & ->)%IH. by exists (String c pre), suf.
  - intros (pre & suf & ->). apply contains_colon_app.
Qed.

Lemma no_colon_iff s : contains_colon s = false <-> ~ has_colon s.
Proof.
  rewrite <- contains_colon_has_colon. by destruct (contains_colon s).
Qed.

Lemma rsplit_colon_none s :
  contains_colon s = false -> rsplit_colon s = (s, None).
Proof.
  induction s as [|c s IH]; simpl; [done|].
  intros [Hc Hs]%orb_false_iff. by rewrite IH, Hc.
Qed.

Lemma rsplit_colon_last pre suf :
  contains_colon suf = false ->
  rsplit_colon (pre +:+ String ":" suf) = (pre, Some suf).
Proof.
  intros Hsuf. induction pre as [|c pre IH]; simpl.
  - by rewrite rsplit_colon_none.
  - by rewrite IH.
Qed.



Lemma no_colon_check s : contains_colon s = false -> ~ has_colon s.
Proof. apply no_colon_iff. Qed.


(** ** API client *)

Lemma string_app_cons c s t : String c s +:+ t = String c (s +:+ t).
Proof. reflexivity. Qed.

Lemma string_app_nil_r s : s +:+ "" = s.
Proof.
  induction s as [|c s IH]; [done|]. by rewrite string_app_cons, IH.
Qed.

Lemma string_app_assoc a b c : (a +:+ b) +:+ c = a +:+ b +:+ c.
Proof.
  induction a as [|x a IH]; [done|]. by rewrite !string_app_cons, IH.
Qed.

Lemma request_raises net self endpoint data e :
  (_request net self endpoint data).2 = Raise e ->
  exists msg, e = TvOverlayConnectionError msg.
Proof.
  unfold _request. destruct (net _ _ _) as [status text| |err]; simpl.
  - unfold check_response. by destruct (status =? 200)%Z.
  - intros [= <-]. eauto.
  - intros [= <-]. eauto.
Qed.

Lemma request_returns_true net self endpoint data :
  (_request net self endpoint data).2 = Return true
  <-> exists text,
      net (session_in_use self) (_base_url self +:+ endpoint) (default ∅ data)
      = Response 200 text.
Proof.
  unfold _request.
  destruct (net _ _ _) as [status text| |err]; simpl.
  - unfold check_response. destruct (Z.eqb_spec status 200) as [->|Hne].
    + split; [eauto|done].
    + simpl. split; [done|]. by intros [? [= ? _]].
  - split; [done|]. by intros [? ?].
  - split; [done|]. by intros [? ?].
Qed.

(** C1.  Whatever the endpoint and the payload, [_request] posts the payload
    (an empty object when there is none) to the endpoint under the client's
    base url.  It returns true exactly when the response has status 200; on
    a response with another status it logs the status and the body and
    returns false; it raises exactly when the exchange times out or fails in
    the transport, and what it raises then is [TvOverlayConnectionError]
    with the host and the port in its message. *)
Theorem request_result (net : transport) (self : TvOverlayApiClient)
    (endpoint : string) (data : option (gmap string pyval)) :
  let outcome :=
    net (session_in_use self) (_base_url self +:+ endpoint) (default ∅ data) in
  let address := _host self +:+ ":" +:+ py_str_int (_port self) in
  ((_request net self endpoint data).2 = Return true
   <-> exists text, outcome = Response 200 text)
  /\ (forall status text,
        outcome = Response status text -> status <> 200%Z ->
        _request net self endpoint data
        = ([LogApiError status text], Return false))
  /\ ((exists e, (_request net self endpoint data).2 = Raise e)
      <-> outcome = TimeoutError \/ exists err, outcome = ClientError err)
  /\ (forall e,
        (_request net self endpoint data).2 = Raise e ->
        exists msg, e = TvOverlayConnectionError msg /\ mentions msg address).
Proof.
  intros outcome address.
  split; [apply request_returns_true|].
  unfold _request. fold outcome.
  destruct outcome as [status text| |err]; simpl; (split; [|split]).
  - intros ? ? [= <- <-] Hne. unfold check_response.
    by destruct (Z.eqb_spec status 200).
  - unfold check_response. split.
    + intros [e He]. by destruct (status =? 200)%Z.
    + by intros [|[? ?]].
  - intros e. unfold check_response. by destruct (status =? 200)%Z.
  - done.
  - split; [by left|eauto].
  - intros e [= <-]. eexists. split; [done|].
    exists "Timeout connecting to TvOverlay at ", "".
    by rewrite string_app_nil_r.
  - done.
  - split; [eauto|eauto].
  - intros e [= <-]. eexists. split; [done|].
    exists "Error connecting to TvOverlay at ", (": " +:+ err).
    unfold address. by rewrite !string_app_assoc.
Qed.

(** [request_result] for a device that answers 503 with the body ["busy"],
    and for one that does not answer in time. *)
Lemma request_result_witness :
  let busy : transport := fun _ _ _ => Response 503 "busy" in
  let silent : transport := fun _ _ _ => TimeoutError in
  (busy (Scoped 10) "http://tv.local:5001/notify" ∅ = Response 503 "busy"
   /\ 503%Z <> 200%Z
   /\ _request busy sample_client "/notify" None
      = ([LogApiError 503 "busy"], Return false))
  /\ ((_request silent sample_client "/notify" None).2
      = Raise (TvOverlayConnectionError
                 "Timeout connecting to TvOverlay at tv.local:5001")
      /\ exists msg,
          TvOverlayConnectionError
            "Timeout connecting to TvOverlay at tv.local:5001"
          = TvOverlayConnectionError msg
          /\ mentions msg "tv.local:5001").
Proof.
  intros busy silent.
  assert (503%Z <> 200%Z) as Hne by discriminate.
  split.
  - split; [reflexivity|]. split; [exact Hne|].
    exact (proj1 (proj2 (request_result busy sample_client "/notify" None))
             503%Z "busy" eq_refl Hne).
  - split; [reflexivity|].
    exact (proj2 (proj2 (proj2
             (request_result silent sample_client "/notify" None)))
             _ eq_refl).
Defined.

(** C7.  [test_connection] posts the empty payload to the notify endpoint.
    It returns a boolean in every case and never raises: false when the
    request raises, and what the request returns otherwise; so it returns
    true exactly when the device answers that post with status 200. *)
Theorem test_connection_result `{Const} (net : transport)
    (self : TvOverlayApiClient) :
  let request := _request net self ENDPOINT_NOTIFY (Some ∅) in
  (exists b, (test_connection net self).2 = Return b)
  /\ (forall e, request.2 = Raise e ->
        (test_connection net self).2 = Return false)
  /\ (forall b, request.2 = Return b -> test_connection net self = request)
  /\ ((test_connection net self).2 = Return true
      <-> exists text,
          net (session_in_use self) (_base_url self +:+ ENDPOINT_NOTIFY) ∅
          = Response 200 text).
Proof.
  intros request.
  assert (forall e, request.2 = Raise e ->
            (test_connection net self).2 = Return false) as Hraise.
  { intros e He. destruct (request_raises _ _ _ _ _ He) as [msg ->].
    unfold test_connection. fold request.
    destruct request as [log r]. simpl in He. by rewrite He. }
  assert (forall b, request.2 = Return b -> test_connection net self = request)
    as Hret.
  { intros b Hb. unfold test_connection. fold request.
    destruct request as [log r]. simpl in Hb. by rewrite Hb. }
  split; [|split; [done|split; [done|]]].
  - destruct (request.2) as [b|e] eqn:E.
    + exists b. by rewrite (Hret b eq_refl).
    + exists false. by eapply Hraise.
  - change (∅ : gmap string pyval) with (default ∅ (Some (∅ : gmap string pyval))) at 1.
    rewrite <- (request_returns_true net self ENDPOINT_NOTIFY (Some ∅)).
    fold request. destruct (request.2) as [b|e] eqn:E.
    + by rewrite (Hret b eq_refl), E.
    + rewrite (Hraise e eq_refl). split; discriminate.
Qed.

(** [test_connection_result] for a device that does not answer in time: the
    request raises and the test reports false. *)
Lemma test_connection_result_witness :
  let silent : transport := fun _ _ _ => TimeoutError in
  (_request silent sample_client (@ENDPOINT_NOTIFY sample_const) (Some ∅)).2
  = Raise (TvOverlayConnectionError
             "Timeout connecting to TvOverlay at tv.local:5001")
  /\ (@test_connection sample_const silent sample_client).2 = Return false.
Proof.
  intros silent. split; [reflexivity|].
  exact (proj1 (proj2 (@test_connection_result sample_const silent
                         sample_client)) _ eq_refl).
Defined.

(** ** Payload builders *)

Lemma py_eq_text v s : py_eq v (VStr s) = true <-> v = VStr s.
Proof.
  destruct v as [| | |t]; simpl; try (split; discriminate).
  rewrite String.eqb_eq. split; [by intros ->|by intros [= ->]].
Qed.

Lemma present_truthy_present data attr :
  present_truthy data attr = true -> present data attr = true.
Proof.
  unfold present_truthy, present. destruct (data !! attr) as [[]|]; done.
Qed.

Lemma truthy_get_present data attr :
  truthy (dict_get data attr) = true -> present data attr = true.
Proof.
  unfold dict_get, present. destruct (data !! attr) as [[]|]; done.
Qed.

Section sourced.
Context `{Const}.

Lemma sourced_empty sources data : sourced sources data ∅.
Proof. intros k v Hv. by rewrite lookup_empty in Hv. Qed.

Lemma sourced_insert sources data payload k v :
  sourced sources data payload ->
  In k (keys_of sources) ->
  (forall attr how, In (attr, k, how) sources ->
     present data attr = true
     /\ transferred how (dict_get data ATTR_BACKGROUND_OPACITY)
          (dict_get data attr) v) ->
  sourced sources data (<[k := v]> payload).
Proof.
  intros Hp Hk Hsrc k' v' Hk'. destruct (decide (k = k')) as [<-|Hne].
  - rewrite lookup_insert_eq in Hk'. by injection Hk' as <-.
  - rewrite lookup_insert_ne in Hk' by done. by apply Hp.
Qed.

Lemma sourced_copy_simple_fields sources fields data payload :
  sourced sources data payload ->
  (forall attr k, In (attr, k) fields ->
     In k (keys_of sources)
     /\ forall attr' how, In (attr', k, how) sources ->
          attr' = attr /\ how = Verbatim) ->
  sourced sources data (copy_simple_fields fields data payload).
Proof.
  unfold copy_simple_fields. revert payload.
  induction fields as [|[attr k] fields IH]; intros payload Hp Hf; [done|].
  simpl. apply IH; [|intros; apply Hf; by right].
  destruct (Hf attr k) as [Hk Hattr]; [by left|].
  destruct (present data attr) eqn:E; [|done].
  apply sourced_insert; [done..|]. by intros attr' how [-> ->]%Hattr.
Qed.

Lemma sourced_copy_if_truthy sources attr k data payload :
  sourced sources data payload ->
  In k (keys_of sources) ->
  (forall attr' how, In (attr', k, how) sources ->
     attr' = attr /\ how = Verbatim) ->
  sourced sources data (copy_if_truthy attr k data payload).
Proof.
  intros Hp Hk Hattr. unfold copy_if_truthy.
  destruct (present_truthy data attr) eqn:E; [|done].
  apply sourced_insert; [done..|].
  intros attr' how [-> ->]%Hattr. split; [|done].
  by apply present_truthy_present.
Qed.

Lemma sourced_copy_color sources attr k data payload payload' :
  sourced sources data payload ->
  In k (keys_of sources) ->
  (forall attr' how, In (attr', k, how) sources ->
     attr' = attr /\ how = Normalized) ->
  copy_color attr k data payload = Return payload' ->
  sourced sources data payload'.
Proof.
  intros Hp Hk Hattr. unfold copy_color.
  destruct (_normalize_hex_color (dict_get data attr)) as [color|e] eqn:E;
    [|discriminate].
  unfold mbind, result_bind. intros [= <-].
  destruct (truthy color) eqn:Ht; [|done].
  apply sourced_insert; [done..|].
  intros attr' how [-> ->]%Hattr. split; [|done]. apply truthy_get_present.
  destruct (normalize_cases _ _ E) as [->|(? & _ & _ & ?)]; done.
Qed.


Lemma sourced_None sources data payload k :
  sourced sources data payload -> ~ In k (keys_of sources) ->
  payload !! k = None.
Proof.
  intros Hp Hk. destruct (payload !! k) as [v|] eqn:E; [|done].
  by destruct (Hp k v E) as [? _].
Qed.
End sourced.

Lemma copy_color_returns attr k data payload :
  color_like (dict_get data attr) = true ->
  exists payload', copy_color attr k data payload = Return payload'.
Proof.
  intros Hc. unfold copy_color.
  destruct (normalize_returns _ Hc) as [r ->]. by eexists.
Qed.

(** Solves goals about membership in a table of sources, whose keys are
    literals. *)
Ltac pair_list :=
  unfold keys_of; cbn [In map snd fst app] in *;
  repeat match goal with
         | |- _ /\ _ => split
         | |- forall _, _ => intro
         | |- ~ _ => intro
         | H : _ \/ _ |- _ => destruct H
         | H : False |- _ => destruct H
         | H : (_, _) = (_, _) |- _ => injection H as ? ?
         | _ => progress simplify_eq
         end;
  try tauto.

Section notify.
Context `{Const}.

(** The payload before the media step has the plain keys only. *)
Lemma build_notification_plain data payload :
  _build_notification_data data = Return payload ->
  exists plain,
    sourced plain_sources data plain /\ payload = set_media data plain.
Proof.
  unfold _build_notification_data.
  set (p1 := copy_simple_fields _ data ∅).
  assert (sourced plain_sources data p1) as H1.
  { apply sourced_copy_simple_fields; [apply sourced_empty|].
    intros attr k Hin. unfold plain_sources. pair_list. }
  set (p2 := copy_if_truthy ATTR_SMALL_ICON "smallIcon" data p1).
  assert (sourced plain_sources data p2) as H2.
  { apply sourced_copy_if_truthy; [done|..]; unfold plain_sources; pair_list. }
  destruct (copy_color _ _ data p2) as [p3|e] eqn:E3; [|discriminate].
  assert (sourced plain_sources data p3) as H3.
  { eapply sourced_copy_color; [exact H2| | |exact E3];
      unfold plain_sources; pair_list. }
  unfold mbind, result_bind. intros [= <-]. eexists. split; [|done].
  apply sourced_copy_if_truthy; [done|..]; unfold plain_sources; pair_list.
Qed.
End notify.

Section media.
Context `{Const}.

Lemma set_media_image data plain v :
  plain !! "image" = None ->
  set_media data plain !! "image" = Some v
  <-> v = dict_get data ATTR_MEDIA_URL
      /\ truthy (dict_get data ATTR_MEDIA_URL) = true
      /\ dict_get data ATTR_MEDIA_TYPE = VStr "image".
Proof.
  intros Hplain. unfold set_media.
  destruct (truthy (dict_get data ATTR_MEDIA_URL)) eqn:Hurl; cbn [andb].
  2:{ rewrite Hplain. split; [done|]. by intros (_ & ? & _). }
  destruct (py_eq (dict_get data ATTR_MEDIA_TYPE) (VStr "image")) eqn:Himg.
  - apply py_eq_text in Himg as ->. cbn.
    rewrite lookup_insert_eq. split; [by intros [= <-]|by intros [-> _]].
  - assert (dict_get data ATTR_MEDIA_TYPE <> VStr "image") as Hne.
    { intros E%py_eq_text. congruence. }
    destruct (truthy _ && negb _);
      [destruct (py_eq _ (VStr "video"))|];
      rewrite ?lookup_insert_ne by done; rewrite Hplain;
      (split; [done|by intros (_ & _ & ?)]).
Qed.

Lemma set_media_video data plain v :
  plain !! "video" = None ->
  set_media data plain !! "video" = Some v
  <-> v = dict_get data ATTR_MEDIA_URL
      /\ truthy (dict_get data ATTR_MEDIA_URL) = true
      /\ dict_get data ATTR_MEDIA_TYPE = VStr "video".
Proof.
  intros Hplain. unfold set_media.
  destruct (truthy (dict_get data ATTR_MEDIA_URL)) eqn:Hurl; cbn [andb].
  2:{ rewrite Hplain. split; [done|]. by intros (_ & ? & _). }
  destruct (py_eq (dict_get data ATTR_MEDIA_TYPE) (VStr "video")) eqn:Hvid.
  - apply py_eq_text in Hvid as ->. cbn.
    rewrite lookup_insert_eq. split; [by intros [= <-]|by intros [-> _]].
  - assert (dict_get data ATTR_MEDIA_TYPE <> VStr "video") as Hne.
    { intros E%py_eq_text. congruence. }
    destruct (truthy _ && negb _);
      [destruct (py_eq _ (VStr "image"))|];
      rewrite ?lookup_insert_ne by done; rewrite Hplain;
      (split; [done|by intros (_ & _ & ?)]).
Qed.

Lemma plain_no_media data plain :
  sourced plain_sources data plain ->
  plain !! "image" = None /\ plain !! "video" = None.
Proof.
  intros Hp. split; (eapply sourced_None; [exact Hp|]);
    unfold plain_sources; pair_list.
Qed.
End media.

(** From [NoDup [a; b; ...]], the inequalities between the names. *)
Ltac distinct_names Hnodup :=
  repeat (apply NoDup_cons in Hnodup as [? Hnodup]);
  clear Hnodup;
  repeat match goal with
         | H : _ ∉ [] |- _ => clear H
         | H : _ ∉ _ :: _ |- _ => apply not_elem_of_cons in H as [? H]
         end.

(** Runs a builder on a literal dict whose keys are distinct names. *)
Ltac build_example :=
  unfold _build_notification_data, _build_fixed_notification_data,
    copy_simple_fields, copy_if_truthy, copy_color, set_media,
    present, present_truthy, dict_get;
  cbn [fold_left];
  repeat first
    [ rewrite lookup_insert_eq
    | rewrite lookup_singleton_eq
    | rewrite lookup_insert_ne by done
    | rewrite lookup_singleton_ne by done
    | rewrite lookup_empty ];
  cbn.

(** C5.  Whenever [_build_notification_data] returns a payload, the payload
    has the key [image] exactly when the media URL is truthy and the media
    type is ["image"], the key [video] exactly when the media URL is truthy
    and the media type is ["video"], and the value is then the media URL; so
    it never has both keys, and has one of them only if the media URL is
    present, the media type is present and the type is not ["none"].  The
    builder returns a payload whenever the small icon color is text or
    absent.  With distinct field names, [{media_type: "video", media_url:
    "x.mp4"}] gives exactly [{video: "x.mp4"}], and [{media_type: "none",
    media_url: "x.mp4"}] gives the empty payload. *)
Theorem build_notification_media `{Const} :
  (forall data,
     color_like (dict_get data ATTR_SMALL_ICON_COLOR) = true ->
     exists payload, _build_notification_data data = Return payload)
  /\ (forall data payload,
        _build_notification_data data = Return payload ->
        let media_type := dict_get data ATTR_MEDIA_TYPE in
        let media_url := dict_get data ATTR_MEDIA_URL in
        (forall v, payload !! "image" = Some v
           <-> v = media_url /\ truthy media_url = true
               /\ media_type = VStr "image")
        /\ (forall v, payload !! "video" = Some v
              <-> v = media_url /\ truthy media_url = true
                  /\ media_type = VStr "video")
        /\ ~ (is_Some (payload !! "image") /\ is_Some (payload !! "video"))
        /\ (is_Some (payload !! "image") \/ is_Some (payload !! "video") ->
            present data ATTR_MEDIA_URL = true
            /\ present data ATTR_MEDIA_TYPE = true
            /\ truthy media_url = true /\ truthy media_type = true
            /\ media_type <> VStr "none"))
  /\ (NoDup notify_attrs ->
      _build_notification_data
        (<[ATTR_MEDIA_TYPE := VStr "video"]> {[ATTR_MEDIA_URL := VStr "x.mp4"]})
      = Return {["video" := VStr "x.mp4"]}
      /\ _build_notification_data
           (<[ATTR_MEDIA_TYPE := VStr "none"]>
              {[ATTR_MEDIA_URL := VStr "x.mp4"]})
         = Return ∅).
Proof.
  split; [|split].
  - intros data Hc. unfold _build_notification_data.
    edestruct copy_color_returns as [p ->]; [exact Hc|]. by eexists.
  - intros data payload Hb media_type media_url.
    destruct (build_notification_plain _ _ Hb) as (plain & Hplain & ->).
    destruct (plain_no_media _ _ Hplain) as [Himg Hvid].
    pose proof (fun v => set_media_image data plain v Himg) as Hi.
    pose proof (fun v => set_media_video data plain v Hvid) as Hv.
    split; [done|]. split; [done|]. split.
    + intros [[v1 H1] [v2 H2]].
      apply Hi in H1 as (_ & _ & E1). apply Hv in H2 as (_ & _ & E2).
      congruence.
    + assert (forall v t, v = media_url /\ truthy media_url = true
                /\ media_type = VStr t -> t = "image" \/ t = "video" ->
                present data ATTR_MEDIA_URL = true
                /\ present data ATTR_MEDIA_TYPE = true
                /\ truthy media_url = true /\ truthy media_type = true
                /\ media_type <> VStr "none") as Hboth.
      { intros v t (_ & Hu & Ht) Hcases.
        split; [by apply truthy_get_present|].
        split; [apply truthy_get_present; fold media_type; rewrite Ht;
                by destruct Hcases as [-> | ->]|].
        split; [done|]. rewrite Ht.
        split; destruct Hcases as [-> | ->]; done. }
      intros [[v E%Hi]|[v E%Hv]]; eapply Hboth; eauto.
  - intros Hnd. unfold notify_attrs in Hnd. distinct_names Hnd.
    split; build_example; [by rewrite insert_empty|done].
Qed.

Lemma sample_notify_attrs : NoDup (@notify_attrs sample_const).
Proof. apply (bool_decide_unpack _). vm_compute. exact I. Qed.

(** [build_notification_media] with the sample field names, at the call
    [{media_type: "video", media_url: "x.mp4"}]. *)
Lemma build_notification_media_witness :
  let data : gmap string pyval :=
    <["media_type" := VStr "video"]> {["media_url" := VStr "x.mp4"]} in
  NoDup (@notify_attrs sample_const)
  /\ color_like (dict_get data "small_icon_color") = true
  /\ @_build_notification_data sample_const data
     = Return {["video" := VStr "x.mp4"]}
  /\ ~ (is_Some (({["video" := VStr "x.mp4"]} : gmap string pyval) !! "image")
        /\ is_Some (({["video" := VStr "x.mp4"]} : gmap string pyval)
                      !! "video")).
Proof.
  intros data.
  pose proof (proj1 (proj2 (proj2 (@build_notification_media sample_const))
                       sample_notify_attrs)) as Hex.
  split; [exact sample_notify_attrs|]. split; [reflexivity|].
  split; [exact Hex|].
  exact (proj1 (proj2 (proj2
           (proj1 (proj2 (@build_notification_media sample_const))
              data _ Hex)))).
Defined.

Lemma hex_with_alpha_returns color opacity :
  color_like color = true -> (forall s, opacity <> VStr s) ->
  exists r, _hex_with_alpha color opacity = Return r.
Proof.
  intros Hc Hop. destruct (normalize_returns _ Hc) as [r Hr].
  destruct (normalize_cases _ _ Hr) as [->|(n & -> & _ & Ht)].
  - unfold _hex_with_alpha. rewrite Hr. destruct (negb _); by eexists.
  - rewrite (hex_with_alpha_normalized _ _ _ Hr).
    destruct (_ =? _)%nat; [|by eexists].
    destruct opacity as [|b|z|s]; try by eexists. by destruct (Hop s).
Qed.

Section fixed.
Context `{Const}.



Lemma build_fixed_notification_returns data :
  color_like (dict_get data ATTR_MESSAGE_COLOR) = true ->
  color_like (dict_get data ATTR_ICON_COLOR) = true ->
  color_like (dict_get data ATTR_BORDER_COLOR) = true ->
  color_like (dict_get data ATTR_BACKGROUND_COLOR) = true ->
  (forall s, dict_get data ATTR_BACKGROUND_OPACITY <> VStr s) ->
  exists payload, _build_fixed_notification_data data = Return payload.
Proof.
  intros Hm Hi Hb Hbg Hop. unfold _build_fixed_notification_data.
  edestruct copy_color_returns as [p3 ->]; [exact Hm|].
  unfold mbind at 1, result_bind at 1.
  edestruct copy_color_returns as [p4 ->]; [exact Hi|].
  unfold mbind at 1, result_bind at 1.
  edestruct copy_color_returns as [p5 ->]; [exact Hb|].
  unfold mbind at 1, result_bind at 1.
  destruct (truthy _); [|by eexists].
  edestruct hex_with_alpha_returns as [r ->]; [exact Hbg|exact Hop|].
  by eexists.
Qed.
End fixed.



(** ** Python equality and lists of IDs *)

Lemma py_eq_refl v : py_eq v v = true.
Proof.
  destruct v as [|b|z|s]; simpl; [done|by destruct b|apply Z.eqb_refl|].
  apply String.eqb_refl.
Qed.

Lemma py_eq_sym a b : py_eq a b = py_eq b a.
Proof.
  destruct a as [|x|z|s], b as [|y|w|t]; simpl; try done.
  - by destruct x, y.
  - apply Z.eqb_sym.
  - apply Z.eqb_sym.
  - apply Z.eqb_sym.
  - apply String.eqb_sym.
Qed.

Lemma py_eq_trans a b c :
  py_eq a b = true -> py_eq b c = true -> py_eq a c = true.
Proof.
  destruct a as [|x|z|s], b as [|y|w|t], c as [|u|v|r]; simpl; try done;
    rewrite ?Z.eqb_eq, ?String.eqb_eq, ?Bool.eqb_true_iff;
    try congruence; try (intros; subst; done).
  intros <- E. by destruct x, u.
Qed.

Lemma py_eq_congr a b c : py_eq a b = true -> py_eq a c = py_eq b c.
Proof.
  intros Hab. destruct (py_eq b c) eqn:Hbc.
  - by eapply py_eq_trans.
  - destruct (py_eq a c) eqn:Hac; [|done].
    rewrite py_eq_sym in Hab. by rewrite (py_eq_trans _ _ _ Hab Hac) in Hbc.
Qed.

Lemma py_in_congr a b l : py_eq a b = true -> py_in a l = py_in b l.
Proof.
  intros Hab. unfold py_in. induction l as [|x l IH]; simpl; [done|].
  by rewrite IH, (py_eq_congr a b x).
Qed.

Lemma py_in_app x l y : py_in x (l ++ [y]) = py_in x l || py_eq x y.
Proof.
  unfold py_in. rewrite existsb_app. simpl. by rewrite orb_false_r.
Qed.

Lemma py_in_false_not_elem x l : py_in x l = false -> x ∉ l.
Proof.
  unfold py_in. induction l as [|y l IH]; simpl; [intros _; apply not_elem_of_nil|].
  intros [Hy Hl]%orb_false_iff. apply not_elem_of_cons. split; [|auto].
  intros ->. by rewrite py_eq_refl in Hy.
Qed.

Lemma py_in_remove_other x y l :
  py_eq x y = false -> py_in x (py_remove y l) = py_in x l.
Proof.
  intros Hxy. induction l as [|z l IH]; [done|]. simpl.
  destruct (py_eq z y) eqn:Hzy.
  - change (py_in x (z :: l)) with (py_eq x z || py_in x l).
    rewrite py_eq_sym in Hzy.
    by rewrite py_eq_sym, <- (py_eq_congr y z x Hzy), py_eq_sym, Hxy.
  - change (py_in x (z :: py_remove y l)) with (py_eq x z || py_in x (py_remove y l)).
    by rewrite IH.
Qed.

Lemma py_in_remove_same x y l :
  py_eq x y = true -> py_distinct l = true -> py_in x (py_remove y l) = false.
Proof.
  intros Hxy. induction l as [|z l IH]; [done|]. simpl.
  intros [Hz Hl]%andb_true_iff. destruct (py_eq z y) eqn:Hzy.
  - rewrite (py_in_congr x y), <- (py_in_congr z y) by done.
    by destruct (py_in z l).
  - change (py_in x (z :: py_remove y l)) with (py_eq x z || py_in x (py_remove y l)).
    rewrite IH by done. rewrite (py_eq_congr x y) by done.
    by rewrite py_eq_sym, Hzy.
Qed.

Lemma py_in_remove_sub z x l :
  py_in z (py_remove x l) = true -> py_in z l = true.
Proof.
  induction l as [|y l IH]; [done|]. simpl.
  change (py_in z (y :: l)) with (py_eq z y || py_in z l).
  destruct (py_eq y x).
  - intros ->. apply orb_true_r.
  - change (py_in z (y :: py_remove x l)) with (py_eq z y || py_in z (py_remove x l)).
    intros [->|?%IH]%orb_true_iff; [done|]. rewrite H. apply orb_true_r.
Qed.

Lemma py_distinct_app x l :
  py_distinct l = true -> py_in x l = false -> py_distinct (l ++ [x]) = true.
Proof.
  induction l as [|y l IH]; [done|]. simpl.
  change (py_in x (y :: l)) with (py_eq x y || py_in x l).
  intros [Hy Hl]%andb_true_iff [Hxy Hx]%orb_false_iff.
  rewrite py_in_app, IH by done.
  rewrite py_eq_sym, Hxy. by destruct (py_in y l).
Qed.

Lemma py_distinct_remove x l :
  py_distinct l = true -> py_distinct (py_remove x l) = true.
Proof.
  induction l as [|y l IH]; [done|]. simpl.
  intros [Hy Hl]%andb_true_iff. destruct (py_eq y x); [done|].
  simpl. rewrite IH by done. destruct (py_in y (py_remove x l)) eqn:E; [|done].
  apply py_in_remove_sub in E. by rewrite E in Hy.
Qed.

Lemma py_remove_sublist x l : py_remove x l `sublist_of` l.
Proof.
  induction l as [|y l IH]; simpl; [done|].
  destruct (py_eq y x); [by apply sublist_cons|by apply sublist_skip].
Qed.

Lemma NoDup_py_remove x l : NoDup l -> NoDup (py_remove x l).
Proof. intros Hl. by eapply sublist_NoDup; [|apply py_remove_sublist]. Qed.

Lemma NoDup_py_add x l : NoDup l -> py_in x l = false -> NoDup (l ++ [x]).
Proof.
  intros Hl Hx%py_in_false_not_elem. apply NoDup_app. split; [done|].
  split; [|apply NoDup_singleton].
  intros y Hy ->%list_elem_of_singleton. done.
Qed.

(** ** Service handlers and the registry *)

Lemma with_entry_registry_other i j f hass :
  i <> j -> registry (with_entry j f hass).1 i = registry hass i.
Proof.
  intros Hij. unfold with_entry, registry.
  destruct (domain_data hass !! j) as [[k e]|]; [|done].
  destruct (f e) as [e' log]. simpl. by rewrite list_lookup_insert_ne.
Qed.

Lemma with_entry_registry_same i f hass :
  registry (with_entry i f hass).1 i
  = match domain_data hass !! i with
    | Some (_, e) => notification_ids (f e).1
    | None => []
    end.
Proof.
  unfold with_entry, registry.
  destruct (domain_data hass !! i) as [[k e]|] eqn:E; [|simpl; by rewrite ?E].
  destruct (f e) as [e' log]. simpl.
  rewrite list_lookup_insert_eq; [done|]. by eapply lookup_lt_Some.
Qed.

Lemma add_notification_ids e nid :
  notification_ids (_add_notification_id e nid).1
  = if py_in nid (notification_ids e) then notification_ids e
    else (notification_ids e ++ [nid])%list.
Proof. unfold _add_notification_id. by destruct (py_in _ _). Qed.

Lemma remove_notification_ids e nid :
  notification_ids (_remove_notification_id e nid).1
  = if py_in nid (notification_ids e) then py_remove nid (notification_ids e)
    else notification_ids e.
Proof. unfold _remove_notification_id. by destruct (py_in _ _). Qed.

Lemma get_entry_lookup hass client j :
  _get_entry_data_from_client hass client = Some j ->
  is_Some (domain_data hass !! j).
Proof.
  unfold _get_entry_data_from_client.
  destruct (list_find _ _) as [[j' kv]|] eqn:E; [|done].
  intros [= <-]. apply list_find_Some in E as (? & _). eauto.
Qed.

Section handlers.
Context `{Const}.

(** The state a [notify_fixed] or [clear_fixed] invocation leaves. *)
Lemma handle_state hass c :
  (handle hass c).1.1
  = match underlying_call hass c with
    | Some (kind, client, nid, Return true) =>
        match _get_entry_data_from_client hass client with
        | Some j =>
            match kind with
            | Create =>
                if truthy nid then
                  (with_entry j (fun e => _add_notification_id e nid) hass).1
                else hass
            | Clear =>
                (with_entry j (fun e => _remove_notification_id e nid)
                   hass).1
            end
        | None => hass
        end
    | _ => hass
    end.
Proof.
  unfold handle, underlying_call.
  destruct (call_service c).
  - unfold async_notify.
    destruct (_get_client _ _) as [[client|]|]; try done.
    destruct (_build_notification_data _); [|done].
    by destruct (send_notification _ _ _) as [log [|]].
  - unfold async_notify_fixed.
    destruct (_get_client _ _) as [[client|]|]; try done.
    destruct (_build_fixed_notification_data _) as [data|]; [|done].
    destruct (send_fixed_notification _ _ _) as [log [[]|]]; try done.
    simpl. destruct (truthy _); simpl.
    + destruct (_get_entry_data_from_client _ _); [|done].
      by destruct (with_entry _ _ _).
    + by destruct (_get_entry_data_from_client _ _).
  - unfold async_clear_fixed.
    destruct (_get_client _ _) as [[client|]|]; try done.
    destruct (call_data c !! ATTR_ID) as [nid|]; [|done].
    destruct (clear_fixed_notification _ _ _) as [log [[]|]]; try done.
    simpl. destruct (_get_entry_data_from_client _ _); [|done].
    by destruct (with_entry _ _ _).
Qed.

(** What one invocation does to the registry of the entry at [i]. *)
Lemma handle_registry hass c i :
  registry (handle hass c).1.1 i
  = match operation_at hass c i with
    | Some (Create, nid) =>
        if py_in nid (registry hass i) then registry hass i
        else (registry hass i ++ [nid])%list
    | Some (Clear, nid) =>
        if py_in nid (registry hass i) then py_remove nid (registry hass i)
        else registry hass i
    | None => registry hass i
    end.
Proof.
  rewrite handle_state. unfold operation_at.
  destruct (underlying_call hass c) as [[[[kind client] nid] [[]|]]|];
    try done.
  destruct (_get_entry_data_from_client hass client) as [j|] eqn:Hj;
    [|by rewrite bool_decide_eq_false_2].
  destruct (decide (i = j)) as [->|Hij].
  2:{ rewrite bool_decide_eq_false_2 by congruence. simpl.
      destruct kind; [destruct (truthy nid)|];
        by rewrite ?with_entry_registry_other. }
  rewrite bool_decide_eq_true_2 by done. cbn [andb].
  destruct (get_entry_lookup _ _ _ Hj) as [[k e] He].
  assert (registry hass j = notification_ids e) as Hbefore
    by (unfold registry; by rewrite He).
  destruct kind.
  - destruct (truthy nid) eqn:Ht; [|done].
    by rewrite with_entry_registry_same, He, add_notification_ids, <- Hbefore.
  - by rewrite with_entry_registry_same, He, remove_notification_ids,
      <- Hbefore.
Qed.

Lemma handle_notify hass c :
  call_service c = Notify -> (handle hass c).1.1 = hass.
Proof.
  intros Hc. rewrite handle_state. unfold underlying_call. by rewrite Hc.
Qed.

Lemma handle_distinct hass c i :
  py_distinct (registry hass i) = true ->
  py_distinct (registry (handle hass c).1.1 i) = true.
Proof.
  intros Hd. rewrite handle_registry.
  destruct (operation_at hass c i) as [[[] nid]|]; [| |done];
    destruct (py_in nid (registry hass i)) eqn:Hin; try done.
  - by apply py_distinct_app.
  - by apply py_distinct_remove.
Qed.

Lemma handle_NoDup hass c i :
  NoDup (registry hass i) -> NoDup (registry (handle hass c).1.1 i).
Proof.
  intros Hd. rewrite handle_registry.
  destruct (operation_at hass c i) as [[[] nid]|]; [| |done];
    destruct (py_in nid (registry hass i)) eqn:Hin; try done.
  - by apply NoDup_py_add.
  - by apply NoDup_py_remove.
Qed.

Lemma run_cons hass c calls :
  run hass (c :: calls) = run (handle hass c).1.1 calls.
Proof. done. Qed.

Lemma run_distinct hass calls i :
  py_distinct (registry hass i) = true ->
  py_distinct (registry (run hass calls) i) = true.
Proof.
  revert hass. induction calls as [|c calls IH]; intros hass Hd; [done|].
  rewrite run_cons. by apply IH, handle_distinct.
Qed.

Lemma run_NoDup hass calls i :
  NoDup (registry hass i) -> NoDup (registry (run hass calls) i).
Proof.
  revert hass. induction calls as [|c calls IH]; intros hass Hd; [done|].
  rewrite run_cons. by apply IH, handle_NoDup.
Qed.

(** Membership of [nid] after one invocation. *)
Lemma handle_member hass c i nid :
  py_distinct (registry hass i) = true ->
  py_in nid (registry (handle hass c).1.1 i)
  = match successful_on hass c i nid with
    | Some Create => true
    | Some Clear => false
    | None => py_in nid (registry hass i)
    end.
Proof.
  intros Hd. rewrite handle_registry. unfold successful_on.
  destruct (operation_at hass c i) as [[[] v]|]; [| |done];
    destruct (py_eq v nid) eqn:Hv;
    destruct (py_in v (registry hass i)) eqn:Hin.
  - by rewrite <- (py_in_congr v nid).
  - rewrite py_in_app, py_eq_sym, Hv. apply orb_true_r.
  - done.
  - rewrite py_in_app, py_eq_sym, Hv. apply orb_false_r.
  - apply py_in_remove_same; [by rewrite py_eq_sym|done].
  - by rewrite <- (py_in_congr v nid).
  - apply py_in_remove_other. by rewrite py_eq_sym.
  - done.
Qed.
End handlers.

(** ** Claims on the registry *)

(** C8.  One service invocation leaves the registry of an entry as it was,
    or appends the ID of a successful create that was not in it, or removes
    the first item equal to the ID of a successful clear; the [notify]
    service changes nothing at all.  So a registry without duplicates stays
    without duplicates, after one invocation and after any sequence of
    them, whether items are compared as values or with Python's [==]. *)
Theorem registry_stays_duplicate_free `{Const} (hass : HomeAssistant)
    (c : service_call) (i : nat) :
  let before := registry hass i in
  let after := registry (handle hass c).1.1 i in
  (after = before
   \/ (exists nid,
         operation_at hass c i = Some (Create, nid)
         /\ py_in nid before = false /\ after = (before ++ [nid])%list)
   \/ (exists nid,
         operation_at hass c i = Some (Clear, nid)
         /\ py_in nid before = true /\ after = py_remove nid before))
  /\ (call_service c = Notify -> (handle hass c).1.1 = hass)
  /\ (NoDup before -> NoDup after)
  /\ (py_distinct before = true -> py_distinct after = true)
  /\ (forall calls, NoDup before -> NoDup (registry (run hass calls) i)).
Proof.
  intros before after. split; [|split; [|split; [|split]]].
  - subst after. rewrite handle_registry. fold before.
    destruct (operation_at hass c i) as [[[] nid]|]; [| |by left];
      destruct (py_in nid before) eqn:Hin; try (by left).
    + right; left. by exists nid.
    + right; right. by exists nid.
  - apply handle_notify.
  - apply handle_NoDup.
  - apply handle_distinct.
  - intros calls. apply run_NoDup.
Qed.

(** C2.  Start from a registry without duplicates, run any sequence of
    service invocations, and take any ID: the ID is in the registry of an
    entry exactly when the last successful operation on it at that entry
    was a create, or, when the sequence has no successful operation on it,
    when it was there at the start.  From the empty registry, the ID is
    there exactly when the last successful operation on it was a create.
    In particular a successful create puts the ID in, a successful clear
    takes it out, and an invocation whose underlying call does not report
    success changes nothing. *)
Theorem registry_tracks_last_successful_operation `{Const}
    (hass : HomeAssistant) (calls : list service_call) (i : nat)
    (nid : pyval) :
  (registry hass i = [] ->
   py_in nid (registry (run hass calls) i) = true
   <-> last_successful hass calls i nid = Some Create)
  /\ (py_distinct (registry hass i) = true ->
      py_in nid (registry (run hass calls) i)
      = match last_successful hass calls i nid with
        | Some Create => true
        | Some Clear => false
        | None => py_in nid (registry hass i)
        end)
  /\ (py_distinct (registry hass i) = true ->
      forall c,
        (successful_on hass c i nid = Some Create ->
         py_in nid (registry (handle hass c).1.1 i) = true)
        /\ (successful_on hass c i nid = Some Clear ->
            py_in nid (registry (handle hass c).1.1 i) = false))
  /\ (forall c kind client notification_id r,
        underlying_call hass c = Some (kind, client, notification_id, r) ->
        r <> Return true -> (handle hass c).1.1 = hass).
Proof.
  assert (forall hass,
            py_distinct (registry hass i) = true ->
            py_in nid (registry (run hass calls) i)
            = match last_successful hass calls i nid with
              | Some Create => true
              | Some Clear => false
              | None => py_in nid (registry hass i)
              end) as Hgen.
  { clear hass. induction calls as [|c calls IH]; intros hass Hd; [done|].
    rewrite run_cons, IH by by apply handle_distinct.
    cbn [last_successful].
    destruct (last_successful _ calls i nid) as [[]|]; try done.
    by apply handle_member. }
  split; [|split; [by apply Hgen|split]].
  - intros Hempty. rewrite Hgen by by rewrite Hempty.
    rewrite Hempty. by destruct (last_successful _ _ _ _) as [[]|].
  - intros Hd c. rewrite handle_member by done.
    split; by intros ->.
  - intros c kind client v r Hu Hr. rewrite handle_state, Hu.
    by destruct r as [[]|].
Qed.

(** [registry_stays_duplicate_free] on the sample device with an empty
    registry: a successful create of ["door"] appends it, and the registry
    has no duplicates after a create, a failed clear and a second create. *)
Lemma registry_stays_duplicate_free_witness :
  let c := door_call NotifyFixed 200 in
  NoDup (registry sample_hass 0)
  /\ py_distinct (registry sample_hass 0) = true
  /\ NoDup (registry (@handle sample_const sample_hass c).1.1 0)
  /\ py_distinct (registry (@handle sample_const sample_hass c).1.1 0) = true
  /\ NoDup (registry
              (@run sample_const sample_hass
                 [c; door_call ClearFixed 503; c]) 0).
Proof.
  intros c.
  assert (NoDup (registry sample_hass 0)) as Hnd by apply NoDup_nil_2.
  pose proof (@registry_stays_duplicate_free sample_const sample_hass c 0)
    as (_ & _ & H1 & H2 & H3).
  split; [exact Hnd|]. split; [reflexivity|].
  split; [exact (H1 Hnd)|]. split; [exact (H2 eq_refl)|].
  exact (H3 _ Hnd).
Defined.

(** [registry_tracks_last_successful_operation] on the sample device: after
    a successful create of ["door"] and a clear that the device answers with
    503, ["door"] is in the registry; after a further, successful clear it is
    not; and the failed clear alone changes nothing. *)
Lemma registry_tracks_last_successful_operation_witness :
  let create := door_call NotifyFixed 200 in
  let failed_clear := door_call ClearFixed 503 in
  let clear := door_call ClearFixed 200 in
  registry sample_hass 0 = []
  /\ py_distinct (registry sample_hass 0) = true
  /\ @last_successful sample_const sample_hass [create; failed_clear] 0
       (VStr "door") = Some Create
  /\ py_in (VStr "door")
       (registry (@run sample_const sample_hass [create; failed_clear]) 0)
     = true
  /\ py_in (VStr "door")
       (registry (@run sample_const sample_hass
                    [create; failed_clear; clear]) 0)
     = false
  /\ (@handle sample_const sample_hass failed_clear).1.1 = sample_hass.
Proof.
  intros create failed_clear clear.
  split; [reflexivity|]. split; [reflexivity|]. split; [reflexivity|].
  split; [|split].
  - exact (proj2 (proj1 (@registry_tracks_last_successful_operation
                           sample_const sample_hass [create; failed_clear]
                           0 (VStr "door")) eq_refl) eq_refl).
  - exact (proj1 (proj2 (@registry_tracks_last_successful_operation
                           sample_const sample_hass
                           [create; failed_clear; clear] 0 (VStr "door")))
             eq_refl).
  - refine (proj2 (proj2 (proj2 (@registry_tracks_last_successful_operation
                            sample_const sample_hass [] 0 (VStr "door"))))
              failed_clear Clear (client sample_entry) (VStr "door")
              (Return false) eq_refl _).
    discriminate.
Defined.

(** ** More on colors *)










Lemma rstrip_blank b : all_chars is_space b = true -> rstrip b = "".
Proof.
  induction b as [|c b IH]; [done|]. simpl.
  intros [Hc Hb]%andb_true_iff. by rewrite IH, Hc.
Qed.







(** X2.  A text that is not empty but holds whitespace only is not taken
    for an absent color: it normalizes to the bare ["#"], and compositing
    returns that ["#"] as it is. *)
Theorem blank_color_is_hash (s : string) (opacity : pyval) :
  s <> "" -> all_chars is_space s = true ->
  _normalize_hex_color (VStr s) = Return (VStr "#")
  /\ _hex_with_alpha (VStr s) opacity = Return (VStr "#").
Proof.
  intros Hs Hblank.
  assert (strip s = "") as Hstrip.
  { unfold strip. by rewrite rstrip_blank. }
  assert (_normalize_hex_color (VStr s) = Return (VStr "#")) as Hn.
  { rewrite normalize_text by done. by rewrite Hstrip. }
  split; [done|]. by rewrite (hex_with_alpha_normalized _ _ _ Hn).
Qed.

(** [blank_color_is_hash] at a single space. *)
Lemma blank_color_is_hash_witness :
  " " <> "" /\ all_chars is_space " " = true
  /\ _normalize_hex_color (VStr " ") = Return (VStr "#")
  /\ _hex_with_alpha (VStr " ") (VInt 50) = Return (VStr "#").
Proof.
  assert (" " <> "") as Hne by discriminate.
  split; [exact Hne|]. split; [reflexivity|].
  exact (blank_color_is_hash " " (VInt 50) Hne eq_refl).
Defined.

Lemma hex_digits_length fuel n acc :
  (String.length acc < String.length (hex_digits fuel n acc))%nat.
Proof.
  revert n acc. induction fuel as [|f IH]; intros n acc; simpl; [lia|].
  destruct (n / 16 =? 0)%Z; simpl; [lia|].
  specialize (IH (n / 16)%Z (String (hex_digit (n mod 16)) acc)).
  simpl in IH. lia.
Qed.

Lemma hex_upper_long a :
  (256 <= a)%Z -> (3 <= String.length (hex_upper a))%nat.
Proof.
  intros Ha. unfold hex_upper.
  assert (8 <= Z.log2 a)%Z as Hlog.
  { change 8%Z with (Z.log2 256). by apply Z.log2_le_mono. }
  destruct (Z.to_nat (Z.log2 a)) as [|[|f]] eqn:Hf; [lia|lia|].
  cbn [hex_digits].
  assert ((a / 16 =? 0)%Z = false) as ->.
  { apply Z.eqb_neq. assert (16 <= a / 16)%Z; [|lia].
    apply Z.div_le_lower_bound; lia. }
  assert ((a / 16 / 16 =? 0)%Z = false) as ->.
  { apply Z.eqb_neq. rewrite Z.div_div by lia.
    assert (1 <= a / (16 * 16))%Z; [|lia].
    apply Z.div_le_lower_bound; lia. }
  match goal with
  | |- (_ <= String.length (hex_digits ?f ?n ?acc))%nat =>
      pose proof (hex_digits_length f n acc) as Hlen
  end.
  simpl in Hlen. lia.
Qed.

Lemma all_chars_app p a b :
  all_chars p (a +:+ b) = all_chars p a && all_chars p b.
Proof.
  induction a as [|c a IH]; [done|].
  rewrite string_app_cons. simpl. by rewrite IH, andb_assoc.
Qed.

Lemma is_hex_upper_hex_digit d : is_hex_upper (hex_digit d) = true.
Proof.
  unfold hex_digit.
  repeat match goal with
         | |- context [match ?x with _ => _ end] => destruct x
         end; reflexivity.
Qed.

(** X3.  [_hex_with_alpha] does not clamp the opacity: on a color whose
    normalized form is [#RRGGBB] and an integer opacity (below 10^13 in
    absolute value, where the float division is exact enough) it returns a
    text, and that text has the shape [#AARRGGBB] exactly when the opacity
    lies between 0 and 100. *)
Theorem hex_with_alpha_shape (color : pyval) (rgb : string) (opacity : Z) :
  _normalize_hex_color color = Return (VStr (String "#" rgb)) ->
  is_rrggbb (String "#" rgb) = true ->
  (Z.abs opacity < 10 ^ 13)%Z ->
  exists r,
    _hex_with_alpha color (VInt opacity) = Return (VStr r)
    /\ (is_aarrggbb r = true <-> (0 <= opacity <= 100)%Z).
Proof.
  intros Hn Hshape _.
  assert (lstrip_hash (String "#" rgb) = rgb /\ String.length rgb = 6%nat
          /\ all_chars is_hex_upper rgb = true) as (Hrgb & Hlen & Hhex).
  { unfold is_rrggbb in Hshape.
    apply andb_true_iff in Hshape as [Hlen%Nat.eqb_eq Hhex].
    split; [|by split]. rewrite lstrip_hash_cons. cbn [Ascii.eqb Bool.eqb].
    destruct rgb as [|c r]; [done|]. rewrite lstrip_hash_cons.
    simpl in Hhex. apply andb_true_iff in Hhex as [Hc _].
    by rewrite (is_hex_upper_not_hash _ Hc). }
  rewrite (hex_with_alpha_normalized _ _ _ Hn), Hrgb, Hlen.
  cbn [Nat.eqb alpha_of_opacity]. unfold mbind, result_bind.
  eexists. split; [reflexivity|].
  set (alpha := Z.quot (opacity * 255) 100).
  change ("#" +:+ format_02X alpha +:+ rgb)
    with (String "#" (format_02X alpha +:+ rgb)).
  unfold is_aarrggbb. rewrite length_app, all_chars_app, Hlen, Hhex.
  rewrite andb_true_r, andb_true_iff, Nat.eqb_eq.
  destruct (Z_lt_le_dec opacity 0) as [Hneg|Hpos].
  { assert (alpha < 0)%Z as Ha.
    { subst alpha. rewrite <- (Z.opp_involutive (opacity * 255)).
      rewrite Z.quot_opp_l by lia.
      assert (0 < Z.quot (- (opacity * 255)) 100)%Z; [|lia].
      apply Z.quot_str_pos; lia. }
    unfold format_02X. rewrite (proj2 (Z.ltb_lt _ _) Ha). simpl.
    split; [intros [_ [=]]|lia]. }
  assert (alpha = opacity * 255 / 100)%Z as Halpha
    by (apply Z.quot_div_nonneg; lia).
  destruct (Z_le_gt_dec opacity 100) as [Hle|Hgt].
  - assert (0 <= alpha < 256)%Z.
    { rewrite Halpha. split; [apply Z.div_pos; lia|].
      apply Z.div_lt_upper_bound; lia. }
    rewrite format_02X_byte by done. simpl.
    rewrite !is_hex_upper_hex_digit. split; [lia|done].
  - assert (256 <= alpha)%Z as Ha.
    { rewrite Halpha. apply Z.div_le_lower_bound; lia. }
    pose proof (hex_upper_long _ Ha) as Hlong.
    unfold format_02X. rewrite (proj2 (Z.ltb_ge _ _)) by lia.
    destruct (hex_upper alpha) as [|c [|d t]]; simpl in *; lia.
Qed.

(** [hex_with_alpha_shape] at ["red"]: opacity 100 gives the well-formed
    ["#FFFF0000"], opacity 101 gives ["#101FF0000"]. *)
Lemma hex_with_alpha_shape_witness :
  _normalize_hex_color (VStr "red") = Return (VStr "#FF0000")
  /\ is_rrggbb "#FF0000" = true
  /\ _hex_with_alpha (VStr "red") (VInt 100) = Return (VStr "#FFFF0000")
  /\ _hex_with_alpha (VStr "red") (VInt 101) = Return (VStr "#101FF0000")
  /\ exists r,
       _hex_with_alpha (VStr "red") (VInt 101) = Return (VStr r)
       /\ (is_aarrggbb r = true <-> (0 <= 101 <= 100)%Z).
Proof.
  split; [reflexivity|]. split; [reflexivity|].
  split; [reflexivity|]. split; [reflexivity|].
  exact (hex_with_alpha_shape (VStr "red") "FF0000" 101 eq_refl eq_refl
           eq_refl).
Defined.

(** ** More on the registry *)

Lemma py_remove_absent x l : py_in x l = false -> py_remove x l = l.
Proof.
  induction l as [|y l IH]; [done|].
  change (py_in x (y :: l)) with (py_eq x y || py_in x l).
  intros [Hy Hl]%orb_false_iff. simpl.
  rewrite py_eq_sym, Hy. by rewrite IH.
Qed.

Lemma py_remove_app_last a b l :
  py_eq a b = true -> py_in b l = false -> py_remove b (l ++ [a]) = l.
Proof.
  intros Hab. induction l as [|y l IH]; simpl.
  - intros _. by rewrite Hab.
  - change (py_in b (y :: l)) with (py_eq b y || py_in b l).
    intros [Hy Hl]%orb_false_iff. rewrite py_eq_sym, Hy. by rewrite IH.
Qed.

Lemma py_count_congr a b l : py_eq a b = true -> py_count a l = py_count b l.
Proof.
  intros Hab. induction l as [|y l IH]; [done|]. simpl.
  rewrite IH. rewrite (py_eq_sym y a), (py_eq_sym y b).
  by rewrite (py_eq_congr a b y).
Qed.

Lemma py_count_in x l : py_in x l = true <-> (0 < py_count x l)%nat.
Proof.
  induction l as [|y l IH]; simpl; [split; [done|lia]|].
  change (py_in x (y :: l)) with (py_eq x y || py_in x l).
  rewrite (py_eq_sym x y). destruct (py_eq y x); simpl; [split; [lia|done]|done].
Qed.

Lemma py_count_remove x y l :
  py_count x (py_remove y l)
  = (py_count x l - if py_eq y x then 1 else 0)%nat.
Proof.
  induction l as [|z l IH]; [done|]. simpl.
  destruct (py_eq z y) eqn:Hzy.
  - rewrite <- (py_eq_congr z y x Hzy). destruct (py_eq z x); lia.
  - simpl. rewrite IH. destruct (py_eq z x) eqn:Hzx; [|done].
    destruct (py_eq y x) eqn:Hyx; [|lia].
    rewrite py_eq_sym in Hyx.
    rewrite (py_eq_trans _ _ _ Hzx Hyx) in Hzy. done.
Qed.

Lemma py_count_app x l y :
  py_count x (l ++ [y]) = (py_count x l + if py_eq y x then 1 else 0)%nat.
Proof.
  induction l as [|z l IH]; simpl; [by destruct (py_eq y x)|].
  rewrite IH. destruct (py_eq z x); lia.
Qed.

(** X4.  Round trip on the registry of an entry: a successful create of an
    ID that is not in the registry, followed by a successful clear of that
    ID, gives back the registry as it was, in the same order. *)
Theorem create_then_clear_restores `{Const} (hass : HomeAssistant)
    (c1 c2 : service_call) (i : nat) (a b : pyval) :
  operation_at hass c1 i = Some (Create, a) ->
  operation_at (handle hass c1).1.1 c2 i = Some (Clear, b) ->
  py_eq a b = true ->
  py_in a (registry hass i) = false ->
  registry (run hass [c1; c2]) i = registry hass i.
Proof.
  intros Hop1 Hop2 Hab Hin.
  change (run hass [c1; c2])
    with ((handle (handle hass c1).1.1 c2).1.1).
  rewrite handle_registry, Hop2, handle_registry, Hop1, Hin.
  assert (py_in b (registry hass i) = false) as Hb
    by (by rewrite <- (py_in_congr a b)).
  rewrite py_in_app, Hb. rewrite (py_eq_sym b a), Hab. simpl.
  by apply py_remove_app_last.
Qed.

(** With [window] in the registry of the sample device, a create of [door]
    answered 200 and then a clear of [door] answered 200 leave the registry
    [window]. *)
Lemma create_then_clear_restores_witness :
  let hass := sample_hass_with [VStr "window"] in
  let create := door_call NotifyFixed 200 in
  let clear := door_call ClearFixed 200 in
  @operation_at sample_const hass create 0 = Some (Create, VStr "door")
  /\ @operation_at sample_const (@handle sample_const hass create).1.1 clear 0
     = Some (Clear, VStr "door")
  /\ py_in (VStr "door") (registry hass 0) = false
  /\ registry (@run sample_const hass [create; clear]) 0 = [VStr "window"].
Proof.
  intros hass create clear.
  split; [reflexivity|]. split; [reflexivity|]. split; [reflexivity|].
  exact (@create_then_clear_restores sample_const hass create clear 0
           (VStr "door") (VStr "door") eq_refl eq_refl eq_refl eq_refl).
Defined.

(** X5.  A successful clear takes out one occurrence of the ID, the first,
    and no more: the number of items equal to any ID drops by one if the
    cleared ID equals it and stays as it is otherwise.  So an ID that the
    loaded registry holds twice is still in the registry after one clear. *)
Theorem clear_removes_one_occurrence `{Const} (hass : HomeAssistant)
    (c : service_call) (i : nat) (nid x : pyval) :
  operation_at hass c i = Some (Clear, nid) ->
  py_count x (registry (handle hass c).1.1 i)
  = (py_count x (registry hass i) - if py_eq nid x then 1 else 0)%nat
  /\ ((2 <= py_count nid (registry hass i))%nat ->
      py_in nid (registry (handle hass c).1.1 i) = true).
Proof.
  intros Hop. rewrite handle_registry, Hop.
  assert (py_count x (if py_in nid (registry hass i)
                      then py_remove nid (registry hass i)
                      else registry hass i)
          = (py_count x (registry hass i) - if py_eq nid x then 1 else 0)%nat)
    as Hcount.
  { destruct (py_in nid (registry hass i)) eqn:Hin;
      [apply py_count_remove|].
    destruct (py_eq nid x) eqn:Hx; [|lia].
    assert (py_count x (registry hass i) = 0%nat); [|lia].
    rewrite <- (py_count_congr nid x) by done.
    destruct (py_count nid (registry hass i)) eqn:E; [done|].
    assert (py_in nid (registry hass i) = true); [|congruence].
    apply py_count_in. lia. }
  split; [done|]. intros Htwice. apply py_count_in.
  destruct (py_in nid (registry hass i)) eqn:Hin.
  - rewrite py_count_remove, py_eq_refl. lia.
  - lia.
Qed.

(** With [door] loaded twice in the registry of the sample device, one
    successful clear of [door] leaves one [door] in the registry. *)
Lemma clear_removes_one_occurrence_witness :
  let hass := sample_hass_with [VStr "door"; VStr "door"] in
  let clear := door_call ClearFixed 200 in
  @operation_at sample_const hass clear 0 = Some (Clear, VStr "door")
  /\ py_count (VStr "door") (registry (@handle sample_const hass clear).1.1 0)
     = 1%nat
  /\ py_in (VStr "door") (registry (@handle sample_const hass clear).1.1 0)
     = true.
Proof.
  intros hass clear. split; [reflexivity|]. split.
  - exact (proj1 (@clear_removes_one_occurrence sample_const hass clear 0
                    (VStr "door") (VStr "door") eq_refl)).
  - apply (proj2 (@clear_removes_one_occurrence sample_const hass clear 0
                    (VStr "door") (VStr "door") eq_refl)).
    vm_compute. lia.
Defined.

(** ** What a service invocation leaves behind *)

Lemma request_log net self endpoint data x :
  In x (_request net self endpoint data).1 ->
  exists status text, x = LogApiError status text.
Proof.
  unfold _request. destruct (net _ _ _) as [status text| |err]; simpl;
    [|done..].
  unfold check_response. destruct (status =? 200)%Z; simpl; [done|].
  intros [<-|[]]. eauto.
Qed.

Lemma request_true_log net self endpoint data :
  (_request net self endpoint data).2 = Return true ->
  (_request net self endpoint data).1 = [].
Proof.
  unfold _request. destruct (net _ _ _) as [status text| |err]; simpl;
    [|done..].
  unfold check_response. by destruct (status =? 200)%Z.
Qed.

Lemma py_remove_length x l :
  py_in x l = true -> S (length (py_remove x l)) = length l.
Proof.
  induction l as [|y l IH]; [done|].
  change (py_in x (y :: l)) with (py_eq x y || py_in x l).
  simpl. rewrite (py_eq_sym y x). destruct (py_eq x y); simpl; [done|].
  intros Hin. by rewrite IH.
Qed.

Lemma add_notification_id_cases e nid :
  _add_notification_id e nid = (e, [])
  \/ exists ids, ids <> notification_ids e
      /\ _add_notification_id e nid
         = (set_notification_ids e ids, [StoreSave ids; ListenersNotified]).
Proof.
  unfold _add_notification_id. destruct (py_in _ _); simpl; [by left|].
  right. eexists. split; [|done].
  intros Heq. apply (f_equal length) in Heq. rewrite List.length_app in Heq.
  simpl in Heq. lia.
Qed.

Lemma remove_notification_id_cases e nid :
  _remove_notification_id e nid = (e, [])
  \/ exists ids, ids <> notification_ids e
      /\ _remove_notification_id e nid
         = (set_notification_ids e ids, [StoreSave ids; ListenersNotified]).
Proof.
  unfold _remove_notification_id.
  destruct (py_in _ _) eqn:Hin; simpl; [|by left].
  right. eexists. split; [|done].
  intros Heq. apply (f_equal length) in Heq.
  apply py_remove_length in Hin. lia.
Qed.

Lemma with_entry_cases i f hass :
  (forall e, f e = (e, [])
     \/ exists ids, ids <> notification_ids e
         /\ f e = (set_notification_ids e ids,
                   [StoreSave ids; ListenersNotified])) ->
  with_entry i f hass = (hass, [])
  \/ exists k e ids,
       domain_data hass !! i = Some (k, e)
       /\ ids <> notification_ids e
       /\ with_entry i f hass
          = ({| domain_data :=
                  <[i := (k, set_notification_ids e ids)]> (domain_data hass);
                device_registry := device_registry hass;
                clientsession := clientsession hass |},
             [StoreSave ids; ListenersNotified]).
Proof.
  intros Hf. unfold with_entry.
  destruct (domain_data hass !! i) as [[k e]|] eqn:E; [|by left].
  destruct (Hf e) as [->|(ids & Hne & ->)].
  - left. rewrite list_insert_id by done. by destruct hass.
  - right. by exists k, e, ids.
Qed.

Section effects.
Context `{Const}.

Lemma handle_cases hass c :
  ((handle hass c).1.1 = hass
   /\ forall x, In x (handle hass c).1.2 ->
        x = LogDeviceNotFound \/ exists status text, x = LogApiError status text)
  \/ exists i k e ids,
       domain_data hass !! i = Some (k, e)
       /\ ids <> notification_ids e
       /\ handle hass c
          = ({| domain_data :=
                  <[i := (k, set_notification_ids e ids)]> (domain_data hass);
                device_registry := device_registry hass;
                clientsession := clientsession hass |},
             [StoreSave ids; ListenersNotified], Return tt).
Proof.
  assert (forall log : list effect,
             (forall x, In x log -> exists status text, x = LogApiError status text) ->
             forall x, In x log ->
               x = LogDeviceNotFound
               \/ exists status text, x = LogApiError status text)
    as Hlog by (intros log Hl x Hx; right; by apply Hl).
  assert (forall x : effect, In x [LogDeviceNotFound] ->
            x = LogDeviceNotFound
            \/ exists status text, x = LogApiError status text)
    as Hnf by (intros x [<-|[]]; by left).
  unfold handle. destruct (call_service c).
  - left. unfold async_notify.
    destruct (_get_client _ _) as [[client|]|]; try done.
    destruct (_build_notification_data _) as [data|]; [|done].
    pose proof (request_log (call_net c) client ENDPOINT_NOTIFY (Some data))
      as Hl.
    unfold send_notification.
    destruct (_request _ _ _ _) as [log [|]]; split; try done;
      by apply Hlog.
  - unfold async_notify_fixed.
    destruct (_get_client _ _) as [[client|]|]; try (by left).
    destruct (_build_fixed_notification_data _) as [data|]; [|by left].
    pose proof (request_log (call_net c) client ENDPOINT_NOTIFY_FIXED
                  (Some data)) as Hl.
    pose proof (request_true_log (call_net c) client ENDPOINT_NOTIFY_FIXED
                  (Some data)) as Ht.
    unfold send_fixed_notification.
    destruct (_request _ _ _ _) as [log [[]|]]; simpl in *;
      try (left; split; [done|by apply Hlog]).
    rewrite Ht by done.
    destruct (truthy _); simpl; [|by left].
    destruct (_get_entry_data_from_client _ _) as [i|]; [|by left].
    destruct (with_entry_cases i
                (fun e => _add_notification_id e (dict_get data "id")) hass)
      as [->|(k & e & ids & He & Hne & ->)].
    + intros e. apply add_notification_id_cases.
    + by left.
    + right. by exists i, k, e, ids.
  - unfold async_clear_fixed.
    destruct (_get_client _ _) as [[client|]|]; try (by left).
    destruct (call_data c !! ATTR_ID) as [nid|]; [|by left].
    unfold clear_fixed_notification.
    match goal with
    | |- context [_request ?n ?s ?ep ?d] =>
        pose proof (request_log n s ep d) as Hl;
        pose proof (request_true_log n s ep d) as Ht;
        destruct (_request n s ep d) as [log [[]|]]
    end; simpl in *;
      try (left; split; [done|by apply Hlog]).
    rewrite Ht by done.
    destruct (_get_entry_data_from_client _ _) as [i|]; [|by left].
    destruct (with_entry_cases i
                (fun e => _remove_notification_id e nid) hass)
      as [->|(k & e & ids & He & Hne & ->)].
    + intros e. apply remove_notification_id_cases.
    + by left.
    + right. by exists i, k, e, ids.
Qed.
End effects.

(** X6.  The store is written exactly when the state changes.  An
    invocation writes the store of an entry if and only if it changes the
    state; what it writes is then the registry of an entry as it is after
    the invocation, which differs from the one before; the listeners are
    notified with it, and the invocation returns normally. *)
Theorem store_written_iff_registry_changed `{Const} (hass : HomeAssistant)
    (c : service_call) :
  ((exists ids, In (StoreSave ids) (handle hass c).1.2)
   <-> (handle hass c).1.1 <> hass)
  /\ (forall ids, In (StoreSave ids) (handle hass c).1.2 ->
      In ListenersNotified (handle hass c).1.2
      /\ (handle hass c).2 = Return tt
      /\ exists i, registry (handle hass c).1.1 i = ids
                   /\ registry hass i <> ids).
Proof.
  destruct (handle_cases hass c)
    as [[Hs Hl]|(i & k & e & ids & He & Hne & ->)].
  - split.
    + split; [|done]. intros [ids Hin].
      destruct (Hl _ Hin) as [?|(? & ? & ?)]; done.
    + intros ids Hin. destruct (Hl _ Hin) as [?|(? & ? & ?)]; done.
  - assert (registry hass i = notification_ids e) as Hbefore
      by (unfold registry; by rewrite He).
    assert (registry
              {| domain_data :=
                   <[i := (k, set_notification_ids e ids)]> (domain_data hass);
                 device_registry := device_registry hass;
                 clientsession := clientsession hass |} i = ids) as Hafter.
    { unfold registry. simpl. rewrite list_lookup_insert_eq; [done|].
      by eapply lookup_lt_Some. }
    cbn [fst snd]. split.
    + split.
      * intros _ Heq. rewrite Heq in Hafter. congruence.
      * intros _. exists ids. by left.
    + intros ids' [[= <-]|[|[]]]; [|done].
      split; [right; by left|]. split; [done|].
      exists i. split; [done|congruence].
Qed.

(** ** The configured devices *)

Lemma configured_set_notification_ids k e ids :
  configured (k, set_notification_ids e ids) = configured (k, e).
Proof. done. Qed.

Lemma devices_entry_get l l' entry_id :
  map configured l = map configured l' ->
  client <$> entry_get l entry_id = client <$> entry_get l' entry_id.
Proof.
  revert l'. induction l as [|[k e] l IH]; intros [|[k' e'] l'] Hm;
    try done.
  simpl in Hm. injection Hm as -> Hcl _ _ _ Hm. simpl.
  destruct (String.eqb k' entry_id); simpl; [by rewrite Hcl|by apply IH].
Qed.

Lemma devices_client_of_identifiers `{Const} l l' identifiers :
  map configured l = map configured l' ->
  client_of_identifiers l identifiers = client_of_identifiers l' identifiers.
Proof.
  intros Hm. induction identifiers as [|identifier rest IH]; [done|].
  simpl. destruct (String.eqb _ DOMAIN); [|done].
  pose proof (devices_entry_get l l' identifier.2 Hm) as He.
  destruct (entry_get l _), (entry_get l' _); simpl in He; try done.
Qed.

Lemma devices_name_or_host l l' x :
  map configured l = map configured l' ->
  _get_client_from_name_or_host l x = _get_client_from_name_or_host l' x.
Proof.
  revert l'. induction l as [|[k e] l IH]; intros [|[k' e'] l'] Hm;
    try done.
  simpl in Hm. injection Hm as _ Hcl Hn Hh _ Hm. simpl. rewrite Hcl, Hn, Hh.
  destruct (_ || _); [done|by apply IH].
Qed.

Lemma devices_host_port l l' h p :
  map configured l = map configured l' ->
  client_of_host_port l h p = client_of_host_port l' h p.
Proof.
  revert l'. induction l as [|[k e] l IH]; intros [|[k' e'] l'] Hm;
    try done.
  simpl in Hm. injection Hm as _ Hcl _ Hh Hp Hm. simpl.
  rewrite Hcl, Hh, Hp.
  destruct (_ && _); [done|by apply IH].
Qed.

Lemma devices_fresh_oid l l' :
  map configured l = map configured l' -> fresh_oid l = fresh_oid l'.
Proof.
  unfold fresh_oid. intros Hm. f_equal. revert l' Hm.
  induction l as [|[k e] l IH]; intros [|[k' e'] l'] Hm; try done.
  simpl in Hm. injection Hm as _ Hcl _ _ _ Hm. simpl.
  by rewrite Hcl, (IH l').
Qed.

Lemma devices_find l l' (c : TvOverlayApiClient) :
  map configured l = map configured l' ->
  fst <$> list_find (fun kv : string * entry_data =>
                       oid (client kv.2) = oid c) l
  = fst <$> list_find (fun kv : string * entry_data =>
                         oid (client kv.2) = oid c) l'.
Proof.
  revert l'. induction l as [|[k e] l IH]; intros [|[k' e'] l'] Hm;
    try done.
  simpl in Hm. injection Hm as _ Hcl _ _ _ Hm. simpl. rewrite Hcl.
  destruct (decide _); [done|].
  specialize (IH l' Hm).
  destruct (list_find _ l) as [[]|], (list_find _ l') as [[]|];
    simpl in *; congruence.
Qed.

Section devices.
Context `{Const}.

Lemma devices_get_client hass hass' d :
  devices hass = devices hass' ->
  device_registry hass = device_registry hass' ->
  clientsession hass = clientsession hass' ->
  _get_client hass d = _get_client hass' d.
Proof.
  unfold devices. intros Hm Hr Hs. unfold _get_client.
  unfold _get_client_from_device_id. rewrite Hr, Hs.
  rewrite (devices_name_or_host _ _ _ Hm).
  rewrite (devices_fresh_oid _ _ Hm).
  destruct (truthy (dict_get d ATTR_DEVICE_ID)).
  - destruct (device_registry hass' _) as [identifiers|].
    + rewrite (devices_client_of_identifiers _ _ identifiers Hm).
      destruct (client_of_identifiers _ _); [done|].
      destruct (_get_client_from_name_or_host _ _); [done|].
      destruct (truthy _); [|done].
      destruct (dict_get d ATTR_HOST); try done.
      destruct (_parse_host_port _) as [h p].
      by rewrite (devices_host_port _ _ h p Hm).
    + destruct (_get_client_from_name_or_host _ _); [done|].
      destruct (truthy _); [|done].
      destruct (dict_get d ATTR_HOST); try done.
      destruct (_parse_host_port _) as [h p].
      by rewrite (devices_host_port _ _ h p Hm).
  - destruct (truthy _); [|done].
    destruct (dict_get d ATTR_HOST); try done.
    destruct (_parse_host_port _) as [h p].
    by rewrite (devices_host_port _ _ h p Hm).
Qed.

Lemma handle_devices hass c :
  devices (handle hass c).1.1 = devices hass
  /\ device_registry (handle hass c).1.1 = device_registry hass
  /\ clientsession (handle hass c).1.1 = clientsession hass.
Proof.
  destruct (handle_cases hass c)
    as [[-> _]|(i & k & e & ids & He & _ & ->)]; [done|].
  cbn [fst]. split; [|done]. unfold devices. cbn [domain_data].
  rewrite list_fmap_insert, configured_set_notification_ids.
  apply list_insert_id. by rewrite list_lookup_fmap, He.
Qed.

Lemma run_devices hass calls :
  devices (run hass calls) = devices hass
  /\ device_registry (run hass calls) = device_registry hass
  /\ clientsession (run hass calls) = clientsession hass.
Proof.
  revert hass. induction calls as [|c calls IH]; intros hass; [done|].
  rewrite run_cons. destruct (IH (handle hass c).1.1) as (-> & -> & ->).
  apply handle_devices.
Qed.
End devices.

(** X7.  Service invocations never reconfigure anything.  After any
    sequence of invocations the entries are the same in number and order,
    each with the key, client, name, host and port it had; the device
    registry and the shared session are the same.  So the data of a call
    addresses the same client after the sequence as before it, and a client
    belongs to the same entry. *)
Theorem services_keep_configuration `{Const} (hass : HomeAssistant)
    (calls : list service_call) :
  devices (run hass calls) = devices hass
  /\ device_registry (run hass calls) = device_registry hass
  /\ clientsession (run hass calls) = clientsession hass
  /\ (forall call_data,
        _get_client (run hass calls) call_data = _get_client hass call_data)
  /\ (forall client,
        _get_entry_data_from_client (run hass calls) client
        = _get_entry_data_from_client hass client).
Proof.
  destruct (run_devices hass calls) as (Hd & Hr & Hs).
  split; [done|]. split; [done|]. split; [done|]. split.
  - intros d. by apply devices_get_client.
  - intros c. by apply devices_find.
Qed.

(** ** Calls that address no configured device *)

Lemma oid_lt_fresh l kv : In kv l -> (oid (client kv.2) < fresh_oid l)%nat.
Proof.
  unfold fresh_oid. induction l as [|x l IH]; [done|].
  simpl. intros [->|Hin]; [lia|]. specialize (IH Hin). lia.
Qed.

Lemma fresh_client_not_found hass h p s :
  _get_entry_data_from_client hass
    {| _host := h; _port := p; _session := s;
       oid := fresh_oid (domain_data hass) |} = None.
Proof.
  unfold _get_entry_data_from_client.
  destruct (list_find _ _) as [[i kv]|] eqn:E; [|done].
  apply list_find_Some in E as (Hl & Hoid & _). simpl in Hoid.
  apply list_elem_of_lookup_2, list_elem_of_In, oid_lt_fresh in Hl. lia.
Qed.

Section targets.
Context `{Const}.

Lemma get_client_unresolved hass d :
  unresolved_device_id hass d ->
  _get_client hass d
  = if truthy (dict_get d ATTR_HOST) then
      match dict_get d ATTR_HOST with
      | VStr host_string =>
          Return
            (Some
               (default
                  {| _host := (_parse_host_port host_string).1;
                     _port := (_parse_host_port host_string).2;
                     _session := Some (clientsession hass);
                     oid := fresh_oid (domain_data hass) |}
                  (client_of_host_port (domain_data hass)
                     (_parse_host_port host_string).1
                     (_parse_host_port host_string).2)))
      | _ => Raise TypeError
      end
    else Return None.
Proof.
  intros Hu. unfold _get_client.
  assert ((if truthy (dict_get d ATTR_DEVICE_ID) then
             match _get_client_from_device_id hass (dict_get d ATTR_DEVICE_ID)
             with
             | Some client => Some client
             | None =>
                 _get_client_from_name_or_host (domain_data hass)
                   (dict_get d ATTR_DEVICE_ID)
             end
           else None) = None) as ->.
  { destruct Hu as [->|[-> ->]]; [done|]. by destruct (truthy _). }
  destruct (truthy _); [|done].
  destruct (dict_get d ATTR_HOST); try done.
  destruct (_parse_host_port _) as [h p]. simpl.
  by destruct (client_of_host_port _ _ _).
Qed.

Lemma handle_unknown_client hass c client :
  _get_client hass (call_data c) = Return (Some client) ->
  _get_entry_data_from_client hass client = None ->
  (handle hass c).1.1 = hass.
Proof.
  intros Hc Hnone. rewrite handle_state. unfold underlying_call.
  destruct (call_service c); [done|..]; rewrite Hc.
  - destruct (_build_fixed_notification_data _); [|done].
    destruct (send_fixed_notification _ _ _).2 as [[]|]; try done.
    by rewrite Hnone.
  - destruct (call_data c !! ATTR_ID); [|done].
    destruct (clear_fixed_notification _ _ _).2 as [[]|]; try done.
    by rewrite Hnone.
Qed.
End targets.

(** X8.  A call addressed by host to a device that is not configured goes
    to a client made for the call, with the parsed host and port and the
    shared session; the call may be sent and may succeed, but it is never
    recorded: the state stays as it is and no store is written. *)
Theorem unconfigured_host_is_never_recorded `{Const} (hass : HomeAssistant)
    (c : service_call) (h : string) :
  unresolved_device_id hass (call_data c) ->
  dict_get (call_data c) ATTR_HOST = VStr h ->
  h <> "" ->
  client_of_host_port (domain_data hass)
    (_parse_host_port h).1 (_parse_host_port h).2 = None ->
  _get_client hass (call_data c)
  = Return (Some {| _host := (_parse_host_port h).1;
                    _port := (_parse_host_port h).2;
                    _session := Some (clientsession hass);
                    oid := fresh_oid (domain_data hass) |})
  /\ (handle hass c).1.1 = hass
  /\ forall ids, ~ In (StoreSave ids) (handle hass c).1.2.
Proof.
  intros Hu Hh Hne Hnone.
  assert (_get_client hass (call_data c)
          = Return (Some {| _host := (_parse_host_port h).1;
                            _port := (_parse_host_port h).2;
                            _session := Some (clientsession hass);
                            oid := fresh_oid (domain_data hass) |})) as Hc.
  { rewrite (get_client_unresolved _ _ Hu), Hh, Hnone.
    by destruct h. }
  assert ((handle hass c).1.1 = hass) as Hs
    by (eapply handle_unknown_client; [exact Hc|apply fresh_client_not_found]).
  split; [done|]. split; [done|].
  intros ids Hin.
  destruct (handle_cases hass c)
    as [[_ Hl]|(i & k & e & ids' & He & Hdiff & Heq)].
  - destruct (Hl _ Hin) as [?|(? & ? & ?)]; done.
  - rewrite Heq in Hs. cbn [fst] in Hs.
    apply (f_equal (fun s => registry s i)) in Hs.
    unfold registry in Hs. simpl in Hs.
    rewrite list_lookup_insert_eq in Hs by (by eapply lookup_lt_Some).
    rewrite He in Hs. done.
Qed.

(** A fixed notification for [other.local:5002], answered 200, leaves the
    sample state as it is. *)
Lemma unconfigured_host_is_never_recorded_witness :
  let c := other_call NotifyFixed 200 in
  @unresolved_device_id sample_const sample_hass (call_data c)
  /\ (@handle sample_const sample_hass c).1.1 = sample_hass
  /\ (@handle sample_const sample_hass c).2 = Return tt.
Proof.
  intros c.
  assert (@unresolved_device_id sample_const sample_hass (call_data c))
    as Hu by (left; reflexivity).
  split; [exact Hu|]. split; [|reflexivity].
  exact (proj1 (proj2 (@unconfigured_host_is_never_recorded sample_const
                         sample_hass c "other.local:5002" Hu eq_refl
                         ltac:(discriminate) eq_refl))).
Defined.

(** X9.  A call that names no device (its device id resolves to nothing and
    its host is missing or empty) sends nothing: whatever the service and
    its other data, even a [clear_fixed] without ID, it logs that the device
    was not found, leaves the state as it is and returns normally. *)
Theorem no_target_is_logged `{Const} (hass : HomeAssistant)
    (c : service_call) :
  unresolved_device_id hass (call_data c) ->
  truthy (dict_get (call_data c) ATTR_HOST) = false ->
  handle hass c = (hass, [LogDeviceNotFound], Return tt).
Proof.
  intros Hu Hh.
  pose proof (get_client_unresolved _ _ Hu) as Hc. rewrite Hh in Hc.
  unfold handle, async_notify, async_notify_fixed, async_clear_fixed.
  rewrite Hc. by destruct (call_service c).
Qed.

(** A [clear_fixed] with no data at all, on a network that times out. *)
Lemma no_target_is_logged_witness :
  let c := {| call_service := ClearFixed; call_data := ∅;
              call_net := times_out |} in
  @handle sample_const sample_hass c
  = (sample_hass, [LogDeviceNotFound], Return tt).
Proof.
  intros c.
  exact (@no_target_is_logged sample_const sample_hass c
           (or_introl eq_refl) eq_refl).
Defined.

(** ** Exceptions of the services *)

Lemma text_field_color_like d k :
  text_field d k = true -> color_like (dict_get d k) = true.
Proof.
  unfold text_field, dict_get.
  by destruct (d !! k) as [[]|].
Qed.

Lemma percent_field_not_text d k s :
  percent_field d k = true -> dict_get d k <> VStr s.
Proof.
  unfold percent_field, dict_get.
  by destruct (d !! k) as [[]|].
Qed.

Section errors.
Context `{Const}.

Lemma build_notification_returns data :
  color_like (dict_get data ATTR_SMALL_ICON_COLOR) = true ->
  exists payload, _build_notification_data data = Return payload.
Proof.
  intros Hc. unfold _build_notification_data.
  edestruct copy_color_returns as [p ->]; [exact Hc|]. by eexists.
Qed.

Lemma get_client_returns hass d :
  text_field d ATTR_HOST = true -> exists r, _get_client hass d = Return r.
Proof.
  intros Hh. unfold _get_client.
  destruct (if truthy (dict_get d ATTR_DEVICE_ID) then _ else _);
    [by eexists|].
  unfold text_field in Hh. unfold dict_get.
  destruct (d !! ATTR_HOST) as [[| | |s]|]; simpl; try done; [|by eexists].
  destruct (match s with "" => false | _ => true end); [|by eexists].
  destruct (_parse_host_port _) as [h p].
  destruct (client_of_host_port _ _ _); by eexists.
Qed.

Lemma handle_result hass c :
  fits_schema c = true ->
  (handle hass c).2 = Return tt
  \/ exists client endpoint data e,
       (_request (call_net c) client endpoint data).2 = Raise e
       /\ (handle hass c).2 = Raise e.
Proof.
  unfold fits_schema, handle. intros [Hh Hs]%andb_true_iff.
  destruct (get_client_returns hass (call_data c) Hh) as [r Hr].
  destruct (call_service c).
  - unfold async_notify. rewrite Hr. destruct r as [client|]; [|by left].
    destruct (build_notification_returns (call_data c)) as [data ->];
      [by apply text_field_color_like|].
    unfold send_notification.
    destruct (_request _ _ _ _) as [log [|e]] eqn:E; [by left|].
    right. exists client, ENDPOINT_NOTIFY, (Some data), e. by rewrite E.
  - unfold async_notify_fixed. rewrite Hr.
    destruct r as [client|]; [|by left].
    apply andb_true_iff in Hs as [Hs Ho].
    apply andb_true_iff in Hs as [Hs Hbg].
    apply andb_true_iff in Hs as [Hs Hb].
    apply andb_true_iff in Hs as [Hm Hi].
    destruct (build_fixed_notification_returns (call_data c)) as [data ->];
      [by apply text_field_color_like..|intros s; by apply percent_field_not_text|].
    unfold send_fixed_notification.
    destruct (_request _ _ _ _) as [log [success|e]] eqn:E.
    + left. destruct (_ && _); [|done].
      destruct (_get_entry_data_from_client _ _); [|done].
      by destruct (with_entry _ _ _).
    + right. exists client, ENDPOINT_NOTIFY_FIXED, (Some data), e.
      by rewrite E.
  - unfold async_clear_fixed. rewrite Hr.
    destruct r as [client|]; [|by left].
    apply bool_decide_eq_true_1 in Hs as [nid ->].
    unfold clear_fixed_notification.
    match goal with
    | |- context [_request ?n ?s ?ep ?d] =>
        destruct (_request n s ep d) as [log [success|e]] eqn:E
    end.
    + left. destruct success; [|done].
      destruct (_get_entry_data_from_client _ _); [|done].
      by destruct (with_entry _ _ _).
    + right. eexists client, ENDPOINT_NOTIFY_FIXED, _, e. by rewrite E.
Qed.
End errors.

(** X10.  With call data that has passed the schema of its service, a
    service invocation raises nothing but [TvOverlayConnectionError].  It
    raises nothing at all when the device answers, whatever the status: a
    rejected request is logged and the call still returns normally. *)
Theorem service_raises_only_connection_error `{Const} (hass : HomeAssistant)
    (c : service_call) :
  fits_schema c = true ->
  (forall e, (handle hass c).2 = Raise e ->
     exists msg, e = TvOverlayConnectionError msg)
  /\ ((forall use url body, exists status text,
         call_net c use url body = Response status text) ->
      (handle hass c).2 = Return tt).
Proof.
  intros Hfit.
  destruct (handle_result hass c Hfit)
    as [Hok|(client & endpoint & data & e & He & Heq)].
  - split; [|done]. intros e He. congruence.
  - split.
    + intros e' He'. rewrite Heq in He'. injection He' as <-.
      by eapply request_raises.
    + intros Hnet. exfalso. revert He. unfold _request.
      destruct (Hnet (session_in_use client) (_base_url client +:+ endpoint)
                  (default ∅ data)) as (status & text & ->).
      unfold check_response. by destruct (status =? 200)%Z.
Qed.

(** A notification for the sample device raises a connection error when the
    exchange times out, and returns normally when the device answers 503. *)
Lemma service_raises_only_connection_error_witness :
  (exists msg,
     (@handle sample_const sample_hass
        {| call_service := Notify;
           call_data := {["host" := VStr "tv.local"]};
           call_net := times_out |}).2
     = Raise (TvOverlayConnectionError msg))
  /\ (@handle sample_const sample_hass (door_call Notify 503)).2 = Return tt.
Proof.
  split.
  - assert (@fits_schema sample_const
              {| call_service := Notify;
                 call_data := {["host" := VStr "tv.local"]};
                 call_net := times_out |} = true) as Hfit by reflexivity.
    destruct (proj1 (@service_raises_only_connection_error sample_const
                       sample_hass _ Hfit) _ eq_refl) as [msg Hmsg].
    exists msg. by rewrite <- Hmsg.
  - assert (@fits_schema sample_const (door_call Notify 503) = true)
      as Hfit by reflexivity.
    apply (proj2 (@service_raises_only_connection_error sample_const
                    sample_hass (door_call Notify 503) Hfit)).
    intros use url body. by exists 503%Z, "".
Defined.

(** ** Decimal numerals *)

Lemma parse_digits_acc (d : Decimal.uint) (acc : positive) :
  parse_digits (DecimalString.NilEmpty.string_of_uint d) (Z.pos acc) true
  = Some (Z.pos (Pos.of_uint_acc d acc)).
Proof.
  revert acc. induction d as [|d IH|d IH|d IH|d IH|d IH|d IH|d IH|d IH|d IH|d IH];
    intros acc; [done|..];
    cbn [DecimalString.NilEmpty.string_of_uint parse_digits Pos.of_uint_acc];
    change (is_digit _) with true; cbn match;
    match goal with
    | |- context [digit_value ?c] =>
        let v := eval vm_compute in (digit_value c) in
        change (digit_value c) with v
    end;
    rewrite <- IH; do 2 f_equal; lia.
Qed.

Lemma parse_digits_uint (d : Decimal.uint) (after_digit : bool) :
  d <> Decimal.Nil \/ after_digit = true ->
  parse_digits (DecimalString.NilEmpty.string_of_uint d) 0 after_digit
  = Some (Z.of_N (Pos.of_uint d)).
Proof.
  revert after_digit.
  induction d as [|d IH|d IH|d IH|d IH|d IH|d IH|d IH|d IH|d IH|d IH];
    intros after_digit Hd.
  - by destruct Hd as [?| ->].
  - cbn [DecimalString.NilEmpty.string_of_uint parse_digits Pos.of_uint].
    change (is_digit _) with true. cbn match.
    change (10 * 0 + digit_value "0")%Z with 0%Z. apply IH. by right.
  - exact (parse_digits_acc d 1).
  - exact (parse_digits_acc d 2).
  - exact (parse_digits_acc d 3).
  - exact (parse_digits_acc d 4).
  - exact (parse_digits_acc d 5).
  - exact (parse_digits_acc d 6).
  - exact (parse_digits_acc d 7).
  - exact (parse_digits_acc d 8).
  - exact (parse_digits_acc d 9).
Qed.

Lemma string_of_uint_digits (d : Decimal.uint) :
  all_chars is_digit (DecimalString.NilEmpty.string_of_uint d) = true.
Proof. induction d; simpl; try done. Qed.

Lemma string_of_uint_nonempty (d : Decimal.uint) :
  d <> Decimal.Nil -> DecimalString.NilEmpty.string_of_uint d <> "".
Proof. by destruct d. Qed.

Lemma is_digit_not_int_space c : is_digit c = true -> is_int_space c = false.
Proof.
  destruct c as [[] [] [] [] [] [] [] []]; intros; try reflexivity;
    discriminate.
Qed.

Lemma is_digit_not_colon c : is_digit c = true -> Ascii.eqb c ":" = false.
Proof.
  destruct c as [[] [] [] [] [] [] [] []]; intros; try reflexivity;
    discriminate.
Qed.

Lemma is_digit_not_sign c :
  is_digit c = true -> Ascii.eqb c "-" = false /\ Ascii.eqb c "+" = false.
Proof.
  destruct c as [[] [] [] [] [] [] [] []]; intros; split; try reflexivity;
    discriminate.
Qed.

Lemma digits_rstrip_int s :
  all_chars is_digit s = true -> rstrip_by is_int_space s = s.
Proof.
  induction s as [|c s IH]; [done|].
  simpl. intros [Hc Hs]%andb_true_iff. rewrite (IH Hs).
  rewrite (is_digit_not_int_space _ Hc). by destruct s.
Qed.

Lemma digits_lstrip_int s :
  all_chars is_digit s = true -> lstrip_by is_int_space s = s.
Proof.
  destruct s as [|c s]; [done|].
  simpl. intros [Hc Hs]%andb_true_iff.
  by rewrite (is_digit_not_int_space _ Hc).
Qed.

Lemma digits_no_colon s :
  all_chars is_digit s = true -> contains_colon s = false.
Proof.
  induction s as [|c s IH]; [done|].
  simpl. intros [Hc Hs]%andb_true_iff.
  by rewrite (is_digit_not_colon _ Hc), IH.
Qed.

Lemma py_int_digits s :
  all_chars is_digit s = true -> py_int s = parse_digits s 0 false.
Proof.
  intros Hs. unfold py_int.
  rewrite (digits_rstrip_int _ Hs), (digits_lstrip_int _ Hs).
  destruct s as [|c s]; [done|].
  simpl in Hs. apply andb_true_iff in Hs as [Hc _].
  destruct c as [[] [] [] [] [] [] [] []]; try done.
Qed.

Lemma py_int_minus_digits s :
  s <> "" -> all_chars is_digit s = true ->
  py_int (String "-" s) = Z.opp <$> parse_digits s 0 false.
Proof.
  intros Hne Hs. unfold py_int.
  cbn [rstrip_by]. rewrite (digits_rstrip_int _ Hs).
  by destruct s.
Qed.

Lemma py_str_int_pos p :
  py_str_int (Z.pos p)
  = DecimalString.NilEmpty.string_of_uint (Pos.to_uint p).
Proof.
  unfold py_str_int. simpl.
  pose proof (DecimalPos.Unsigned.to_uint_nonnil p).
  by destruct (Pos.to_uint p).
Qed.

Lemma py_str_int_neg p :
  py_str_int (Z.neg p)
  = String "-" (DecimalString.NilEmpty.string_of_uint (Pos.to_uint p)).
Proof.
  unfold py_str_int. simpl.
  pose proof (DecimalPos.Unsigned.to_uint_nonnil p).
  by destruct (Pos.to_uint p).
Qed.

Lemma py_int_str z : py_int (py_str_int z) = Some z.
Proof.
  destruct z as [|p|p].
  - done.
  - rewrite py_str_int_pos, py_int_digits by apply string_of_uint_digits.
    rewrite parse_digits_uint
      by (left; apply DecimalPos.Unsigned.to_uint_nonnil).
    by rewrite DecimalPos.Unsigned.of_to.
  - rewrite py_str_int_neg, py_int_minus_digits.
    + rewrite parse_digits_uint
        by (left; apply DecimalPos.Unsigned.to_uint_nonnil).
      by rewrite DecimalPos.Unsigned.of_to.
    + apply string_of_uint_nonempty, DecimalPos.Unsigned.to_uint_nonnil.
    + apply string_of_uint_digits.
Qed.

Lemma py_str_int_no_colon z : contains_colon (py_str_int z) = false.
Proof.
  destruct z as [|p|p].
  - done.
  - rewrite py_str_int_pos. apply digits_no_colon, string_of_uint_digits.
  - rewrite py_str_int_neg. simpl.
    apply digits_no_colon, string_of_uint_digits.
Qed.

Lemma py_str_int_nonempty z : py_str_int z <> "".
Proof.
  destruct z as [|p|p]; [done| |by rewrite py_str_int_neg].
  rewrite py_str_int_pos.
  apply string_of_uint_nonempty, DecimalPos.Unsigned.to_uint_nonnil.
Qed.

Lemma parse_host_port_joined `{Const} host_name port_number :
  _parse_host_port (host_name +:+ ":" +:+ py_str_int port_number)
  = (host_name, port_number).
Proof.
  unfold _parse_host_port.
  change (":" +:+ py_str_int port_number)
    with (String ":" (py_str_int port_number)).
  rewrite contains_colon_app, rsplit_colon_last
    by apply py_str_int_no_colon.
  by rewrite py_int_str.
Qed.

(** X11.  Round trip of the address.  [int] reads back every integer from
    its decimal form, and [_parse_host_port] takes apart what the rest of
    the integration puts together as [f"{host}:{port}"] (the unique id of a
    config entry, the base url and the error messages of a client): for
    every host, with colons of its own or not, and every port of at most
    4300 digits (the interpreter's limit for the conversions), the parsed
    pair is that host and that port. *)
Theorem parse_host_port_round_trip `{Const} (host_name : string)
    (port_number : Z) :
  (Z.abs port_number < 10 ^ 4300)%Z ->
  py_int (py_str_int port_number) = Some port_number
  /\ _parse_host_port (host_name +:+ ":" +:+ py_str_int port_number)
     = (host_name, port_number).
Proof.
  intros _. split; [apply py_int_str|].
  unfold _parse_host_port.
  change (":" +:+ py_str_int port_number)
    with (String ":" (py_str_int port_number)).
  rewrite contains_colon_app.
  rewrite rsplit_colon_last by apply py_str_int_no_colon.
  by rewrite py_int_str.
Qed.

(** An IPv6 host with the port 5001, and a negative port. *)
Lemma parse_host_port_round_trip_witness :
  @_parse_host_port sample_const "[::1]:5001" = ("[::1]", 5001%Z)
  /\ @_parse_host_port sample_const "tv.local:-1" = ("tv.local", (-1)%Z).
Proof.
  split.
  - exact (proj2 (@parse_host_port_round_trip sample_const "[::1]" 5001
                    eq_refl)).
  - exact (proj2 (@parse_host_port_round_trip sample_const "tv.local" (-1)
                    eq_refl)).
Defined.

(** ** Addressing a configured device by host and port *)

Lemma client_of_host_port_first l i k e :
  l !! i = Some (k, e) ->
  (forall j kv, (j < i)%nat -> l !! j = Some kv ->
     ~ (host kv.2 = host e /\ port kv.2 = port e)) ->
  client_of_host_port l (host e) (port e) = Some (client e).
Proof.
  revert i. induction l as [|[k' e'] l IH]; intros i Hi Hfirst; [done|].
  destruct i as [|i]; simpl in *.
  - injection Hi as -> ->. by rewrite String.eqb_refl, Z.eqb_refl.
  - destruct (String.eqb_spec (host e') (host e)) as [Hh|Hh];
      [destruct (Z.eqb_spec (port e') (port e)) as [Hp|Hp]|]; simpl.
    + destruct (Hfirst 0%nat (k', e')); [lia|done|done].
    + apply (IH i Hi). intros j kv Hj Hkv.
      apply (Hfirst (S j) kv); [lia|done].
    + apply (IH i Hi). intros j kv Hj Hkv.
      apply (Hfirst (S j) kv); [lia|done].
Qed.

Lemma get_entry_first hass i k e :
  domain_data hass !! i = Some (k, e) ->
  (forall j kv, (j < i)%nat -> domain_data hass !! j = Some kv ->
     oid (client kv.2) <> oid (client e)) ->
  _get_entry_data_from_client hass (client e) = Some i.
Proof.
  intros Hi Hfirst. unfold _get_entry_data_from_client.
  assert (list_find (fun kv : string * entry_data =>
                       oid (client kv.2) = oid (client e))
            (domain_data hass) = Some (i, (k, e))) as ->; [|done].
  apply list_find_Some. split; [done|]. split; [done|].
  intros j kv Hkv Hj. by apply (Hfirst j kv).
Qed.

(** X12.  Every configured device can be addressed by its host and port.
    If no earlier entry has the host and the port of the entry at [i], a
    call whose host field is that entry's [host:port], or its bare host
    when the host has no colon and the port is the default one, and whose
    device id resolves to nothing, goes to the client of that entry. *)
Theorem host_port_addresses_entry `{Const} (hass : HomeAssistant)
    (d : gmap string pyval) (i : nat) (k : string) (e : entry_data) :
  unresolved_device_id hass d ->
  domain_data hass !! i = Some (k, e) ->
  (forall j kv, (j < i)%nat -> domain_data hass !! j = Some kv ->
     ~ (host kv.2 = host e /\ port kv.2 = port e)) ->
  dict_get d ATTR_HOST = VStr (host e +:+ ":" +:+ py_str_int (port e))
  \/ (dict_get d ATTR_HOST = VStr (host e) /\ host e <> ""
      /\ ~ has_colon (host e) /\ port e = DEFAULT_PORT) ->
  _get_client hass d = Return (Some (client e)).
Proof.
  intros Hu Hi Hfirst Hhost.
  rewrite (get_client_unresolved _ _ Hu).
  pose proof (client_of_host_port_first _ _ _ _ Hi Hfirst) as Hc.
  destruct Hhost as [->|(-> & Hne & Hcolon & Hp)].
  - rewrite parse_host_port_joined. cbn [fst snd]. rewrite Hc.
    change (":" +:+ py_str_int (port e))
      with (String ":" (py_str_int (port e))).
    destruct (host e); done.
  - apply no_colon_iff in Hcolon. unfold _parse_host_port.
    rewrite Hcolon. cbn [fst snd]. rewrite <- Hp, Hc.
    by destruct (host e).
Qed.

(** The sample device is addressed by [tv.local:5001] and by [tv.local]. *)
Lemma host_port_addresses_entry_witness :
  @_get_client sample_const sample_hass {["host" := VStr "tv.local:5001"]}
  = Return (Some (client sample_entry))
  /\ @_get_client sample_const sample_hass {["host" := VStr "tv.local"]}
     = Return (Some (client sample_entry)).
Proof.
  split.
  - apply (@host_port_addresses_entry sample_const sample_hass
             {["host" := VStr "tv.local:5001"]} 0 "entry1" sample_entry).
    + left. reflexivity.
    + reflexivity.
    + intros j kv Hj. lia.
    + left. reflexivity.
  - apply (@host_port_addresses_entry sample_const sample_hass
             {["host" := VStr "tv.local"]} 0 "entry1" sample_entry).
    + left. reflexivity.
    + reflexivity.
    + intros j kv Hj. lia.
    + right. split; [reflexivity|]. split; [discriminate|].
      split; [by apply no_colon_check|reflexivity].
Defined.

(** ** Setup and unload of entries *)

Lemma dict_set_absent {A : Type} (k : string) (v : A) d :
  (forall k' v', In (k', v') d -> String.eqb k' k = false) ->
  dict_set k v d = (d ++ [(k, v)])%list.
Proof.
  induction d as [|[k' v'] d IH]; intros Hd; [done|].
  simpl. rewrite (Hd k' v') by (by left).
  rewrite IH; [done|]. intros k'' v'' Hx. apply (Hd k'' v''). by right.
Qed.

Lemma entry_get_None d k :
  entry_get d k = None
  <-> forall k' e', In (k', e') d -> String.eqb k' k = false.
Proof.
  induction d as [|[k' e'] d IH]; simpl; [done|].
  destruct (String.eqb k' k) eqn:E.
  - split; [done|]. intros Hd. specialize (Hd k' e' (or_introl eq_refl)).
    congruence.
  - rewrite IH. split.
    + intros Hd k'' e'' [[= <- <-]|Hx]; [done|by eapply Hd].
    + intros Hd k'' e'' Hx. apply (Hd k'' e''). by right.
Qed.

Lemma dict_pop_app_absent {A : Type} (k : string) (v : A) d :
  (forall k' v', In (k', v') d -> String.eqb k' k = false) ->
  dict_pop k (d ++ [(k, v)]) = Some d.
Proof.
  induction d as [|[k' v'] d IH]; intros Hd; simpl.
  - by rewrite String.eqb_refl.
  - rewrite (Hd k' v') by (by left).
    rewrite IH; [done|]. intros k'' v'' Hx. apply (Hd k'' v''). by right.
Qed.

Lemma dict_set_nonempty {A : Type} (k : string) (v : A) d :
  dict_set k v d <> [].
Proof. destruct d as [|[k' v'] d]; simpl; [done|]. by destruct (String.eqb k' k). Qed.

Lemma dict_set_keys {A : Type} (k : string) (v : A) d :
  NoDup (map fst d) -> NoDup (map fst (dict_set k v d)).
Proof.
  induction d as [|[k' v'] d IH]; simpl; intros Hd.
  - apply NoDup_singleton.
  - destruct (String.eqb_spec k' k) as [->|Hne]; [done|].
    simpl. apply NoDup_cons in Hd as [Hk Hd]. apply NoDup_cons.
    split; [|by apply IH].
    intros Hin. apply Hk. clear IH Hd Hk.
    induction d as [|[k'' v''] d IH]; simpl in *.
    + apply list_elem_of_singleton in Hin. congruence.
    + destruct (String.eqb_spec k'' k) as [->|Hne'']; simpl in *; [done|].
      apply elem_of_cons in Hin as [->|Hin]; [by left|].
      right. by apply IH.
Qed.

Lemma dict_pop_keys {A : Type} (k : string) (d d' : list (string * A)) :
  dict_pop k d = Some d' -> NoDup (map fst d) -> NoDup (map fst d').
Proof.
  revert d'. induction d as [|[k' v'] d IH]; simpl; intros d' Hpop Hd;
    [done|].
  apply NoDup_cons in Hd as [Hk Hd].
  destruct (String.eqb k' k); [by injection Hpop as <-|].
  destruct (dict_pop k d) as [d''|] eqn:E; [|done].
  injection Hpop as <-. simpl. apply NoDup_cons. split; [|by apply IH].
  intros Hin. apply Hk. clear IH Hk Hd. revert d'' E Hin.
  induction d as [|[k'' v''] d IH]; simpl; intros d'' E Hin; [done|].
  destruct (String.eqb k'' k).
  - injection E as <-. by right.
  - destruct (dict_pop k d) as [d3|]; [|done]. injection E as <-.
    simpl in Hin. apply elem_of_cons in Hin as [->|Hin]; [by left|].
    right. by eapply IH.
Qed.

Lemma dict_pop_nonempty {A : Type} (k : string) (d d' : list (string * A)) :
  dict_pop k d = Some d' -> d <> [].
Proof. by destruct d. Qed.

Lemma started_well_formed registry session :
  well_formed (started registry session).
Proof. split; [done|]. apply NoDup_nil_2. Qed.

Lemma setup_well_formed hass entry stored_data :
  well_formed hass -> well_formed (async_setup_entry hass entry stored_data).1.
Proof.
  intros [Hs Hk]. split; simpl.
  - intros s. rewrite bool_decide_eq_false_2 by apply dict_set_nonempty.
    destruct (has_service hass Notify) eqn:E; [|done].
    rewrite Hs. rewrite Hs in E. done.
  - by apply dict_set_keys.
Qed.

Lemma unload_well_formed hass entry unload_ok :
  well_formed hass -> well_formed (async_unload_entry hass entry unload_ok).1.
Proof.
  intros [Hs Hk]. unfold async_unload_entry.
  destruct unload_ok; [|done].
  destruct (dict_pop _ _) as [domain|] eqn:E; [|done].
  split; simpl.
  - intros s. destruct domain as [|x domain]; [done|].
    rewrite Hs. rewrite !bool_decide_eq_false_2; [done|done|].
    by eapply dict_pop_nonempty.
  - by eapply dict_pop_keys.
Qed.

Lemma devices_keys hass hass' :
  devices hass = devices hass' ->
  map fst (domain_data hass) = map fst (domain_data hass').
Proof.
  unfold devices. intros Hd.
  apply (f_equal (map (fun x : string * TvOverlayApiClient * string * string * Z
                       => x.1.1.1.1))) in Hd.
  by rewrite !map_map in Hd.
Qed.

Lemma devices_empty hass hass' :
  devices hass = devices hass' ->
  domain_data hass = [] <-> domain_data hass' = [].
Proof.
  unfold devices. intros Hd.
  destruct (domain_data hass), (domain_data hass'); done.
Qed.

Lemma step_well_formed `{Const} hass ev :
  well_formed hass -> well_formed (step hass ev).
Proof.
  destruct ev as [entry stored_data|entry unload_ok|c]; simpl.
  - apply setup_well_formed.
  - apply unload_well_formed.
  - destruct (has_service hass (call_service c)); [|done].
    intros [Hs Hk].
    destruct (handle_devices (hass_data hass) c) as (Hd & _ & _).
    split; simpl.
    + intros s. rewrite Hs. f_equal. apply bool_decide_ext.
      by apply devices_empty.
    + by rewrite (devices_keys _ _ Hd).
Qed.

Lemma lifecycle_well_formed `{Const} hass events :
  well_formed hass -> well_formed (lifecycle hass events).
Proof.
  revert hass. induction events as [|ev events IH]; intros hass Hw; [done|].
  apply (IH (step hass ev)). by apply step_well_formed.
Qed.

(** X13.  The three services are registered exactly while an entry is set
    up.  From the start of the host platform, after any sequence of entry
    setups, entry unloads (successful or not) and service calls, each of
    the services is registered if and only if [hass.data[DOMAIN]] has an
    entry, and no entry id occurs twice in it. *)
Theorem services_registered_iff_entries `{Const}
    (registry : pyval -> option (list (string * string)))
    (session : ClientSession) (events : list event) (s : service) :
  (has_service (lifecycle (started registry session) events) s = true
   <-> domain_data (hass_data (lifecycle (started registry session) events))
       <> [])
  /\ NoDup (map fst (domain_data
                       (hass_data (lifecycle (started registry session)
                                     events)))).
Proof.
  destruct (lifecycle_well_formed (started registry session) events
              (started_well_formed registry session)) as [Hs Hk].
  split; [|done]. rewrite Hs.
  destruct (domain_data _) as [|x l]; [by split|]. by split.
Qed.

(** X14.  Setup and unload are inverse to each other.  In a state reached
    from the start of the host platform, setting up an entry whose id is
    not in [hass.data[DOMAIN]] and then unloading it, with the platforms
    unloaded, gives back the data and the registered services as they
    were, whatever was stored for the entry; and an unload whose platforms
    fail to unload changes nothing. *)
Theorem setup_then_unload_restores `{Const}
    (registry : pyval -> option (list (string * string)))
    (session : ClientSession) (events : list event)
    (entry : ConfigEntry) (stored_data : option (gmap string (list pyval))) :
  let hass := lifecycle (started registry session) events in
  entry_get (domain_data (hass_data hass)) (entry_id entry) = None ->
  (exists hass',
     async_unload_entry (async_setup_entry hass entry stored_data).1 entry true
     = (hass', Return true)
     /\ hass_data hass' = hass_data hass
     /\ forall s, has_service hass' s = has_service hass s)
  /\ async_unload_entry (async_setup_entry hass entry stored_data).1 entry
       false
     = ((async_setup_entry hass entry stored_data).1, Return false).
Proof.
  intros hass Hnone. split; [|done].
  destruct (lifecycle_well_formed (started registry session) events
              (started_well_formed registry session)) as [Hs _].
  fold hass in Hs.
  pose proof (proj1 (entry_get_None _ _) Hnone) as Habsent.
  clear Hnone. rename Habsent into Hnone.
  unfold async_unload_entry, async_setup_entry. cbn [fst hass_data domain_data].
  rewrite (dict_set_absent _ _ _ Hnone), (dict_pop_app_absent _ _ _ Hnone).
  eexists. split; [done|]. cbn [hass_data has_service].
  split; [by destruct (hass_data hass)|].
  intros s. rewrite !Hs.
  destruct (domain_data (hass_data hass)) as [|x l]; [done|].
  cbn [device_registry clientsession domain_data].
  rewrite bool_decide_eq_false_2 by done. done.
Qed.

(** Setting up the sample entry at the start and unloading it again. *)
Lemma setup_then_unload_restores_witness :
  entry_get (domain_data (hass_data sample_started)) "entry1" = None
  /\ (async_unload_entry
        (async_setup_entry sample_started sample_config_entry None).1
        sample_config_entry false).2 = Return false.
Proof.
  split; [reflexivity|].
  exact (f_equal snd
           (proj2 (@setup_then_unload_restores sample_const (fun _ => None)
                     {| closed := false |} [] sample_config_entry None
                     eq_refl))).
Defined.

Lemma client_of_host_port_None l h p :
  client_of_host_port l h p = None ->
  forall kv, In kv l -> ~ (host kv.2 = h /\ port kv.2 = p).
Proof.
  induction l as [|[k e] l IH]; simpl; [done|].
  destruct (String.eqb_spec (host e) h) as [Hh|Hh];
    [destruct (Z.eqb_spec (port e) p) as [Hp|Hp]|]; simpl; [done|..];
    intros Hnone kv [<-|Hin] [? ?]; simpl in *; try done;
    by eapply IH.
Qed.

(** X15.  An entry that has been set up can be addressed by the unique id
    of its config flow.  If the entry's id is new and no entry has its host
    and port, then after the setup a call whose host field is
    [f"{host}:{port}"], and whose device id resolves to nothing, goes to
    the client made by the setup: a client for that host and port on the
    shared session, which belongs to the new entry, the last one, whose
    registry holds the IDs that were stored for it. *)
Theorem setup_entry_is_addressable `{Const} (hass : Hass)
    (entry : ConfigEntry) (stored_data : option (gmap string (list pyval)))
    (d : gmap string pyval) :
  entry_get (domain_data (hass_data hass)) (entry_id entry) = None ->
  client_of_host_port (domain_data (hass_data hass))
    (CONF_HOST (data entry)) (CONF_PORT (data entry)) = None ->
  unresolved_device_id
    (hass_data (async_setup_entry hass entry stored_data).1) d ->
  dict_get d ATTR_HOST
  = VStr (CONF_HOST (data entry) +:+ ":"
          +:+ py_str_int (CONF_PORT (data entry))) ->
  exists client,
    _get_client (hass_data (async_setup_entry hass entry stored_data).1) d
    = Return (Some client)
    /\ _host client = CONF_HOST (data entry)
    /\ _port client = CONF_PORT (data entry)
    /\ _session client = Some (clientsession (hass_data hass))
    /\ _get_entry_data_from_client
         (hass_data (async_setup_entry hass entry stored_data).1) client
       = Some (length (domain_data (hass_data hass)))
    /\ registry (hass_data (async_setup_entry hass entry stored_data).1)
         (length (domain_data (hass_data hass)))
       = match stored_data with
         | Some stored => default [] (stored !! "ids")
         | None => []
         end.
Proof.
  intros Hnew Hfree Hu Hhost.
  pose proof (proj1 (entry_get_None _ _) Hnew) as Habsent.
  set (ids := match stored_data with
              | Some stored =>
                  if bool_decide (stored = ∅) then []
                  else default [] (stored !! "ids")
              | None => []
              end).
  set (e := {| client :=
                 {| _host := CONF_HOST (data entry);
                    _port := CONF_PORT (data entry);
                    _session := Some (clientsession (hass_data hass));
                    oid := fresh_oid (domain_data (hass_data hass)) |};
               name := default (CONF_HOST (data entry))
                         (CONF_NAME (data entry));
               host := CONF_HOST (data entry);
               port := CONF_PORT (data entry);
               notification_ids := ids |}).
  assert (domain_data (hass_data (async_setup_entry hass entry stored_data).1)
          = (domain_data (hass_data hass) ++ [(entry_id entry, e)])%list)
    as Hdomain by (simpl; by rewrite (dict_set_absent _ _ _ Habsent)).
  assert (domain_data (hass_data (async_setup_entry hass entry stored_data).1)
            !! length (domain_data (hass_data hass))
          = Some (entry_id entry, e)) as Hlookup.
  { rewrite Hdomain. by apply list_lookup_middle. }
  assert (forall j kv, (j < length (domain_data (hass_data hass)))%nat ->
            domain_data (hass_data (async_setup_entry hass entry stored_data).1)
              !! j = Some kv ->
            In kv (domain_data (hass_data hass))) as Hbefore.
  { intros j kv Hj. rewrite Hdomain, lookup_app_l by done.
    intros Hkv. by apply list_elem_of_lookup_2, list_elem_of_In in Hkv. }
  exists (client e). split; [|split; [done|split; [done|split; [done|split]]]].
  - rewrite (get_client_unresolved _ _ Hu), Hhost.
    rewrite parse_host_port_joined. cbn [fst snd].
    assert (client_of_host_port
              (domain_data
                 (hass_data (async_setup_entry hass entry stored_data).1))
              (CONF_HOST (data entry)) (CONF_PORT (data entry))
            = Some (client e)) as ->.
    { apply (client_of_host_port_first _ _ _ e Hlookup).
      intros j kv Hj Hkv.
      by apply (client_of_host_port_None _ _ _ Hfree), (Hbefore j). }
    change (":" +:+ py_str_int (CONF_PORT (data entry)))
      with (String ":" (py_str_int (CONF_PORT (data entry)))).
    by destruct (CONF_HOST (data entry)).
  - apply (get_entry_first _ _ _ e Hlookup).
    intros j kv Hj Hkv. apply Hbefore in Hkv; [|done].
    apply oid_lt_fresh in Hkv. simpl. lia.
  - unfold registry. rewrite Hlookup. simpl. unfold ids.
    destruct stored_data as [stored|]; [|done].
    destruct (bool_decide_reflect (stored = ∅)) as [->|]; done.
Qed.

(** The sample entry, set up at the start with [door] stored for it, is
    addressed by [tv.local:5001]. *)
Lemma setup_entry_is_addressable_witness :
  exists client,
    @_get_client sample_const
      (hass_data (async_setup_entry sample_started sample_config_entry
                    (Some {["ids" := [VStr "door"]]})).1)
      {["host" := VStr "tv.local:5001"]}
    = Return (Some client)
    /\ registry
         (hass_data (async_setup_entry sample_started sample_config_entry
                       (Some {["ids" := [VStr "door"]]})).1) 0
       = [VStr "door"].
Proof.
  assert (@unresolved_device_id sample_const
            (hass_data (async_setup_entry sample_started sample_config_entry
                          (Some {["ids" := [VStr "door"]]})).1)
            {["host" := VStr "tv.local:5001"]}) as Hu
    by (left; reflexivity).
  destruct (@setup_entry_is_addressable sample_const sample_started
              sample_config_entry (Some {["ids" := [VStr "door"]]})
              {["host" := VStr "tv.local:5001"]}
              eq_refl eq_refl Hu eq_refl)
    as (client & Hc & _ & _ & _ & _ & Hr).
  exists client. split; [exact Hc|exact Hr].
Defined.

(** ** Config flow *)

Lemma request_cases net self endpoint data :
  _request net self endpoint data
  = match net (session_in_use self) (_base_url self +:+ endpoint)
            (default ∅ data) with
    | Response status text =>
        if (status =? 200)%Z then ([], Return true)
        else ([LogApiError status text], Return false)
    | TimeoutError =>
        ([], Raise (TvOverlayConnectionError
                      ("Timeout connecting to TvOverlay at " +:+ _host self
                       +:+ ":" +:+ py_str_int (_port self))))
    | ClientError err =>
        ([], Raise (TvOverlayConnectionError
                      ("Error connecting to TvOverlay at " +:+ _host self
                       +:+ ":" +:+ py_str_int (_port self) +:+ ": " +:+ err)))
    end.
Proof. done. Qed.

Lemma test_connection_cases `{Const} net self :
  (test_connection net self).2
  = Return (answers_ok (net (session_in_use self)
                          (_base_url self +:+ ENDPOINT_NOTIFY) ∅))
  /\ forall x, In x (test_connection net self).1 ->
       exists status text, x = LogApiError status text.
Proof.
  unfold test_connection. rewrite request_cases. simpl.
  destruct (net _ _ _) as [status text| |err]; simpl; [|done..].
  destruct (status =? 200)%Z; simpl; [done|].
  split; [done|]. intros x [<-|[]]. eauto.
Qed.

(** X16.  The user step of the config flow, on a validated input.  If the
    unique id [f"{host}:{port}"] is already configured the flow is aborted
    and no request is made.  Otherwise one empty notification is posted to
    that host and port over the shared session, and an entry with the host,
    the port and the name is created exactly when the device answers 200;
    in every other case, a timeout and a transport failure included, the
    form is shown again with the error [cannot_connect].  The error
    [unknown] is never shown and no unexpected exception is ever logged.
    The port and the name default to [DEFAULT_PORT] and [DEFAULT_NAME], and
    [_parse_host_port] takes the unique id apart into the host and the
    port of the entry. *)
Theorem config_flow_creates_entry_iff_device_answers `{Const}
    (DEFAULT_NAME : string) (net : transport) (session : ClientSession)
    (unique_ids : list string) (ui : config_flow.user_input) :
  let host := config_flow.input_host ui in
  let port := default DEFAULT_PORT (config_flow.input_port ui) in
  let name := default DEFAULT_NAME (config_flow.input_name ui) in
  let unique_id := host +:+ ":" +:+ py_str_int port in
  let answer :=
    net (if closed session then Scoped DEFAULT_TIMEOUT else Shared)
      ("http://" +:+ host +:+ ":" +:+ py_str_int port +:+ ENDPOINT_NOTIFY)
      ∅ in
  let flow :=
    config_flow.async_step_user DEFAULT_NAME net session unique_ids
      (Some ui) in
  (unique_id ∈ unique_ids ->
   flow = ([], config_flow.Abort "already_configured"))
  /\ (unique_id ∉ unique_ids -> answers_ok answer = true ->
      flow.2 = config_flow.CreateEntry name
                 {| CONF_HOST := host; CONF_PORT := port;
                    CONF_NAME := Some name |})
  /\ (unique_id ∉ unique_ids -> answers_ok answer = false ->
      flow.2 = config_flow.Form "user" [("base", "cannot_connect")])
  /\ ~ In config_flow.LogUnexpectedException flow.1
  /\ flow.2 <> config_flow.Form "user" [("base", "unknown")]
  /\ _parse_host_port unique_id = (host, port).
Proof.
  intros host port name unique_id answer flow.
  set (client := {| _host := host; _port := port; _session := Some session;
                    oid := 0 |}).
  destruct (test_connection_cases net client) as [Hr Hl].
  assert (net (session_in_use client) (_base_url client +:+ ENDPOINT_NOTIFY) ∅
          = answer) as Hanswer.
  { unfold answer, session_in_use, _base_url. simpl.
    by rewrite <- !string_app_assoc. }
  rewrite Hanswer in Hr.
  assert (unique_id ∉ unique_ids ->
          flow.2 = (if answers_ok answer then
                      config_flow.CreateEntry name
                        {| CONF_HOST := host; CONF_PORT := port;
                           CONF_NAME := Some name |}
                    else config_flow.Form "user" [("base", "cannot_connect")])
          /\ flow.1 = config_flow.Api <$> (test_connection net client).1)
    as Hflow.
  { intros Hnot. unfold flow, config_flow.async_step_user. cbv zeta.
    rewrite (bool_decide_eq_false_2 _ Hnot).
    unfold client, host, port in *.
    destruct (test_connection net _) as [log r]. simpl in Hr.
    rewrite Hr. by destruct (answers_ok answer). }
  split; [|split; [|split; [|split; [|split]]]].
  - intros Hin. unfold flow, config_flow.async_step_user. cbv zeta.
    by rewrite (bool_decide_eq_true_2 _ Hin).
  - intros Hnot Hok. destruct (Hflow Hnot) as [-> _]. by rewrite Hok.
  - intros Hnot Hok. destruct (Hflow Hnot) as [-> _]. by rewrite Hok.
  - destruct (decide (unique_id ∈ unique_ids)) as [Hin|Hnot].
    + unfold flow, config_flow.async_step_user. cbv zeta.
      rewrite (bool_decide_eq_true_2 _ Hin). simpl. tauto.
    + destruct (Hflow Hnot) as [_ ->]. intros Hin.
      apply list_elem_of_In, list_elem_of_fmap in Hin as (x & Hx & _).
      done.
  - destruct (decide (unique_id ∈ unique_ids)) as [Hin|Hnot].
    + unfold flow, config_flow.async_step_user. cbv zeta.
      by rewrite (bool_decide_eq_true_2 _ Hin).
    + destruct (Hflow Hnot) as [-> _]. by destruct (answers_ok answer).
  - apply parse_host_port_joined.
Qed.

(** ** Entities and the device of an entry *)

Lemma client_of_identifiers_entry `{Const} entries entry_id e :
  entry_get entries entry_id = Some e ->
  client_of_identifiers entries [(DOMAIN, entry_id)] = Some (client e).
Proof. intros He. simpl. by rewrite String.eqb_refl, He. Qed.

(** X17.  The entities of an entry and the services meet at one client.
    For an entry that is set up, each platform creates its entities (one
    button, five switches, four numbers, three selects) with the client of
    the entry and with the device identifiers [(DOMAIN, entry_id)]; and a
    service call whose device id names a device with these identifiers goes
    to that same client, whatever its host field says. *)
Theorem entities_and_services_share_client `{Const} (hass : HomeAssistant)
    (entry : ConfigEntry) (e : entry_data) (d : gmap string pyval)
    (VALID_CORNERS VALID_SHAPES : list string)
    (options : gmap string string) :
  entry_get (domain_data hass) (entry_id entry) = Some e ->
  truthy (dict_get d ATTR_DEVICE_ID) = true ->
  device_registry hass (dict_get d ATTR_DEVICE_ID)
  = Some [(DOMAIN, entry_id entry)] ->
  _get_client hass d = Return (Some (client e))
  /\ (exists l, button.async_setup_entry hass entry = Return l
        /\ length l = 1%nat
        /\ Forall (fun x => button._client x = client e
                            /\ identifiers (button.device_info x)
                               = [(DOMAIN, entry_id entry)]) l)
  /\ (exists l, switch.async_setup_entry hass entry = Return l
        /\ length l = 5%nat
        /\ Forall (fun x => switch._client x = client e
                            /\ identifiers (switch.device_info x)
                               = [(DOMAIN, entry_id entry)]) l)
  /\ (exists l, number.async_setup_entry hass entry = Return l
        /\ length l = 4%nat
        /\ Forall (fun x => number._client x = client e
                            /\ identifiers (number.device_info x)
                               = [(DOMAIN, entry_id entry)]) l)
  /\ (exists l, select.async_setup_entry VALID_CORNERS VALID_SHAPES hass
                  entry options = Return l
        /\ length l = 3%nat
        /\ Forall (fun x => select._client x = client e
                            /\ identifiers (select.device_info x)
                               = [(DOMAIN, entry_id entry)]) l).
Proof.
  intros He Hdev Hreg. split; [|split; [|split; [|split]]].
  - unfold _get_client, _get_client_from_device_id.
    by rewrite Hdev, Hreg, (client_of_identifiers_entry _ _ _ He).
  - unfold button.async_setup_entry. rewrite He. eexists.
    split; [done|]. split; [done|]. by repeat constructor.
  - unfold switch.async_setup_entry. rewrite He. eexists.
    split; [done|]. split; [done|]. by repeat constructor.
  - unfold number.async_setup_entry. rewrite He. eexists.
    split; [done|]. split; [done|]. by repeat constructor.
  - unfold select.async_setup_entry. rewrite He. eexists.
    split; [done|]. split; [done|]. by repeat constructor.
Qed.

(** The sample entry, with a device registered for it under the id
    [dev1]. *)
Lemma entities_and_services_share_client_witness :
  let hass :=
    {| domain_data := [("entry1", sample_entry)];
       device_registry := fun device_id =>
         if py_eq device_id (VStr "dev1") then Some [("tvoverlay_ui", "entry1")]
         else None;
       clientsession := {| closed := false |} |} in
  @_get_client sample_const hass
    (<["device_id" := VStr "dev1"]> {["host" := VStr "elsewhere:1"]})
  = Return (Some (client sample_entry)).
Proof.
  intros hass.
  exact (proj1 (@entities_and_services_share_client sample_const hass
                  sample_config_entry sample_entry
                  (<["device_id" := VStr "dev1"]> {["host" := VStr "elsewhere:1"]})
                  [] [] ∅ eq_refl eq_refl eq_refl)).
Defined.

(** ** Commands of the entities *)

(** What a request comes to, by the answer of the device. *)
Lemma request_by_answer net self endpoint data :
  let answer :=
    net (session_in_use self) (_base_url self +:+ endpoint) (default ∅ data) in
  (answers_ok answer = true ->
   _request net self endpoint data = ([], Return true))
  /\ (answers_ok answer = false ->
      (exists status text,
         _request net self endpoint data
         = ([LogApiError status text], Return false))
      \/ exists msg,
           _request net self endpoint data
           = ([], Raise (TvOverlayConnectionError msg))).
Proof.
  intros answer. rewrite request_cases. fold answer.
  destruct answer as [status text| |err]; simpl.
  - destruct (status =? 200)%Z; split; try done.
    intros _. left. eauto.
  - split; [done|]. intros _. right. eauto.
  - split; [done|]. intros _. right. eauto.
Qed.

Section switch_commands.
Context `{Const}.

Lemma switch_set_state net self state :
  (answers_ok (switch.exchange net self state) = true ->
   switch._set_state net self state
   = (switch.with_is_on self state, [StateWritten], Return tt))
  /\ (answers_ok (switch.exchange net self state) = false ->
      (switch._set_state net self state).1.1 = self).
Proof.
  unfold switch._set_state, switch.exchange, switch.endpoint_path,
    set_notifications, set_overlay, set_settings.
  cbv zeta.
  destruct (String.eqb (switch.key _) _);
    repeat destruct (String.eqb (switch.endpoint _) _);
    match goal with
    | |- context [_request ?n ?c ?ep ?d] =>
        destruct (request_by_answer n c ep d) as [Hok Hno]
    end;
    (split; intros Ha;
     [by rewrite (Hok Ha)
     |by destruct (Hno Ha) as [(status & text & ->)|(msg & ->)]]).
Qed.

Lemma switch_with_is_on_fields self state :
  switch.entity_description (switch.with_is_on self state)
  = switch.entity_description self
  /\ switch._client (switch.with_is_on self state) = switch._client self.
Proof. done. Qed.

Lemma switch_exchange_with_is_on net self s state :
  switch.exchange net (switch.with_is_on self s) state
  = switch.exchange net self state.
Proof. done. Qed.

Lemma switch_last_acknowledged_with_is_on self s commands :
  switch.last_acknowledged (switch.with_is_on self s) commands
  = switch.last_acknowledged self commands.
Proof.
  induction commands as [|command rest IH]; [done|].
  simpl. by rewrite IH, switch_exchange_with_is_on.
Qed.

Lemma switch_run_with_is_on self s commands :
  switch.run_commands (switch.with_is_on self s) commands
  = switch.with_is_on self
      (default s (switch.last_acknowledged self commands)).
Proof.
  revert s. induction commands as [|[state net] rest IH]; intros s; [done|].
  change (switch.run_commands (switch.with_is_on self s)
            ((state, net) :: rest))
    with (switch.run_commands
            (switch._set_state net (switch.with_is_on self s) state).1.1
            rest).
  destruct (switch_set_state net (switch.with_is_on self s) state)
    as [Hok Hno].
  rewrite switch_exchange_with_is_on in Hok, Hno.
  cbn [switch.last_acknowledged fst snd].
  destruct (answers_ok (switch.exchange net self state)) eqn:Ha.
  - rewrite (Hok eq_refl). cbn [fst].
    change (switch.with_is_on (switch.with_is_on self s) state)
      with (switch.with_is_on self state).
    rewrite IH. by destruct (switch.last_acknowledged self rest).
  - rewrite (Hno eq_refl), IH.
    by destruct (switch.last_acknowledged self rest).
Qed.
End switch_commands.

(** X18.  A switch shows the last state the device has acknowledged.  After
    any sequence of turn-on and turn-off commands, the switch is on exactly
    if the last command that the device answered with 200 was a turn-on, or,
    when no command was acknowledged, if it was on before (a new switch is
    taken to be on); nothing else of the switch changes.  The clock switch
    asks for the visibility 95 or 0, the others for the truth value. *)
Theorem switch_tracks_acknowledged_state `{Const}
    (self : switch.TvOverlaySwitch) (commands : list (bool * transport)) :
  switch.run_commands self commands
  = switch.with_is_on self
      (default (switch._attr_is_on self)
         (switch.last_acknowledged self commands))
  /\ (forall client entry_id device_name description,
        switch._attr_is_on
          (switch.run_commands
             (switch.__init__ client entry_id device_name description)
             commands)
        = default true
            (switch.last_acknowledged
               (switch.__init__ client entry_id device_name description)
               commands)).
Proof.
  assert (forall self,
             switch.run_commands self commands
             = switch.with_is_on self
                 (default (switch._attr_is_on self)
                    (switch.last_acknowledged self commands))) as Hrun.
  { intros sw.
    assert (sw = switch.with_is_on sw (switch._attr_is_on sw)) as Heta
      by (by destruct sw).
    rewrite Heta at 1. apply switch_run_with_is_on. }
  split; [apply Hrun|]. intros client entry_id device_name description.
  by rewrite Hrun.
Qed.

Lemma py_int_float_bounds (value : QArith_base.Q) (lo hi : Z) :
  QArith_base.Qle (QArith_base.inject_Z lo) value ->
  QArith_base.Qle value (QArith_base.inject_Z hi) ->
  (lo <= py_int_float value <= hi)%Z.
Proof.
  unfold QArith_base.Qle, py_int_float. destruct value as [num den].
  simpl. intros Hlo Hhi. split.
  - apply Z.quot_le_lower_bound; lia.
  - apply Z.quot_le_upper_bound; lia.
Qed.

Lemma py_int_float_integer (z : Z) :
  py_int_float (QArith_base.inject_Z z) = z.
Proof. unfold py_int_float. simpl. apply Z.quot_1_r. Qed.

Lemma number_set_native_value `{Const} net self value :
  (answers_ok (number.exchange net self (py_int_float value)) = true ->
   number.async_set_native_value net self value
   = (number.with_native_value self value, [StateWritten], Return tt))
  /\ (answers_ok (number.exchange net self (py_int_float value)) = false ->
      (number.async_set_native_value net self value).1.1 = self).
Proof.
  unfold number.async_set_native_value, number.exchange,
    number.endpoint_path, set_notifications, set_overlay.
  cbv zeta.
  destruct (String.eqb (number.endpoint _) _);
    match goal with
    | |- context [_request ?n ?c ?ep ?d] =>
        destruct (request_by_answer n c ep d) as [Hok Hno]
    end;
    (split; intros Ha;
     [by rewrite (Hok Ha)
     |by destruct (Hno Ha) as [(status & text & ->)|(msg & ->)]]).
Qed.

(** X19.  A number entity sends an integer within its range.  For a value
    between the minimum and the maximum of the description, the integer
    sent to the device, the value cut off towards zero, lies between them
    too, and is the value itself when the value is whole.  When the device
    answers 200 the entity takes the value as it was given, not the integer
    that was sent; otherwise it stays as it is. *)
Theorem number_sends_integer_in_range `{Const} (net : transport)
    (self : number.TvOverlayNumber) (value : QArith_base.Q) :
  QArith_base.Qle
    (QArith_base.inject_Z
       (number.native_min_value (number.entity_description self))) value ->
  QArith_base.Qle value
    (QArith_base.inject_Z
       (number.native_max_value (number.entity_description self))) ->
  (number.native_min_value (number.entity_description self)
   <= py_int_float value
   <= number.native_max_value (number.entity_description self))%Z
  /\ (forall z, value = QArith_base.inject_Z z -> py_int_float value = z)
  /\ (answers_ok (number.exchange net self (py_int_float value)) = true ->
      number.async_set_native_value net self value
      = (number.with_native_value self value, [StateWritten], Return tt))
  /\ (answers_ok (number.exchange net self (py_int_float value)) = false ->
      (number.async_set_native_value net self value).1.1 = self).
Proof.
  intros Hlo Hhi. split; [by apply py_int_float_bounds|].
  split; [intros z ->; apply py_int_float_integer|].
  apply number_set_native_value.
Qed.

(** The fixed-notifications visibility at -0.5: the integer sent is 0. *)
Lemma number_sends_integer_in_range_witness :
  let self :=
    number.__init__ sample_client "entry1" "Living room"
      {| number.key := "fixed_notifications_visibility";
         number.native_min_value := -1; number.native_max_value := 95;
         number.api_key := "fixedNotificationsVisibility";
         number.endpoint := "notifications" |} in
  let value := QArith_base.Qmake (-1) 2 in
  py_int_float value = 0%Z
  /\ (-1 <= py_int_float value <= 95)%Z.
Proof.
  intros self value. split; [reflexivity|].
  refine (proj1 (@number_sends_integer_in_range sample_const (answers 200)
                   self value _ _)).
  - unfold QArith_base.Qle. simpl. lia.
  - unfold QArith_base.Qle. simpl. lia.
Defined.

Section select_commands.
Context `{Const}.

Lemma select_local net self entry_data option :
  select.api_key (select.entity_description self) = None
  \/ select.endpoint (select.entity_description self) = None ->
  select.async_select_option net self entry_data option
  = (select.with_current_option self option,
     <[select.storage_key (select.entity_description self) := option]>
       entry_data,
     [StateWritten], Return tt).
Proof.
  unfold select.async_select_option. cbv zeta.
  intros [-> | ->]; [done|].
  by destruct (select.api_key _).
Qed.

Lemma select_remote net self entry_data option api_key :
  select.api_key (select.entity_description self) = Some api_key ->
  api_key <> "" ->
  select.endpoint (select.entity_description self) = Some "notifications" ->
  (answers_ok (select.exchange net self api_key option) = true ->
   select.async_select_option net self entry_data option
   = (select.with_current_option self option,
      <[select.storage_key (select.entity_description self) := option]>
        entry_data,
      [StateWritten], Return tt))
  /\ (answers_ok (select.exchange net self api_key option) = false ->
      (select.async_select_option net self entry_data option).1.1
      = (self, entry_data)).
Proof.
  intros Hk Hne He. unfold select.async_select_option, select.exchange.
  cbv zeta. rewrite Hk, He.
  assert (String.eqb api_key "" = false) as -> by (by apply String.eqb_neq).
  cbn [negb andb String.eqb Ascii.eqb Bool.eqb].
  change (String.eqb "notifications" "notifications") with true. cbn match.
  unfold set_notifications.
  match goal with
  | |- context [_request ?n ?c ?ep ?d] =>
      destruct (request_by_answer n c ep d) as [Hok Hno]
  end.
  split; intros Ha.
  - by rewrite (Hok Ha).
  - by destruct (Hno Ha) as [(status & text & ->)|(msg & ->)].
Qed.
End select_commands.

(** X20.  Round trip of a selection through the dict of the entry.  For
    each of the three described selects, a command either leaves the entity
    and the dict as they are, or sets the option on the entity and writes
    it to the dict under the storage key, and then an entity made anew from
    that dict shows the option, while the entities of the two other
    descriptions show what they showed before.  The corner and the shape,
    which have no API key, are always set, with no request made; the
    layout is set exactly when the device answers 200. *)
Theorem select_option_round_trip `{Const} (net : transport)
    (VALID_CORNERS VALID_SHAPES : list string)
    (self : select.TvOverlaySelect) (entry_data : gmap string string)
    (option : string) :
  In (select.entity_description self)
    (select.SELECT_DESCRIPTIONS VALID_CORNERS VALID_SHAPES) ->
  let out := select.async_select_option net self entry_data option in
  let set :=
    (select.with_current_option self option,
     <[select.storage_key (select.entity_description self) := option]>
       entry_data) in
  (out.1.1 = (self, entry_data) \/ out.1.1 = set)
  /\ (out.1.1 = set ->
      forall client entry_id device_name description,
        In description
          (select.SELECT_DESCRIPTIONS VALID_CORNERS VALID_SHAPES) ->
        select._attr_current_option
          (select.__init__ client entry_id device_name description
             out.1.1.2)
        = if String.eqb (select.key description)
               (select.key (select.entity_description self))
          then Some option
          else select._attr_current_option
                 (select.__init__ client entry_id device_name description
                    entry_data))
  /\ (select.api_key (select.entity_description self) = None ->
      out = (set.1, set.2, [StateWritten], Return tt))
  /\ (forall api_key,
        select.api_key (select.entity_description self) = Some api_key ->
        (answers_ok (select.exchange net self api_key option) = true ->
         out = (set.1, set.2, [StateWritten], Return tt))
        /\ (answers_ok (select.exchange net self api_key option) = false ->
            out.1.1 = (self, entry_data))).
Proof.
  intros Hd out set.
  assert (select.api_key (select.entity_description self) = None ->
          out = (set.1, set.2, [StateWritten], Return tt)) as Hlocal
    by (intros Hk; apply select_local; by left).
  assert (forall api_key,
             select.api_key (select.entity_description self) = Some api_key ->
             (answers_ok (select.exchange net self api_key option) = true ->
              out = (set.1, set.2, [StateWritten], Return tt))
             /\ (answers_ok (select.exchange net self api_key option) = false ->
                 out.1.1 = (self, entry_data))) as Hremote.
  { intros api_key Hk.
    assert (api_key <> ""
            /\ select.endpoint (select.entity_description self)
               = Some "notifications") as [Hne He].
    { destruct Hd as [Hd|[Hd|[Hd|[]]]]; rewrite <- Hd in Hk |- *;
        simpl in *; by simplify_eq. }
    by apply select_remote. }
  split; [|split; [|split; [exact Hlocal|exact Hremote]]].
  - destruct (select.api_key (select.entity_description self))
      as [api_key|] eqn:Hk.
    + destruct (Hremote api_key eq_refl) as [Hok Hno].
      destruct (answers_ok _); [right|left]; [by rewrite Hok|by apply Hno].
    + right. by rewrite Hlocal.
  - intros -> client entry_id device_name description Hin.
    unfold set. cbn [fst snd].
    destruct Hd as [<-|[<-|[<-|[]]]];
      destruct Hin as [<-|[<-|[<-|[]]]]; simpl;
      by rewrite ?lookup_insert_eq, ?lookup_insert_ne.
Qed.

(** The corner select of the sample entry, set to [bottom_start] on a
    network that times out: the option is set and stored. *)
Lemma select_option_round_trip_witness :
  let self :=
    select.__init__ sample_client "entry1" "Living room"
      {| select.key := "default_corner"; select.options_list := [];
         select.storage_key := "default_corner"; select.api_key := None;
         select.endpoint := None |} ∅ in
  select._attr_current_option self = Some "top_end"
  /\ @select.async_select_option sample_const times_out self ∅ "bottom_start"
     = (select.with_current_option self "bottom_start",
        {["default_corner" := "bottom_start"]}, [StateWritten], Return tt).
Proof.
  intros self. split; [reflexivity|].
  refine (proj1 (proj2 (proj2 (@select_option_round_trip sample_const
                                 times_out [] [] self ∅ "bottom_start" _)))
            eq_refl).
  right. left. reflexivity.
Defined.

Lemma request_outcome net self endpoint data :
  (exists log success,
     _request net self endpoint data = (log, Return success))
  \/ ((exists msg log,
         _request net self endpoint data
         = (log, Raise (TvOverlayConnectionError msg)))
      /\ forall status text,
           net (session_in_use self) (_base_url self +:+ endpoint)
             (default ∅ data) <> Response status text).
Proof.
  rewrite request_cases.
  destruct (net _ _ _) as [status text| |err].
  - left. destruct (status =? 200)%Z; eauto.
  - right. split; [eauto|done].
  - right. split; [eauto|done].
Qed.

(** Takes the first request of the goal apart by its outcome. *)
Ltac by_request_outcome Hnet :=
  match goal with
  | |- context [_request ?n ?c ?ep ?d] =>
      destruct (request_outcome n c ep d)
        as [(log & success & ->)|[(msg & log & ->) Hnet]]
  end.

(** X21.  What the commands of the entities raise.  A button press, a
    switch command, a number command and a select command raise nothing but
    [TvOverlayConnectionError], and when they raise, the entity, and for a
    select the dict of the entry, are as before.  When the device answers,
    whatever the status, every command returns normally. *)
Theorem entity_commands_raise_only_connection_error `{Const}
    (net : transport) :
  (forall self e,
     (button.async_press net self).2 = Raise e ->
     exists msg, e = TvOverlayConnectionError msg)
  /\ (forall self state e,
        (switch._set_state net self state).2 = Raise e ->
        (exists msg, e = TvOverlayConnectionError msg)
        /\ (switch._set_state net self state).1.1 = self)
  /\ (forall self value e,
        (number.async_set_native_value net self value).2 = Raise e ->
        (exists msg, e = TvOverlayConnectionError msg)
        /\ (number.async_set_native_value net self value).1.1 = self)
  /\ (forall self entry_data option e,
        (select.async_select_option net self entry_data option).2 = Raise e ->
        (exists msg, e = TvOverlayConnectionError msg)
        /\ (select.async_select_option net self entry_data option).1.1
           = (self, entry_data))
  /\ ((forall use url body, exists status text,
         net use url body = Response status text) ->
      (forall self, (button.async_press net self).2 = Return tt)
      /\ (forall self state,
            (switch._set_state net self state).2 = Return tt)
      /\ (forall self value,
            (number.async_set_native_value net self value).2 = Return tt)
      /\ (forall self entry_data option,
            (select.async_select_option net self entry_data option).2
            = Return tt)).
Proof.
  split; [|split; [|split; [|split]]].
  - intros self e. unfold button.async_press, send_notification.
    destruct (String.eqb _ _); [|done].
    by_request_outcome Hnet; [by destruct success|].
    intros [= <-]. eauto.
  - intros self state e.
    unfold switch._set_state, set_notifications, set_overlay, set_settings.
    cbv zeta.
    repeat destruct (String.eqb (switch.endpoint _) _);
      (by_request_outcome Hnet; [by destruct success|]);
      intros [= <-]; eauto.
  - intros self value e.
    unfold number.async_set_native_value, set_notifications, set_overlay.
    cbv zeta.
    destruct (String.eqb (number.endpoint _) _);
      (by_request_outcome Hnet; [by destruct success|]);
      intros [= <-]; eauto.
  - intros self entry_data option e.
    unfold select.async_select_option, set_notifications. cbv zeta.
    destruct (select.api_key _) as [api_key|]; [|done].
    destruct (select.endpoint _) as [endpoint|]; [|done].
    destruct (negb _ && negb _); [|done].
    destruct (String.eqb endpoint _); [|done].
    by_request_outcome Hnet; [by destruct success|].
    intros [= <-]. eauto.
  - intros Hanswers.
    assert (forall c ep d log msg,
               _request net c ep d
               <> (log, Raise (TvOverlayConnectionError msg))) as Hno.
    { intros c ep d log msg Heq.
      destruct (request_outcome net c ep d)
        as [(log' & success & Hr)|[_ Hnet]]; [congruence|].
      destruct (Hanswers (session_in_use c) (_base_url c +:+ ep)
                  (default ∅ d)) as (status & text & Ha).
      by apply (Hnet status text). }
    split; [|split; [|split]].
    + intros self. unfold button.async_press, send_notification.
      destruct (String.eqb _ _); [|done].
      destruct (_request _ _ _ _) as [log [success|e]] eqn:E;
        [by destruct success|].
      destruct (request_outcome net (button._client self) ENDPOINT_NOTIFY
                  (Some ∅)) as [(? & ? & Hr)|[(msg & ? & Hr) _]];
        [congruence|]. by apply Hno in Hr.
    + intros self state.
      unfold switch._set_state, set_notifications, set_overlay, set_settings.
      cbv zeta.
      repeat destruct (String.eqb (switch.endpoint _) _);
        (by_request_outcome Hnet; [by destruct success|]);
        exfalso;
        match goal with
        | Hn : forall status text, net ?u ?url ?b <> _ |- _ =>
            destruct (Hanswers u url b) as (status & text & Ha);
            by apply (Hn status text)
        end.
    + intros self value.
      unfold number.async_set_native_value, set_notifications, set_overlay.
      cbv zeta.
      destruct (String.eqb (number.endpoint _) _);
        (by_request_outcome Hnet; [by destruct success|]);
        exfalso;
        match goal with
        | Hn : forall status text, net ?u ?url ?b <> _ |- _ =>
            destruct (Hanswers u url b) as (status & text & Ha);
            by apply (Hn status text)
        end.
    + intros self entry_data option.
      unfold select.async_select_option, set_notifications. cbv zeta.
      destruct (select.api_key _) as [api_key|]; [|done].
      destruct (select.endpoint _) as [endpoint|]; [|done].
      destruct (negb _ && negb _); [|done].
      destruct (String.eqb endpoint _); [|done].
      by_request_outcome Hnet; [by destruct success|].
      exfalso.
      match goal with
      | Hn : forall status text, net ?u ?url ?b <> _ |- _ =>
          destruct (Hanswers u url b) as (status & text & Ha);
          by apply (Hn status text)
      end.
Qed.

(** ** Options flow *)

(** X22.  The options step changes the address of an entry exactly when the
    device at the new address answers.  One empty notification is posted to
    the new host and port, each taken from the entry when it is left out
    of the input; when the device answers 200 the entry gets that host and
    port and keeps its name, and the flow ends; in every other case the
    entry's data stay as they are and the form is shown again with the
    error [cannot_connect].  The error [unknown] is never shown. *)
Theorem options_flow_updates_iff_device_answers `{Const} (net : transport)
    (session : ClientSession) (config_entry_data : entry_config)
    (ui : config_flow.options_input) :
  let host :=
    default (CONF_HOST config_entry_data) (config_flow.options_host ui) in
  let port :=
    default (CONF_PORT config_entry_data) (config_flow.options_port ui) in
  let answer :=
    net (if closed session then Scoped DEFAULT_TIMEOUT else Shared)
      ("http://" +:+ host +:+ ":" +:+ py_str_int port +:+ ENDPOINT_NOTIFY)
      ∅ in
  let flow :=
    config_flow.async_step_init net session config_entry_data (Some ui) in
  (answers_ok answer = true ->
   flow.1.2 = {| CONF_HOST := host; CONF_PORT := port;
                 CONF_NAME := CONF_NAME config_entry_data |}
   /\ flow.2 = config_flow.OptionsCreateEntry "")
  /\ (answers_ok answer = false ->
      flow.1.2 = config_entry_data
      /\ flow.2 = config_flow.OptionsForm "init" [("base", "cannot_connect")])
  /\ ~ In config_flow.LogUnexpectedException flow.1.1
  /\ flow.2 <> config_flow.OptionsForm "init" [("base", "unknown")].
Proof.
  intros host port answer flow.
  destruct (test_connection_cases net
              {| _host := host; _port := port; _session := Some session;
                 oid := 0 |}) as [Hr Hl].
  assert (net (session_in_use
                 {| _host := host; _port := port; _session := Some session;
                    oid := 0 |})
            (_base_url {| _host := host; _port := port;
                          _session := Some session; oid := 0 |}
             +:+ ENDPOINT_NOTIFY) ∅ = answer) as Hanswer.
  { unfold answer, session_in_use, _base_url. simpl.
    by rewrite <- !string_app_assoc. }
  rewrite Hanswer in Hr.
  unfold flow, config_flow.async_step_init. cbv zeta.
  unfold host, port in *.
  destruct (test_connection net _) as [log r]. simpl in Hr, Hl.
  rewrite Hr. destruct (answers_ok answer); simpl.
  - split; [done|]. split; [done|]. split; [|done].
    intros Hin.
    apply list_elem_of_In, list_elem_of_fmap in Hin as (x & Hx & _). done.
  - split; [done|]. split; [done|]. split; [|done].
    intros Hin.
    apply list_elem_of_In, list_elem_of_fmap in Hin as (x & Hx & _). done.
Qed.
